(** * wikipedia-demo: the search server of [main.go], embedded and verified

    The development follows [main.go] top to bottom: Go's [int], the
    pagination model [Search], the library functions the handlers call
    ([strconv.Atoi], [fmt.Sprintf], [float64] arithmetic, [math.Ceil],
    [http.Error], [bytes.Buffer.WriteTo]), the handlers themselves, the
    error adapter [handlerWithError] and the logging middleware
    [requestLogger]. *)

From Stdlib Require Import ZArith Lia Bool List String Ascii.
From Stdlib Require Import DecimalString DecimalPos.
From Stdlib Require Import Floats.SpecFloat.
Import ListNotations.

Local Open Scope string_scope.
Local Open Scope Z_scope.

(** ** Go's [int] on a 64-bit target

    Values are integers in [[-2^63, 2^63)]; arithmetic wraps around. *)

Module GoInt.

Definition min_int : Z := - 2 ^ 63.
Definition max_int : Z := 2 ^ 63 - 1.

Definition in_range (z : Z) : bool := (min_int <=? z) && (z <=? max_int).

Definition wrap (z : Z) : Z := (z + 2 ^ 63) mod 2 ^ 64 - 2 ^ 63.

Definition add (x y : Z) : Z := wrap (x + y).
Definition sub (x y : Z) : Z := wrap (x - y).
Definition mul (x y : Z) : Z := wrap (x * y).

End GoInt.

(** ** The data model *)

(** One entry of [WikipediaSearchResponse.Query.Search]. *)
Record SearchEntry := {
  Ns : Z;
  Title : string;
  PageID : Z;
  Size : Z;
  WordCount : Z;
  Snippet : string;
  Timestamp : string
}.

(** [WikipediaSearchResponse]; the anonymous nested structs are flattened
    into one record, field by field. *)
Record WikipediaSearchResponse := {
  BatchComplete : string;
  Continue_Sroffset : Z;
  Continue_Continue : string;
  Query_SearchInfo_TotalHits : Z;
  Query_Search : list SearchEntry
}.

Record Search := {
  Query : string;
  TotalPages : Z;
  NextPage : Z;
  Results : option WikipediaSearchResponse
}.

Definition IsLastPage (s : Search) : bool :=
  NextPage s >=? TotalPages s.

Definition CurrentPage (s : Search) : Z :=
  if NextPage s =? 1 then NextPage s
  else GoInt.sub (NextPage s) 1.

Definition PreviousPage (s : Search) : Z :=
  GoInt.sub (CurrentPage s) 1.

(** ** [float64]

    IEEE 754 binary64 with round-to-nearest-even, as specified by
    [SpecFloat] for [prec = 53] and [emax = 1024]. *)

Module Float64.

Definition prec : Z := 53.
Definition emax : Z := 1024.

Definition float64 := spec_float.

(** The conversion [float64(n)] of an [int]. *)
Definition of_int (n : Z) : float64 := binary_normalize prec emax n 0 false.

(** The operator [/]. *)
Definition div (x y : float64) : float64 := SFdiv prec emax x y.

(** The least integer not below the number a finite float stands for:
    [(-1)^s * m * 2^e]. *)
Definition ceilZ (s : bool) (m : positive) (e : Z) : Z :=
  match e with
  | Zneg p => if s then - (Zpos m / 2 ^ Zpos p)
              else - ((- Zpos m) / 2 ^ Zpos p)
  | _ => (if s then - Zpos m else Zpos m) * 2 ^ e
  end.

(** [math.Ceil]: zeroes, infinities and NaN are returned as they are;
    a result of zero keeps the sign of the argument. *)
Definition Ceil (x : float64) : float64 :=
  match x with
  | S754_finite s m e => binary_normalize prec emax (ceilZ s m e) 0 s
  | _ => x
  end.

(** The integer part of a finite float, rounding toward zero. *)
Definition truncZ (s : bool) (m : positive) (e : Z) : Z :=
  match e with
  | Zneg p => (if s then -1 else 1) * (Zpos m / 2 ^ Zpos p)
  | _ => (if s then - Zpos m else Zpos m) * 2 ^ e
  end.

(** The conversion [int(x)]: the fraction is discarded; a value that
    [int] cannot hold (also an infinity or NaN) gives the amd64
    "integer indefinite" value, the smallest [int]. *)
Definition to_int (x : float64) : Z :=
  match x with
  | S754_zero _ => 0
  | S754_finite s m e =>
      let t := truncZ s m e in
      if GoInt.in_range t then t else GoInt.min_int
  | _ => GoInt.min_int
  end.

(** The second half of [binary_round_aux]: the rounded mantissa is
    brought back to 53 digits and packed. *)
Definition pack (s : bool) (m e : Z) : float64 :=
  let '(mrs, e') := shr_fexp prec emax m e loc_Exact in
  match shr_m mrs with
  | Z0 => S754_zero s
  | Zpos m' =>
      if e' <=? emax - prec then S754_finite s m' e' else S754_infinity s
  | Zneg _ => S754_nan
  end.

End Float64.

(** The expression [int(math.Ceil(float64(totalHits) / float64(pageSize)))]
    of [searchHandler]. *)
Definition totalPages (totalHits pageSize : Z) : Z :=
  Float64.to_int
    (Float64.Ceil
       (Float64.div (Float64.of_int totalHits) (Float64.of_int pageSize))).


(** ** Errors and panics *)

(** The two kinds of [error] value the program meets: a plain message
    ([errors.New], [fmt.Errorf]) and [*strconv.NumError]. *)
Inductive error :=
| errorString (msg : string)
| NumError (Func Num : string) (Err : error).

Inductive result (A : Type) :=
| Ok (a : A)
| Err (e : error).
Arguments Ok {A} a.
Arguments Err {A} e.

Definition ErrSyntax : error := errorString "invalid syntax".
Definition ErrRange : error := errorString "value out of range".
Definition ErrShortWrite : error := errorString "short write".

(** A value handed to [panic]; [any_nil] is the nil interface. *)
Inductive any :=
| any_nil
| any_string (s : string)
| any_error (e : error).

(** ** [strconv.Atoi] and [%d] *)

Definition is_digit (c : ascii) : bool :=
  ((48 <=? nat_of_ascii c) && (nat_of_ascii c <=? 57))%nat.

Definition digit_value (c : ascii) : Z := Z.of_nat (nat_of_ascii c) - 48.

Inductive scan := scan_value (n : Z) | scan_syntax | scan_range.

(** The digit loop of [strconv.ParseUint] in base 10 for 64 bits: the
    first offending byte decides between a syntax and a range error. *)
Fixpoint ParseUint_digits (n : Z) (s : string) : scan :=
  match s with
  | EmptyString => scan_value n
  | String c rest =>
      if negb (is_digit c) then scan_syntax
      else if n >=? 1844674407370955162 then scan_range
      else
        let n1 := n * 10 + digit_value c in
        if n1 >? 2 ^ 64 - 1 then scan_range
        else ParseUint_digits n1 rest
  end.

Definition Atoi (s : string) : result Z :=
  let syntax := Err (NumError "Atoi" s ErrSyntax) in
  let range := Err (NumError "Atoi" s ErrRange) in
  match s with
  | EmptyString => syntax
  | String c rest =>
      let neg := Ascii.eqb c "-" in
      let digits := if neg || Ascii.eqb c "+" then rest else s in
      match digits with
      | EmptyString => syntax
      | _ =>
          match ParseUint_digits 0 digits with
          | scan_syntax => syntax
          | scan_range => range
          | scan_value un =>
              if negb neg && (un >=? 2 ^ 63) then range
              else if neg && (un >? 2 ^ 63) then range
              else Ok (if neg then - un else un)
          end
      end
  end.

(** The verb [%d] applied to an [int]. *)
Definition Sprintf_d (n : Z) : string := NilZero.string_of_int (Z.to_int n).

(** ** [url.QueryEscape] *)

Definition is_alnum (c : ascii) : bool :=
  let n := nat_of_ascii c in
  (((48 <=? n) && (n <=? 57)) || ((65 <=? n) && (n <=? 90))
   || ((97 <=? n) && (n <=? 122)))%nat.

(** The bytes [QueryEscape] leaves as they are. *)
Definition unreserved (c : ascii) : bool :=
  is_alnum c || Ascii.eqb c "-" || Ascii.eqb c "_" || Ascii.eqb c "."
  || Ascii.eqb c "~".

Definition upperhex (n : nat) : ascii :=
  match String.get n "0123456789ABCDEF" with
  | Some c => c
  | None => "0"%char
  end.

Definition escape_byte (c : ascii) : string :=
  if unreserved c then String c EmptyString
  else if Ascii.eqb c " " then "+"
  else String "%" (String (upperhex (nat_of_ascii c / 16))
                     (String (upperhex (nat_of_ascii c mod 16)) EmptyString)).

Fixpoint QueryEscape (s : string) : string :=
  match s with
  | EmptyString => EmptyString
  | String c rest => escape_byte c ++ QueryEscape rest
  end.

Fixpoint all_unreserved (s : string) : bool :=
  match s with
  | EmptyString => true
  | String c rest => unreserved c && all_unreserved rest
  end.

(** ** The upstream URL *)

Definition apiPrefix : string :=
  "https://en.wikipedia.org/w/api.php?action=query&list=search&prop=info&inprop=url&utf8=&format=json&origin=*&srlimit=".

(** The [fmt.Sprintf] call of [searchWikipedia]: [%d], [%s], [%d]. *)
Definition apiURL (pageSize : Z) (searchQuery : string) (resultsOffset : Z)
  : string :=
  apiPrefix ++ Sprintf_d pageSize ++ "&srsearch=" ++ searchQuery
  ++ "&sroffset=" ++ Sprintf_d resultsOffset.

(** The URL as the contract of the upstream client words it: every
    parameter URL-encoded before it is placed in the query. *)
Definition apiURL_encoded (pageSize : Z) (searchQuery : string)
  (resultsOffset : Z) : string :=
  apiPrefix ++ QueryEscape (Sprintf_d pageSize) ++ "&srsearch="
  ++ QueryEscape searchQuery ++ "&sroffset="
  ++ QueryEscape (Sprintf_d resultsOffset).

(** ** HTTP values *)

(** [http.Header] and [url.Values]: a key maps to a list of values. *)
Definition http_Header := list (string * list string).
Definition url_Values := list (string * list string).

Fixpoint lookup (key : string) (m : list (string * list string))
  : list string :=
  match m with
  | [] => []
  | (k, vs) :: rest => if String.eqb k key then vs else lookup key rest
  end.

Fixpoint store (key : string) (vs : list string)
  (m : list (string * list string)) : list (string * list string) :=
  match m with
  | [] => [(key, vs)]
  | (k, old) :: rest =>
      if String.eqb k key then (k, vs) :: rest
      else (k, old) :: store key vs rest
  end.

Definition first_or_empty (vs : list string) : string :=
  match vs with
  | [] => ""
  | v :: _ => v
  end.

Definition Values_Get (v : url_Values) (key : string) : string :=
  first_or_empty (lookup key v).

(** [textproto.CanonicalMIMEHeaderKey]. *)
Definition validHeaderFieldByte (c : ascii) : bool :=
  is_alnum c
  || existsb (Ascii.eqb c) (list_ascii_of_string "!#$%&'*+-.^_`|~").

Definition to_upper (c : ascii) : ascii :=
  let n := nat_of_ascii c in
  if ((97 <=? n) && (n <=? 122))%nat then ascii_of_nat (n - 32) else c.

Definition to_lower (c : ascii) : ascii :=
  let n := nat_of_ascii c in
  if ((65 <=? n) && (n <=? 90))%nat then ascii_of_nat (n + 32) else c.

Fixpoint canonical_from (upper : bool) (s : string) : string :=
  match s with
  | EmptyString => EmptyString
  | String c rest =>
      String (if upper then to_upper c else to_lower c)
             (canonical_from (Ascii.eqb c "-") rest)
  end.

Definition CanonicalMIMEHeaderKey (s : string) : string :=
  if forallb validHeaderFieldByte (list_ascii_of_string s)
  then canonical_from true s else s.

Definition Header_Get (h : http_Header) (key : string) : string :=
  first_or_empty (lookup (CanonicalMIMEHeaderKey key) h).

Definition Header_Set (key value : string) (h : http_Header) : http_Header :=
  store (CanonicalMIMEHeaderKey key) [value] h.

Definition Header_Add (key value : string) (h : http_Header) : http_Header :=
  let k := CanonicalMIMEHeaderKey key in
  store k (lookup k h ++ [value])%list h.

Record url_URL := {
  Path : string;
  RawQuery : string
}.

(** ** zerolog *)

Inductive Level :=
| TraceLevel | DebugLevel | InfoLevel | WarnLevel | ErrorLevel
| FatalLevel | PanicLevel | NoLevel | Disabled.

Definition Level_rank (l : Level) : Z :=
  match l with
  | TraceLevel => -1
  | DebugLevel => 0
  | InfoLevel => 1
  | WarnLevel => 2
  | ErrorLevel => 3
  | FatalLevel => 4
  | PanicLevel => 5
  | NoLevel => 6
  | Disabled => 7
  end.

Inductive FieldValue :=
| FStr (s : string)
| FInt (n : Z)
| FDur (d : Z)
| FInterface (v : WikipediaSearchResponse).

Definition Field : Type := string * FieldValue.

(** A [zerolog.Logger]: the least level it lets through (its own level
    and the global one taken together) and the fields of its context. *)
Record Logger := {
  level : Level;
  context : list Field
}.

Definition UpdateContext (fields : list Field) (l : Logger) : Logger :=
  {| level := level l; context := (context l ++ fields)%list |}.

Definition disabledLogger : Logger := {| level := Disabled; context := [] |}.

(** What reaches a log: a line of the standard [log] package or an
    event of a zerolog logger. *)
Inductive LogEntry :=
| StdLog (line : string)
| Event (lvl : Level) (fields : list Field) (msg : string).

(** ** Requests *)

(** The values this program keeps in a request context. *)
Record Context := {
  ctx_correlation_id : option string;
  ctx_logger : option Logger
}.

Definition background : Context :=
  {| ctx_correlation_id := None; ctx_logger := None |}.

Record http_Request := {
  Method : string;
  URL : url_URL;
  ReqHeader : http_Header;
  ReqContext : Context
}.

Definition WithContext (r : http_Request) (ctx : Context) : http_Request :=
  {| Method := Method r; URL := URL r; ReqHeader := ReqHeader r;
     ReqContext := ctx |}.

Definition UserAgent (r : http_Request) : string :=
  Header_Get (ReqHeader r) "User-Agent".

(** [context.WithValue(ctx, "correlation_id", id)]. *)
Definition WithValue_correlation_id (ctx : Context) (id : string) : Context :=
  {| ctx_correlation_id := Some id; ctx_logger := ctx_logger ctx |}.

(** [l.WithContext(ctx)]: a disabled logger is not stored unless the
    context already holds one. *)
Definition Logger_WithContext (l : Logger) (ctx : Context) : Context :=
  match ctx_logger ctx, level l with
  | None, Disabled => ctx
  | _, _ =>
      {| ctx_correlation_id := ctx_correlation_id ctx; ctx_logger := Some l |}
  end.

(** [zerolog.Ctx(ctx)]. *)
Definition zerolog_Ctx (ctx : Context) : Logger :=
  match ctx_logger ctx with
  | Some l => l
  | None => disabledLogger
  end.

(** The reply of the upstream server: [Body] is what reading the body to
    its end gives. *)
Record http_Response := {
  StatusCode : Z;
  Body : result string
}.

Definition StatusOK : Z := 200.
Definition StatusNotFound : Z := 404.
Definition StatusInternalServerError : Z := 500.

(** ** The state the handlers act on *)

(** Everything outside the response that a request leaves a trace in:
    the log, the URLs fetched by [HTTPClient], the data handed to the
    template, and the clock. *)
Record World := {
  logs : list LogEntry;
  fetched : list string;
  rendered : list (option Search);
  now : Z
}.

Record St (W : Type) := {
  resp : W;
  world : World
}.
Arguments resp {W} s.
Arguments world {W} s.

Inductive Outcome (A : Type) :=
| Returns (a : A)
| Panics (v : any).
Arguments Returns {A} a.
Arguments Panics {A} v.

(** Computations on a response writer of type [W]: they change the state
    and return or panic. *)
Definition M (W A : Type) : Type := St W -> Outcome A * St W.

Definition ret {W A : Type} (a : A) : M W A := fun s => (Returns a, s).

Definition bind {W A B : Type} (m : M W A) (k : A -> M W B) : M W B :=
  fun s =>
    match m s with
    | (Returns a, s') => k a s'
    | (Panics v, s') => (Panics v, s')
    end.

Declare Scope go_scope.
Delimit Scope go_scope with go.
Notation "x <- c ;; k" := (bind c (fun x => k))
  (at level 61, c at next level, right associativity) : go_scope.
Notation "c ;; k" := (bind c (fun _ => k))
  (at level 61, right associativity) : go_scope.

Definition modify_world {W : Type} (f : World -> World) : M W unit :=
  fun s => (Returns tt, {| resp := resp s; world := f (world s) |}).

Definition log_entry {W : Type} (e : LogEntry) : M W unit :=
  modify_world (fun w =>
    {| logs := (logs w ++ [e])%list; fetched := fetched w;
       rendered := rendered w; now := now w |}).

(** [log.Println(err)]. *)
Definition log_Println {W : Type} (line : string) : M W unit :=
  log_entry (StdLog line).

(** [l.<Level>()....Msg(msg)]: the event is written when the logger lets
    its level through; it carries the context of the logger. *)
Definition emit {W : Type} (l : Logger) (lvl : Level) (fields : list Field)
  (msg : string) : M W unit :=
  if Level_rank (level l) <=? Level_rank lvl
  then log_entry (Event lvl (context l ++ fields)%list msg)
  else ret tt.

(** ** [http.ResponseWriter] *)

Class ResponseWriter (W : Type) := {
  Header : W -> http_Header;
  SetHeader : http_Header -> W -> W;
  Write : string -> W -> (Z * option error) * W;
  WriteHeader : Z -> W -> W
}.

Definition w_Header_Set {W : Type} `{ResponseWriter W} (key value : string)
  : M W unit :=
  fun s =>
    (Returns tt,
     {| resp := SetHeader (Header_Set key value (Header (resp s))) (resp s);
        world := world s |}).

Definition w_Header_Add {W : Type} `{ResponseWriter W} (key value : string)
  : M W unit :=
  fun s =>
    (Returns tt,
     {| resp := SetHeader (Header_Add key value (Header (resp s))) (resp s);
        world := world s |}).

Definition w_WriteHeader {W : Type} `{ResponseWriter W} (code : Z) : M W unit :=
  fun s =>
    (Returns tt, {| resp := WriteHeader code (resp s); world := world s |}).

Definition w_Write {W : Type} `{ResponseWriter W} (data : string)
  : M W (Z * option error) :=
  fun s =>
    let '(r, w') := Write data (resp s) in
    (Returns r, {| resp := w'; world := world s |}).

(** [http.Error]: two headers, the status line, then the message and a
    newline ([fmt.Fprintln]); the outcome of the write is dropped. *)
Definition http_Error {W : Type} `{ResponseWriter W} (error : string)
  (code : Z) : M W unit :=
  (w_Header_Set "Content-Type" "text/plain; charset=utf-8" ;;
   w_Header_Set "X-Content-Type-Options" "nosniff" ;;
   w_WriteHeader code ;;
   _ <- w_Write (error ++ String "010" EmptyString) ;;
   ret tt)%go.

Definition http_NotFound {W : Type} `{ResponseWriter W} (r : http_Request)
  : M W unit :=
  http_Error "404 page not found" StatusNotFound.

(** [WriteTo] of [bytes.Buffer], on a buffer holding [buf]. *)
Definition Buffer_WriteTo {W : Type} `{ResponseWriter W} (buf : string)
  : M W (option error) :=
  let nBytes := Z.of_nat (String.length buf) in
  if nBytes >? 0 then
    (p <- w_Write buf ;;
     let '(m, e) := p in
     if m >? nBytes then
       fun s => (Panics (any_string "bytes.Buffer.WriteTo: invalid Write count"), s)
     else
       match e with
       | Some e' => ret (Some e')
       | None => if negb (m =? nBytes) then ret (Some ErrShortWrite)
                 else ret None
       end)%go
  else ret None.

(** An in-memory response, in the manner of [httptest.ResponseRecorder]:
    the status is 200 until [WriteHeader] sets it, the first [Write]
    commits the header, and a second [WriteHeader] changes nothing.  The
    [Content-Type] header that the first [Write] would guess from the
    content is left out. *)
Record recorder := {
  Code : Z;
  HeaderMap : http_Header;
  BodyBytes : string;
  wroteHeader : bool
}.

Definition NewRecorder : recorder :=
  {| Code := 200; HeaderMap := []; BodyBytes := ""; wroteHeader := false |}.

Definition recorder_WriteHeader (code : Z) (rw : recorder) : recorder :=
  if wroteHeader rw then rw
  else {| Code := code; HeaderMap := HeaderMap rw;
          BodyBytes := BodyBytes rw; wroteHeader := true |}.

Definition recorder_Write (buf : string) (rw : recorder)
  : (Z * option error) * recorder :=
  let rw' := recorder_WriteHeader 200 rw in
  ((Z.of_nat (String.length buf), None),
   {| Code := Code rw'; HeaderMap := HeaderMap rw';
      BodyBytes := BodyBytes rw' ++ buf; wroteHeader := wroteHeader rw' |}).

#[export] Instance recorder_ResponseWriter : ResponseWriter recorder := {
  Header := HeaderMap;
  SetHeader := fun h rw =>
    {| Code := Code rw; HeaderMap := h; BodyBytes := BodyBytes rw;
       wroteHeader := wroteHeader rw |};
  Write := recorder_Write;
  WriteHeader := recorder_WriteHeader
}.

(** [loggingResponseWriter]: embeds a writer and remembers the status. *)
Record loggingResponseWriter (W : Type) := {
  embedded : W;
  statusCode : Z
}.
Arguments embedded {W} l.
Arguments statusCode {W} l.

Definition newLoggingResponseWriter {W : Type} (w : W)
  : loggingResponseWriter W :=
  {| embedded := w; statusCode := StatusOK |}.

(** [Header] and [Write] are promoted from the embedded writer;
    [WriteHeader] is the method of [loggingResponseWriter]. *)
#[export] Instance loggingResponseWriter_ResponseWriter
  {W : Type} `{ResponseWriter W} : ResponseWriter (loggingResponseWriter W) := {
  Header := fun lrw => Header (embedded lrw);
  SetHeader := fun h lrw =>
    {| embedded := SetHeader h (embedded lrw); statusCode := statusCode lrw |};
  Write := fun data lrw =>
    let '(r, w') := Write data (embedded lrw) in
    (r, {| embedded := w'; statusCode := statusCode lrw |});
  WriteHeader := fun code lrw =>
    {| embedded := WriteHeader code (embedded lrw); statusCode := code |}
}.

(** An [http.Handler]. *)
Definition Handler (W : Type) : Type := http_Request -> M W unit.

(** [handlerWithError]. *)
Definition handlerWithError (W : Type) : Type :=
  http_Request -> M W (option error).


(** ** What the program takes from outside

    The library functions that are not spelled out above, the upstream
    server, the parsed template [tpl] and the logger of the package
    [logger], which is not part of [main.go]. *)
Record Env := {
  url_Parse : string -> result url_URL;
  URL_String : url_URL -> string;
  URL_Query : url_URL -> url_Values;
  URL_RequestURI : url_URL -> string;
  strconv_Quote : string -> string;
  HTTPClient_Get : string -> result http_Response;
  DumpResponse : http_Response -> result string;
  json_Unmarshal : string -> result WikipediaSearchResponse;
  tpl_Execute : option Search -> result string;
  logger_Get : Logger
}.

(** The method [Error()] of an [error]. *)
Fixpoint Error (env : Env) (e : error) : string :=
  match e with
  | errorString msg => msg
  | NumError fn num err =>
      "strconv." ++ fn ++ ": parsing " ++ strconv_Quote env num ++ ": "
      ++ Error env err
  end.

(** [HTTPClient.Get(url)]: the URL is noted, the upstream answers. *)
Definition Get {W : Type} (env : Env) (url : string)
  : M W (result http_Response) :=
  (modify_world (fun w =>
     {| logs := logs w; fetched := (fetched w ++ [url])%list;
        rendered := rendered w; now := now w |}) ;;
   ret (HTTPClient_Get env url))%go.

(** [tpl.Execute(buf, data)] on a fresh buffer: the data is noted; the
    result is the content of the buffer or the error. *)
Definition Execute {W : Type} (env : Env) (data : option Search)
  : M W (result string) :=
  (modify_world (fun w =>
     {| logs := logs w; fetched := fetched w;
        rendered := (rendered w ++ [data])%list; now := now w |}) ;;
   ret (tpl_Execute env data))%go.

(** ** The handlers of [main.go] *)

Definition ServeHTTP {W : Type} `{ResponseWriter W} (env : Env)
  (fn : handlerWithError W) : Handler W :=
  fun r =>
    (err <- fn r ;;
     match err with
     | Some e =>
         log_Println (Error env e) ;;
         http_Error (Error env e) StatusInternalServerError
     | None => ret tt
     end)%go.

Definition indexHandler {W : Type} `{ResponseWriter W} (env : Env)
  : handlerWithError W :=
  fun r =>
    (if negb (String.eqb (Path (URL r)) "/") then
       http_NotFound r ;;
       ret None
     else
       out <- Execute env None ;;
       match out with
       | Err e => ret (Some e)
       | Ok buf => Buffer_WriteTo buf
       end)%go.

Definition searchWikipedia {W : Type} (env : Env) (searchQuery : string)
  (pageSize resultsOffset : Z) : M W (result WikipediaSearchResponse) :=
  (got <- Get env (apiURL pageSize searchQuery resultsOffset) ;;
   match got with
   | Err e => ret (Err e)
   | Ok resp =>
       if negb (StatusCode resp =? StatusOK) then
         let respData :=
           match DumpResponse env resp with
           | Ok d => d
           | Err _ => ""
           end in
         ret (Err (errorString
                     ("non 200 OK response from Wikipedia API: " ++ respData)))
       else
         match Body resp with
         | Err e => ret (Err e)
         | Ok body =>
             match json_Unmarshal env body with
             | Err e => ret (Err e)
             | Ok searchResponse => ret (Ok searchResponse)
             end
         end
   end)%go.

Definition searchHandler {W : Type} `{ResponseWriter W} (env : Env)
  : handlerWithError W :=
  fun r =>
    match url_Parse env (URL_String env (URL r)) with
    | Err e => ret (Some e)
    | Ok u =>
        let params := URL_Query env u in
        let searchQuery := Values_Get params "q" in
        let pageNum := Values_Get params "page" in
        let pageNum := if String.eqb pageNum "" then "1" else pageNum in
        let l := zerolog_Ctx (ReqContext r) in
        let l := UpdateContext [("search_query", FStr searchQuery);
                                ("page_num", FStr pageNum)] l in
        (emit l InfoLevel []
           ("incoming search query '" ++ searchQuery ++ "' on page '"
            ++ pageNum ++ "'") ;;
         match Atoi pageNum with
         | Err e => ret (Some e)
         | Ok nextPage =>
             let pageSize := 20 in
             let resultsOffset := GoInt.mul (GoInt.sub nextPage 1) pageSize in
             found <- searchWikipedia env searchQuery pageSize resultsOffset ;;
             match found with
             | Err e => ret (Some e)
             | Ok searchResponse =>
                 emit l DebugLevel
                   [("wikipedia_search_response", FInterface searchResponse)]
                   "" ;;
                 let totalHits := Query_SearchInfo_TotalHits searchResponse in
                 let search :=
                   {| Query := searchQuery;
                      Results := Some searchResponse;
                      TotalPages := totalPages totalHits pageSize;
                      NextPage := GoInt.add nextPage 1 |} in
                 out <- Execute env (Some search) ;;
                 match out with
                 | Err e => ret (Some e)
                 | Ok buf =>
                     err <- Buffer_WriteTo buf ;;
                     match err with
                     | Some e => ret (Some e)
                     | None =>
                         emit l TraceLevel []
                           ("search query '" ++ searchQuery
                            ++ "' succeeded without errors") ;;
                         ret None
                     end
                 end
             end
         end)%go
    end.

(** [recover()] in a deferred call: the value of the panic under way,
    nil when there is none.  Under the language version of [go.mod]
    (1.19) a [panic(nil)] is recovered as nil as well. *)
Definition recover {A : Type} (o : Outcome A) : any :=
  match o with
  | Returns _ => any_nil
  | Panics v => v
  end.

(** [requestLogger(next)] serving one request, run up to the end of its
    deferred function; the final state still shows the
    [loggingResponseWriter] the middleware made.  [correlationID] is the
    value of [xid.New().String()] for this request. *)
Definition requestLogger_run {W : Type} `{ResponseWriter W} (env : Env)
  (next : forall W' : Type, ResponseWriter W' -> Handler W')
  (correlationID : string) (r : http_Request) (s0 : St W)
  : Outcome unit * St (loggingResponseWriter W) :=
  let start := now (world s0) in
  let l := logger_Get env in
  let ctx := WithValue_correlation_id (ReqContext r) correlationID in
  let r := WithContext r ctx in
  let l := UpdateContext [("correlation_id", FStr correlationID)] l in
  let '(_, s1) := w_Header_Add "X-Correlation-ID" correlationID s0 in
  let lrw := newLoggingResponseWriter (resp s1) in
  let r := WithContext r (Logger_WithContext l (ReqContext r)) in
  let '(o, s2) := next _ _ r {| resp := lrw; world := world s1 |} in
  (* the deferred function *)
  match recover o with
  | any_nil =>
      emit l InfoLevel
        [("method", FStr (Method r));
         ("url", FStr (URL_RequestURI env (URL r)));
         ("user_agent", FStr (UserAgent r));
         ("elapsed_ms", FDur (now (world s2) - start));
         ("status_code", FInt (statusCode (resp s2)))]
        "incoming request" s2
  | panicVal =>
      (Panics panicVal,
       {| resp := {| embedded := embedded (resp s2);
                     statusCode := StatusInternalServerError |};
          world := world s2 |})
  end.

Definition requestLogger {W : Type} `{ResponseWriter W} (env : Env)
  (next : forall W' : Type, ResponseWriter W' -> Handler W')
  (correlationID : string) : Handler W :=
  fun r s =>
    let '(o, s') := requestLogger_run env next correlationID r s in
    (o, {| resp := embedded (resp s'); world := world s' |}).

(** ** Reading a run of [searchHandler] *)

(** The [page] parameter after the default is applied. *)
Definition pageParam (params : url_Values) : string :=
  let pageNum := Values_Get params "page" in
  if String.eqb pageNum "" then "1" else pageNum.

(** The request [r] asks for [searchQuery] on page [p]: its URL parses,
    [q] is [searchQuery] and the page parameter is the integer [p]. *)
Definition asks_for (env : Env) (r : http_Request) (searchQuery : string)
  (p : Z) : Prop :=
  exists u,
    url_Parse env (URL_String env (URL r)) = Ok u /\
    Values_Get (URL_Query env u) "q" = searchQuery /\
    Atoi (pageParam (URL_Query env u)) = Ok p.

(** The upstream answers the GET of [url] with status 200 and a body
    that decodes to [found]. *)
Definition upstream_finds (env : Env) (url : string)
  (found : WikipediaSearchResponse) : Prop :=
  exists resp body,
    HTTPClient_Get env url = Ok resp /\
    StatusCode resp = StatusOK /\
    Body resp = Ok body /\
    json_Unmarshal env body = Ok found.

(** The [Search] value [searchHandler] builds for page [p]. *)
Definition searchModel (searchQuery : string) (p : Z)
  (found : WikipediaSearchResponse) : Search :=
  {| Query := searchQuery;
     TotalPages := totalPages (Query_SearchInfo_TotalHits found) 20;
     NextPage := GoInt.add p 1;
     Results := Some found |}.

(** A response nothing has been written to. *)
Definition untouched (rw : recorder) : Prop :=
  wroteHeader rw = false /\ Code rw = 200 /\ BodyBytes rw = "".

Definition newline : string := String "010" EmptyString.

(** The request and the state [requestLogger] hands to [next]. *)
Definition served_request (env : Env) (correlationID : string)
  (r : http_Request) : http_Request :=
  let r1 := WithContext r
              (WithValue_correlation_id (ReqContext r) correlationID) in
  WithContext r1
    (Logger_WithContext
       (UpdateContext [("correlation_id", FStr correlationID)]
          (logger_Get env))
       (ReqContext r1)).

Definition served_state {W : Type} `{ResponseWriter W}
  (correlationID : string) (s0 : St W) : St (loggingResponseWriter W) :=
  {| resp := newLoggingResponseWriter
               (SetHeader
                  (Header_Add "X-Correlation-ID" correlationID
                     (Header (resp s0)))
                  (resp s0));
     world := world s0 |}.

(** The integer ceiling of [h / n] for a positive [n]. *)
Definition ceil_div (h n : Z) : Z := - ((- h) / n).

(** The pages for which [(p - 1) * 20] fits an [int]. *)
Definition offset_fits (p : Z) : Prop :=
  -461168601842738789 <= p <= 461168601842738791.

(** ** A stub environment

    A stand-in for the world outside: the upstream always answers with
    the given status and hit count, the template renders a fixed page or
    fails. *)

Fixpoint split_at (sep : ascii) (s : string) : string * option string :=
  match s with
  | EmptyString => (EmptyString, None)
  | String c rest =>
      if Ascii.eqb c sep then (EmptyString, Some rest)
      else let '(a, b) := split_at sep rest in (String c a, b)
  end.

Fixpoint split_pairs (fuel : nat) (s : string) : url_Values :=
  match fuel with
  | O => []
  | S fuel' =>
      let '(kv, more) := split_at "&" s in
      let '(k, v) := split_at "=" kv in
      let v' := match v with Some x => x | None => "" end in
      let rest := match more with
                  | Some m => split_pairs fuel' m
                  | None => []
                  end in
      store k (v' :: lookup k rest) rest
  end.

Definition stub_URL_String (u : url_URL) : string :=
  if String.eqb (RawQuery u) "" then Path u
  else Path u ++ "?" ++ RawQuery u.

Definition stub_url_Parse (s : string) : result url_URL :=
  let '(path, query) := split_at "?" s in
  Ok {| Path := path;
        RawQuery := match query with Some q => q | None => "" end |}.

Definition stub_found (totalhits : Z) : WikipediaSearchResponse :=
  {| BatchComplete := "";
     Continue_Sroffset := 0;
     Continue_Continue := "";
     Query_SearchInfo_TotalHits := totalhits;
     Query_Search := [] |}.

Definition stub (status totalhits : Z) (page : result string) : Env :=
  {| url_Parse := stub_url_Parse;
     URL_String := stub_URL_String;
     URL_Query := fun u =>
       split_pairs (S (String.length (RawQuery u))) (RawQuery u);
     URL_RequestURI := stub_URL_String;
     strconv_Quote := fun s => String "034" (s ++ String "034" EmptyString);
     HTTPClient_Get := fun _ =>
       Ok {| StatusCode := status; Body := Ok "{}" |};
     DumpResponse := fun resp =>
       Ok ("HTTP/1.1 " ++ Sprintf_d (StatusCode resp));
     json_Unmarshal := fun _ => Ok (stub_found totalhits);
     tpl_Execute := fun _ => page;
     logger_Get := {| level := InfoLevel; context := [] |} |}.

Definition get (path query : string) : http_Request :=
  {| Method := "GET";
     URL := {| Path := path; RawQuery := query |};
     ReqHeader := [("User-Agent", ["curl/8"])];
     ReqContext := background |}.

Definition fresh : St recorder :=
  {| resp := NewRecorder;
     world := {| logs := []; fetched := []; rendered := []; now := 0 |} |}.

(** A handler that panics with the given value. *)
Definition panicking (v : any) (W : Type) (_ : ResponseWriter W) : Handler W :=
  fun _ s => (Panics v, s).


(** Two handlers that return an error: at once, and after writing. *)
Definition failing {W : Type} : handlerWithError W :=
  fun _ => ret (Some (errorString "boom")).

Definition failing_late {W : Type} `{ResponseWriter W} : handlerWithError W :=
  fun _ => (_ <- w_Write "partial" ;; ret (Some (errorString "boom")))%go.

Definition page : string := "<html>".

(** ** Reading runs in general *)

(** [R] relates the state before every run of [m] to the state after. *)
Definition keeps {W A : Type} (R : St W -> St W -> Prop) (m : M W A) : Prop :=
  forall s, R s (snd (m s)).

(** A writer whose [Write] takes all the bytes and reports no error. *)
Definition reliable (W : Type) `{ResponseWriter W} : Prop :=
  forall data w, fst (Write data w) = (Z.of_nat (String.length data), None).

(** The writer after [buf] went through [WriteTo]: an empty buffer does
    not reach [Write]. *)
Definition written {W : Type} `{ResponseWriter W} (buf : string) (w : W) : W :=
  if Z.of_nat (String.length buf) >? 0 then snd (Write buf w) else w.

(** The log grew, by entries that all satisfy [P]. *)
Definition logged {W : Type} (P : LogEntry -> Prop) (s s' : St W) : Prop :=
  exists new,
    logs (world s') = (logs (world s) ++ new)%list /\ Forall P new.

(** An event of a logger whose context is [ctx], let through by [lvl0]. *)
Definition event_of (lvl0 : Level) (ctx : list Field) (e : LogEntry) : Prop :=
  exists lvl fields msg,
    e = Event lvl (ctx ++ fields)%list msg /\
    Level_rank lvl0 <= Level_rank lvl <= Level_rank InfoLevel.

(** A writer whose header map is only changed through the map. *)
Definition lawful_headers (W : Type) `{ResponseWriter W} : Prop :=
  (forall h w, Header (SetHeader h w) = h) /\
  (forall data w, Header (snd (Write data w)) = Header w) /\
  (forall code w, Header (WriteHeader code w) = Header w).

(** A zerolog event carries the correlation identifier [id]; lines of
    the standard logger have no fields. *)
Definition carries (id : string) (e : LogEntry) : Prop :=
  match e with
  | Event _ fields _ => In ("correlation_id", FStr id) fields
  | StdLog _ => True
  end.

(** The values of the header [X-Correlation-ID] are the same. *)
Definition same_correlation_header {W : Type} `{ResponseWriter W}
  (s s' : St W) : Prop :=
  lookup "X-Correlation-Id" (Header (resp s')) =
  lookup "X-Correlation-Id" (Header (resp s)).

(** The status the middleware has captured is the status of the
    response, and a response not yet started stands at 200. *)
Definition status_in_step (lrw : loggingResponseWriter recorder) : Prop :=
  statusCode lrw = Code (embedded lrw) /\
  (wroteHeader (embedded lrw) = false -> Code (embedded lrw) = 200).

(** [next] as [main] composes it for one route: the adapter around a
    handler that returns an error. *)
Definition adapted (env : Env)
  (fn : forall W : Type, ResponseWriter W -> handlerWithError W)
  (W : Type) (H : ResponseWriter W) : Handler W :=
  ServeHTTP env (fn W H).

(** ** Facts about [float64] *)

Module Float64Facts.
Import Float64.

Lemma digits2_pos_bounds (p : positive) :
  2 ^ (Zpos (digits2_pos p) - 1) <= Zpos p < 2 ^ Zpos (digits2_pos p).
Proof.
  induction p as [p IH | p IH |]; cbn [digits2_pos].
  - rewrite Pos2Z.inj_succ, Z.pow_succ_r by lia.
    replace (Z.succ (Zpos (digits2_pos p)) - 1)
      with (Z.succ (Zpos (digits2_pos p) - 1)) by lia.
    rewrite Z.pow_succ_r by lia. lia.
  - rewrite Pos2Z.inj_succ, Z.pow_succ_r by lia.
    replace (Z.succ (Zpos (digits2_pos p)) - 1)
      with (Z.succ (Zpos (digits2_pos p) - 1)) by lia.
    rewrite Z.pow_succ_r by lia. lia.
  - cbn. lia.
Qed.

Lemma digits2_pos_53 (q : positive) :
  2 ^ 52 <= Zpos q < 2 ^ 53 -> digits2_pos q = 53%positive.
Proof.
  intros [Hlo Hhi].
  pose proof (digits2_pos_bounds q) as [Blo Bhi].
  destruct (Z.lt_trichotomy (Zpos (digits2_pos q)) 53) as [Hd | [Hd | Hd]].
  - assert (2 ^ Zpos (digits2_pos q) <= 2 ^ 52)
      by (apply Z.pow_le_mono_r; lia).
    lia.
  - congruence.
  - assert (2 ^ 53 <= 2 ^ (Zpos (digits2_pos q) - 1))
      by (apply Z.pow_le_mono_r; lia).
    lia.
Qed.

Lemma digits2_pos_54 (q : positive) :
  2 ^ 53 <= Zpos q < 2 ^ 54 -> digits2_pos q = 54%positive.
Proof.
  intros [Hlo Hhi].
  pose proof (digits2_pos_bounds q) as [Blo Bhi].
  destruct (Z.lt_trichotomy (Zpos (digits2_pos q)) 54) as [Hd | [Hd | Hd]].
  - assert (2 ^ Zpos (digits2_pos q) <= 2 ^ 53)
      by (apply Z.pow_le_mono_r; lia).
    lia.
  - congruence.
  - assert (2 ^ 54 <= 2 ^ (Zpos (digits2_pos q) - 1))
      by (apply Z.pow_le_mono_r; lia).
    lia.
Qed.

Lemma fexp_normal (x : Z) : -1021 <= x -> fexp prec emax x = x - 53.
Proof. intros H. unfold fexp, emin, prec, emax. lia. Qed.

Lemma binary_round_aux_pack (s : bool) (m e : Z) (l : location) :
  binary_round_aux prec emax s m e l =
  let '(mrs, e') := shr_fexp prec emax m e l in
  pack s (round_nearest_even (shr_m mrs) (loc_of_shr_record mrs)) e'.
Proof. reflexivity. Qed.

Lemma pack_53 (s : bool) (q : positive) (e : Z) :
  2 ^ 52 <= Zpos q < 2 ^ 53 -> -1074 <= e <= 971 ->
  pack s (Zpos q) e = S754_finite s q e.
Proof.
  intros Hq He. unfold pack, shr_fexp, Zdigits2.
  rewrite (digits2_pos_53 q Hq), fexp_normal by lia.
  replace (53 + e - 53 - e) with 0 by lia. cbn [shr shr_record_of_loc shr_m].
  replace (e <=? emax - prec) with true
    by (symmetry; apply Z.leb_le; unfold emax, prec; lia).
  reflexivity.
Qed.

Lemma pack_2p53 (s : bool) (e : Z) :
  -1074 <= e <= 970 ->
  pack s (2 ^ 53) e = S754_finite s (2 ^ 52) (e + 1).
Proof.
  intros He. unfold pack, shr_fexp.
  change (Zdigits2 (2 ^ 53)) with 54.
  rewrite fexp_normal by lia.
  replace (54 + e - 53 - e) with 1 by lia.
  cbn [shr iter_pos shr_record_of_loc]. cbn [shr_1 Z.pow Z.pow_pos Pos.iter Z.mul Pos.mul shr_m].
  replace (e + 1 <=? emax - prec) with true
    by (symmetry; apply Z.leb_le; unfold emax, prec; lia).
  reflexivity.
Qed.

Lemma pack_le (s : bool) (m e : Z) :
  2 ^ 52 <= m <= 2 ^ 53 -> -1074 <= e <= 970 ->
  exists M E, pack s m e = S754_finite s M E /\
              e <= E <= e + 1 /\ Zpos M * 2 ^ (E - e) = m.
Proof.
  intros Hm He.
  destruct (Z.eq_dec m (2 ^ 53)) as [-> | Hne].
  - exists (2 ^ 52)%positive, (e + 1). rewrite pack_2p53 by lia.
    replace (e + 1 - e) with 1 by lia. repeat split; lia.
  - destruct m as [| q | q]; try lia.
    exists q, e. rewrite pack_53 by lia.
    replace (e - e) with 0 by lia. repeat split; lia.
Qed.

Lemma loc_of_shr_record_of_loc (m : Z) (l : location) :
  loc_of_shr_record (shr_record_of_loc m l) = l.
Proof. destruct l as [| []]; reflexivity. Qed.

(** Rounding a quotient of 53 or 54 digits: the result is finite and
    within one unit of the truncated quotient [q]. *)
Lemma binary_round_aux_near (s : bool) (q : positive) (e : Z) (l : location) :
  2 ^ 52 <= Zpos q < 2 ^ 54 -> -1074 <= e <= 960 ->
  exists M E,
    binary_round_aux prec emax s (Zpos q) e l = S754_finite s M E /\
    e <= E <= e + 2 /\
    Zpos q - 1 <= Zpos M * 2 ^ (E - e) <= Zpos q + 1 /\
    (Z.even (Zpos q) = true -> l = loc_Exact ->
     Zpos M * 2 ^ (E - e) = Zpos q) /\
    (Z.odd (Zpos q) = true -> l <> loc_Exact ->
     Zpos q <= Zpos M * 2 ^ (E - e)).
Proof.
  intros Hq He. rewrite binary_round_aux_pack.
  destruct (Z_lt_le_dec (Zpos q) (2 ^ 53)) as [Hlt | Hge].
  - (* 53 digits: no shift before rounding *)
    unfold shr_fexp, Zdigits2.
    rewrite (digits2_pos_53 q) by lia. rewrite fexp_normal by lia.
    replace (53 + e - 53 - e) with 0 by lia. cbn [shr].
    rewrite loc_of_shr_record_of_loc.
    replace (shr_m (shr_record_of_loc (Zpos q) l)) with (Zpos q)
      by (destruct l as [| []]; reflexivity).
    set (m' := round_nearest_even (Zpos q) l).
    assert (Hm' : Zpos q <= m' <= Zpos q + 1 /\
                  (l = loc_Exact -> m' = Zpos q)).
    { subst m'. destruct l as [| []]; cbn [round_nearest_even];
        try destruct (Z.even (Zpos q)); split; (lia || reflexivity || discriminate). }
    destruct Hm' as [Hb Hex].
    destruct (pack_le s m' e) as (M & E & HP & HE & HV); try lia.
    exists M, E. rewrite HP, HV. repeat split; try lia.
    intros _ Hl. auto.
  - (* 54 digits: one bit is shifted out before rounding *)
    unfold shr_fexp, Zdigits2.
    rewrite (digits2_pos_54 q) by lia. rewrite fexp_normal by lia.
    replace (54 + e - 53 - e) with 1 by lia. cbn [shr iter_pos].
    destruct q as [p | p |]; [ | | cbn in Hge; lia ].
    + (* odd quotient: the round bit is set *)
      assert (Hp : 2 ^ 52 <= Zpos p < 2 ^ 53) by lia.
      set (mrs := shr_1 (shr_record_of_loc (Zpos p~1) l)).
      set (m' := round_nearest_even (shr_m mrs) (loc_of_shr_record mrs)).
      assert (Hm' : Zpos p <= m' <= Zpos p + 1 /\
                    (l <> loc_Exact -> m' = Zpos p + 1)).
      { subst m' mrs. destruct l as [| []];
          cbn [shr_record_of_loc shr_1 orb shr_m loc_of_shr_record
               round_nearest_even];
          try destruct (Z.even (Zpos p)); split; (lia || reflexivity || congruence). }
      destruct Hm' as [Hb Hin].
      destruct (pack_le s m' (e + 1)) as (M & E & HP & HE & HV); try lia.
      exists M, E. rewrite HP.
      replace (E - e) with (1 + (E - (e + 1))) by lia.
      rewrite Z.pow_add_r by lia.
      replace (Zpos M * (2 ^ 1 * 2 ^ (E - (e + 1))))
        with (2 * (Zpos M * 2 ^ (E - (e + 1)))) by (change (2 ^ 1) with 2; ring).
      rewrite HV. repeat split; try lia.
      * intros Hev. discriminate Hev.
      * intros _ Hl. specialize (Hin Hl). lia.
    + (* even quotient: nothing is rounded away but the sticky bits *)
      assert (Hp : 2 ^ 52 <= Zpos p < 2 ^ 53) by lia.
      set (mrs := shr_1 (shr_record_of_loc (Zpos p~0) l)).
      set (m' := round_nearest_even (shr_m mrs) (loc_of_shr_record mrs)).
      assert (Hm' : m' = Zpos p).
      { subst m' mrs. destruct l as [| []]; reflexivity. }
      destruct (pack_le s m' (e + 1)) as (M & E & HP & HE & HV); try lia.
      exists M, E. rewrite HP.
      replace (E - e) with (1 + (E - (e + 1))) by lia.
      rewrite Z.pow_add_r by lia.
      replace (Zpos M * (2 ^ 1 * 2 ^ (E - (e + 1))))
        with (2 * (Zpos M * 2 ^ (E - (e + 1)))) by (change (2 ^ 1) with 2; ring).
      rewrite HV, Hm'. repeat split; try lia.
      all: try (intros Hod; discriminate Hod).
Qed.

Lemma binary_round_aux_exact (s : bool) (q : positive) (e : Z) :
  2 ^ 52 <= Zpos q < 2 ^ 53 -> -1074 <= e <= 971 ->
  binary_round_aux prec emax s (Zpos q) e loc_Exact = S754_finite s q e.
Proof.
  intros Hq He. rewrite binary_round_aux_pack.
  unfold shr_fexp, Zdigits2.
  rewrite (digits2_pos_53 q Hq), fexp_normal by lia.
  replace (53 + e - 53 - e) with 0 by lia.
  cbn [shr shr_record_of_loc shr_m loc_of_shr_record round_nearest_even].
  now apply pack_53.
Qed.

Lemma pos_iter_xO (k p : positive) :
  Zpos (Pos.iter xO p k) = Zpos p * 2 ^ Zpos k.
Proof.
  induction k as [| k IH] using Pos.peano_ind.
  - cbn [Pos.iter]. lia.
  - rewrite Pos.iter_succ, Pos2Z.inj_xO, IH, Pos2Z.inj_succ, Z.pow_succ_r by lia.
    ring.
Qed.

(** An integer below [2^53] in absolute value is a float exactly: the
    mantissa is the integer shifted left to 53 digits. *)
Lemma binary_round_int (s : bool) (p : positive) :
  Zpos p < 2 ^ 53 ->
  exists (m : positive) (d : Z),
    binary_round prec emax s p 0 = S754_finite s m (d - 53) /\
    1 <= d <= 53 /\
    Zpos m = Zpos p * 2 ^ (53 - d) /\
    2 ^ 52 <= Zpos m < 2 ^ 53.
Proof.
  intros Hp.
  pose proof (digits2_pos_bounds p) as [Blo Bhi].
  set (d := Zpos (digits2_pos p)) in *.
  assert (Hd : 1 <= d <= 53).
  { split; [subst d; lia |].
    destruct (Z_le_gt_dec d 53) as [| Hgt]; [assumption |].
    assert (2 ^ 53 <= 2 ^ (d - 1)) by (apply Z.pow_le_mono_r; lia). lia. }
  assert (Hpow : 2 ^ (d - 1) * 2 ^ (53 - d) = 2 ^ 52)
    by (rewrite <- Z.pow_add_r by lia; f_equal; lia).
  assert (Hpow' : 2 ^ d * 2 ^ (53 - d) = 2 ^ 53)
    by (rewrite <- Z.pow_add_r by lia; f_equal; lia).
  assert (Hpos : 0 < 2 ^ (53 - d)) by (apply Z.pow_pos_nonneg; lia).
  unfold binary_round. fold d. rewrite fexp_normal by lia.
  unfold shl_align.
  destruct (d + 0 - 53 - 0) as [| k | k] eqn:Hk; try lia.
  - exists p, d. replace (53 - d) with 0 by lia.
    replace d with 53 in * by lia.
    rewrite binary_round_aux_exact by lia.
    repeat split; lia.
  - pose proof (pos_iter_xO k p) as Hm.
    replace (Zpos k) with (53 - d) in Hm by lia.
    exists (Pos.iter xO p k), d.
    assert (Hb : 2 ^ 52 <= Zpos (Pos.iter xO p k) < 2 ^ 53).
    { rewrite Hm. split.
      - rewrite <- Hpow. apply Z.mul_le_mono_nonneg_r; lia.
      - rewrite <- Hpow'. apply Z.mul_lt_mono_pos_r; lia. }
    replace (d + 0 - 53) with (d - 53) by lia.
    rewrite binary_round_aux_exact by lia.
    repeat split; try lia.
Qed.

Lemma SFdiv_53 (s1 s2 : bool) (m1 m2 : positive) (e1 e2 : Z) :
  2 ^ 52 <= Zpos m1 < 2 ^ 53 -> 2 ^ 52 <= Zpos m2 < 2 ^ 53 ->
  -1021 <= e1 - e2 ->
  div (S754_finite s1 m1 e1) (S754_finite s2 m2 e2) =
  binary_round_aux prec emax (xorb s1 s2)
    (Zpos m1 * 2 ^ 53 / Zpos m2) (e1 - e2 - 53)
    (new_location (Zpos m2) (Zpos m1 * 2 ^ 53 mod Zpos m2)).
Proof.
  intros H1 H2 He.
  unfold div, SFdiv, SFdiv_core_binary, Zdigits2.
  rewrite (digits2_pos_53 m1 H1), (digits2_pos_53 m2 H2).
  rewrite fexp_normal by lia.
  rewrite Z.min_l by lia.
  replace (e1 - e2 - (53 + e1 - (53 + e2) - 53)) with 53 by lia.
  replace (53 + e1 - (53 + e2) - 53) with (e1 - e2 - 53) by lia.
  rewrite Z.shiftl_mul_pow2 by lia.
  unfold Z.div, Z.modulo.
  destruct (Z.div_eucl (Zpos m1 * 2 ^ 53) (Zpos m2)) as [q r].
  reflexivity.
Qed.

Lemma new_location_exact (n r : Z) :
  new_location n r = loc_Exact <-> r = 0.
Proof.
  unfold new_location, new_location_even, new_location_odd.
  destruct (Z.even n); destruct (Z.eqb_spec r 0) as [-> | Hr];
    split; intros H; try reflexivity; try congruence; try lia.
Qed.

Lemma of_int_20 : of_int 20 = S754_finite false 5629499534213120 (-48).
Proof. reflexivity. Qed.

(** Dividing the float of an integer [p < 2^53] by the float of 20: the
    quotient float is [p / 20] when 20 divides [p], and lies strictly
    between [p / 20] and [p / 20 + 1] otherwise.  [T] is the weight of
    one unit, [2 ^ (- E)]. *)
Lemma div_by_20 (s : bool) (p : positive) :
  Zpos p < 2 ^ 53 ->
  exists (M : positive) (E : Z),
    div (binary_round prec emax s p 0) (of_int 20) = S754_finite s M E /\
    -60 <= E < 0 /\
    (Zpos p mod 20 = 0 -> Zpos M = Zpos p / 20 * 2 ^ (- E)) /\
    (Zpos p mod 20 <> 0 ->
     Zpos p / 20 * 2 ^ (- E) < Zpos M < (Zpos p / 20 + 1) * 2 ^ (- E)).
Proof.
  intros Hp.
  destruct (binary_round_int s p Hp) as (m & d & Hx & Hd & Hm & Hmb).
  rewrite Hx, of_int_20, SFdiv_53 by lia. rewrite xorb_false_r.
  set (my := 5629499534213120) in *.
  pose proof (Z.div_mod (Zpos m * 2 ^ 53) my ltac:(subst my; lia)) as Hdiv.
  pose proof (Z.mod_pos_bound (Zpos m * 2 ^ 53) my ltac:(subst my; lia)) as Hr.
  set (q := Zpos m * 2 ^ 53 / my) in *.
  set (r := (Zpos m * 2 ^ 53) mod my) in *.
  assert (Hq : 2 ^ 52 <= q < 2 ^ 54) by (subst my; lia).
  destruct q as [| qp | qp] eqn:Eq; try lia.
  destruct (binary_round_aux_near s qp (d - 53 - -48 - 53)
              (new_location my r))
    as (M & E & HR & HE & HV & Hev & Hod); [lia | lia |].
  exists M, E. split; [exact HR |]. split; [lia |].
  (* the weights: P0 scales p to its mantissa, T is the unit of M *)
  set (P0 := 2 ^ (53 - d)) in *.
  assert (HP0 : 1 <= P0) by (subst P0; pose proof (Z.pow_pos_nonneg 2 (53 - d)); lia).
  set (g := E - (d - 53 - -48 - 53)) in *.
  assert (HT : 2 ^ (- E) = 2 ^ (5 - g) * P0).
  { subst P0. rewrite <- Z.pow_add_r by lia. f_equal. lia. }
  rewrite HT.
  pose proof (Z.div_mod (Zpos p) 20 ltac:(lia)) as Hp20.
  pose proof (Z.mod_pos_bound (Zpos p) 20 ltac:(lia)) as Hrh.
  set (k := Zpos p / 20) in *. set (rh := Zpos p mod 20) in *.
  assert (Hmk : Zpos m = 20 * (k * P0) + rh * P0) by (rewrite Hm, Hp20; ring).
  assert (Hl : new_location my r = loc_Exact <-> r = 0)
    by apply new_location_exact.
  assert (Hpar : (exists c, Zpos qp = 2 * c /\ Z.even (Zpos qp) = true) \/
                 (exists c, Zpos qp = 2 * c + 1 /\ Z.odd (Zpos qp) = true)).
  { destruct (Z.Even_or_Odd (Zpos qp)) as [[c Hc] | [c Hc]].
    - left. exists c. split; [exact Hc |]. apply Z.even_spec. now exists c.
    - right. exists c. split; [exact Hc |]. apply Z.odd_spec. now exists c. }
  change (2 ^ 53) with 9007199254740992 in Hdiv.
  subst my.
  assert (Hg : g = 0 \/ g = 1 \/ g = 2) by lia.
  clearbody k rh P0 r g. clear Eq Hx HR Hm Hp Hq.
  replace (k * (2 ^ (5 - g) * P0)) with (2 ^ (5 - g) * (k * P0)) by ring.
  replace ((k + 1) * (2 ^ (5 - g) * P0))
    with (2 ^ (5 - g) * (k * P0) + 2 ^ (5 - g) * P0) by ring.
  generalize dependent (k * P0). intros kP HM.
  split.
  - intros Hz. rewrite Hz in *. 
    assert (r = 0) by lia.
    assert (Zpos qp = 32 * kP) by lia.
    destruct Hpar as [(c & Hc & Hpe) | (c & Hc & Hpo)]; [| lia].
    specialize (Hev Hpe (proj2 Hl H)).
    destruct Hg as [-> | [-> | ->]];
      [ change (2 ^ 0) with 1 in *; change (2 ^ (5 - 0)) with 32 in *
      | change (2 ^ 1) with 2 in *; change (2 ^ (5 - 1)) with 16 in *
      | change (2 ^ 2) with 4 in *; change (2 ^ (5 - 2)) with 8 in * ];
      lia.
  - intros Hnz.
    assert (Hrp : P0 <= rh * P0 <= 19 * P0) by nia.
    generalize dependent (rh * P0). intros rP HM Hrp.
    destruct Hpar as [(c & Hc & Hpe) | (c & Hc & Hpo)].
    + destruct Hg as [-> | [-> | ->]];
        [ change (2 ^ 0) with 1 in *; change (2 ^ (5 - 0)) with 32 in *
        | change (2 ^ 1) with 2 in *; change (2 ^ (5 - 1)) with 16 in *
        | change (2 ^ 2) with 4 in *; change (2 ^ (5 - 2)) with 8 in * ];
        lia.
    + assert (Hr0 : r <> 0) by lia.
      assert (Hne : new_location 5629499534213120 r <> loc_Exact)
        by (intros Hc'; apply Hr0, Hl, Hc').
      specialize (Hod Hpo Hne).
      destruct Hg as [-> | [-> | ->]];
        [ change (2 ^ 0) with 1 in *; change (2 ^ (5 - 0)) with 32 in *
        | change (2 ^ 1) with 2 in *; change (2 ^ (5 - 1)) with 16 in *
        | change (2 ^ 2) with 4 in *; change (2 ^ (5 - 2)) with 8 in * ];
        lia.
Qed.

Lemma ceilZ_neg_exp (s : bool) (M : positive) (E : Z) :
  E < 0 ->
  ceilZ s M E = if s then - (Zpos M / 2 ^ (- E))
                else - ((- Zpos M) / 2 ^ (- E)).
Proof. destruct E; intros H; try lia. reflexivity. Qed.

Lemma div_between (x T a : Z) :
  0 < T -> a * T <= x < (a + 1) * T -> x / T = a.
Proof.
  intros HT Hx. symmetry. apply (Z.div_unique x T a (x - a * T)); lia.
Qed.

(** Converting an integer below [2^53] to [float64] and back is the
    identity. *)
Lemma to_int_normalize (c : Z) (s : bool) :
  Z.abs c < 2 ^ 53 -> to_int (binary_normalize prec emax c 0 s) = c.
Proof.
  intros Hc. destruct c as [| p | p]; [reflexivity | |];
    cbn [binary_normalize];
    [ destruct (binary_round_int false p) as (m & d & Hx & Hd & Hm & Hmb)
    | destruct (binary_round_int true p) as (m & d & Hx & Hd & Hm & Hmb) ];
    try lia; rewrite Hx; cbn [to_int];
    assert (HP : 0 < 2 ^ (53 - d)) by (apply Z.pow_pos_nonneg; lia).
  - assert (Ht : truncZ false m (d - 53) = Zpos p).
    { unfold truncZ. destruct (d - 53) as [| k | k] eqn:Hk; try lia.
      - replace (53 - d) with 0 in Hm by lia. change (2 ^ 0) with 1 in *. lia.
      - replace (Zpos k) with (53 - d) by lia.
        rewrite Hm, Z.div_mul by lia. lia. }
    rewrite Ht. unfold GoInt.in_range, GoInt.min_int, GoInt.max_int.
    replace ((- 2 ^ 63 <=? Zpos p) && (Zpos p <=? 2 ^ 63 - 1)) with true;
      [reflexivity |].
    symmetry. apply andb_true_iff. split; apply Z.leb_le; lia.
  - assert (Ht : truncZ true m (d - 53) = Zneg p).
    { unfold truncZ. destruct (d - 53) as [| k | k] eqn:Hk; try lia.
      - replace (53 - d) with 0 in Hm by lia. change (2 ^ 0) with 1 in *. lia.
      - replace (Zpos k) with (53 - d) by lia.
        rewrite Hm, Z.div_mul by lia. lia. }
    rewrite Ht. unfold GoInt.in_range, GoInt.min_int, GoInt.max_int.
    replace ((- 2 ^ 63 <=? Zneg p) && (Zneg p <=? 2 ^ 63 - 1)) with true;
      [reflexivity |].
    symmetry. apply andb_true_iff. split; apply Z.leb_le; lia.
Qed.

End Float64Facts.

(** [totalPages] is the integer ceiling while the hit count is exactly
    representable as a [float64]. *)
Lemma totalPages_exact (h : Z) :
  Z.abs h <= 2 ^ 53 -> totalPages h 20 = ceil_div h 20.
Proof.
  intros Hh. unfold ceil_div.
  destruct (Z.eq_dec (Z.abs h) (2 ^ 53)) as [Heq | Hne].
  { assert (Hc : h = 2 ^ 53 \/ h = - 2 ^ 53) by lia.
    destruct Hc as [-> | ->]; vm_compute; reflexivity. }
  assert (Hlt : Z.abs h < 2 ^ 53) by lia. clear Hh Hne.
  unfold totalPages, Float64.of_int at 1.
  destruct h as [| p | p]; [reflexivity | |]; cbn [binary_normalize].
  - destruct (Float64Facts.div_by_20 false p) as (M & E & HD & HE & Hz & Hnz);
      [lia |].
    rewrite HD. cbn [Float64.Ceil].
    rewrite Float64Facts.ceilZ_neg_exp by lia.
    pose proof (Z.div_mod (Zpos p) 20 ltac:(lia)) as Hp20.
    pose proof (Z.mod_pos_bound (Zpos p) 20 ltac:(lia)) as Hrh.
    assert (HT : 0 < 2 ^ (- E)) by (apply Z.pow_pos_nonneg; lia).
    set (T := 2 ^ (- E)) in *. set (k := Zpos p / 20) in *.
    destruct (Z.eq_dec (Zpos p mod 20) 0) as [H0 | H0].
    + rewrite (Float64Facts.div_between (- Zpos M) T (- k)) by (specialize (Hz H0); lia).
      rewrite (Float64Facts.div_between (- Zpos p) 20 (- k)) by lia.
      apply Float64Facts.to_int_normalize. lia.
    + rewrite (Float64Facts.div_between (- Zpos M) T (- (k + 1)))
        by (specialize (Hnz H0); lia).
      rewrite (Float64Facts.div_between (- Zpos p) 20 (- (k + 1))) by lia.
      apply Float64Facts.to_int_normalize. lia.
  - destruct (Float64Facts.div_by_20 true p) as (M & E & HD & HE & Hz & Hnz);
      [lia |].
    rewrite HD. cbn [Float64.Ceil].
    rewrite Float64Facts.ceilZ_neg_exp by lia.
    pose proof (Z.div_mod (Zpos p) 20 ltac:(lia)) as Hp20.
    pose proof (Z.mod_pos_bound (Zpos p) 20 ltac:(lia)) as Hrh.
    assert (HT : 0 < 2 ^ (- E)) by (apply Z.pow_pos_nonneg; lia).
    set (T := 2 ^ (- E)) in *. set (k := Zpos p / 20) in *.
    change (- Zneg p) with (Zpos p). fold k.
    assert (HM : Zpos M / T = k).
    { apply Float64Facts.div_between; [lia |].
      destruct (Z.eq_dec (Zpos p mod 20) 0) as [H0 | H0];
        [specialize (Hz H0) | specialize (Hnz H0)]; lia. }
    rewrite HM. apply Float64Facts.to_int_normalize. lia.
Qed.

(** ** Frames: what the small steps leave alone *)

Lemma emit_frame {W : Type} (l : Logger) (lvl : Level) (fields : list Field)
  (msg : string) (s : St W) :
  exists lg,
    emit l lvl fields msg s =
    (Returns tt,
     {| resp := resp s;
        world := {| logs := lg; fetched := fetched (world s);
                    rendered := rendered (world s); now := now (world s) |} |}).
Proof.
  unfold emit. destruct (Level_rank (level l) <=? Level_rank lvl).
  - eexists. reflexivity.
  - exists (logs (world s)). destruct s as [w [lg f rd t]]. reflexivity.
Qed.

Lemma Buffer_WriteTo_world {W : Type} `{ResponseWriter W} (buf : string)
  (s : St W) :
  world (snd (Buffer_WriteTo buf s)) = world s.
Proof.
  unfold Buffer_WriteTo, bind, w_Write, ret.
  destruct (Z.of_nat (String.length buf) >? 0); [| reflexivity].
  destruct (Write buf (resp s)) as [[m e] w'].
  destruct (m >? Z.of_nat (String.length buf)); [reflexivity |].
  destruct e; [reflexivity |].
  destruct (negb (m =? Z.of_nat (String.length buf))); reflexivity.
Qed.

(** The opening of [searchHandler], up to the call of the upstream
    client, for a request that [asks_for] holds of. *)
Ltac step_emit l lvl lg :=
  match goal with
  | |- context [emit l lvl ?f ?m ?st] =>
      destruct (emit_frame l lvl f m st) as [lg ->];
      cbn [resp world logs fetched rendered now]
  end.

Ltac enter_searchHandler env u Hu Hq Hp l :=
  unfold searchHandler; rewrite Hu;
  change (if (Values_Get (URL_Query env u) "page" =? "")%string then "1"
          else Values_Get (URL_Query env u) "page")
    with (pageParam (URL_Query env u));
  rewrite Hq, Hp;
  set (l := UpdateContext _ _);
  unfold bind at 1;
  let lg := fresh "lg" in
  step_emit l InfoLevel lg;
  unfold bind at 1;
  unfold searchWikipedia, Get, bind at 1 2, modify_world, ret;
  cbn [resp world logs fetched rendered now].

Ltac enter_Execute :=
  unfold Execute, bind at 1 2, modify_world, ret;
  cbn [resp world logs fetched rendered now].

(** A run of [searchHandler] up to the rendering of the template: one
    URL is fetched, one [Search] value is handed to the template, and the
    response is as it was. *)
Lemma searchHandler_run {W : Type} `{ResponseWriter W} (env : Env)
  (r : http_Request) (q : string) (p : Z) (found : WikipediaSearchResponse)
  (s : St W) :
  asks_for env r q p ->
  upstream_finds env (apiURL 20 q (GoInt.mul (GoInt.sub p 1) 20)) found ->
  exists lg l,
    let sE :=
      {| resp := resp s;
         world :=
           {| logs := lg;
              fetched :=
                (fetched (world s)
                 ++ [apiURL 20 q (GoInt.mul (GoInt.sub p 1) 20)])%list;
              rendered :=
                (rendered (world s) ++ [Some (searchModel q p found)])%list;
              now := now (world s) |} |} in
    searchHandler env r s =
    match tpl_Execute env (Some (searchModel q p found)) with
    | Err e => (Returns (Some e), sE)
    | Ok buf =>
        (err <- Buffer_WriteTo buf ;;
         match err with
         | Some e => ret (Some e)
         | None =>
             emit l TraceLevel []
               ("search query '" ++ q ++ "' succeeded without errors") ;;
             ret None
         end)%go sE
    end.
Proof.
  intros (u & Hu & Hq & Hp) (rs & body & Hget & Hst & Hbody & Hjs).
  enter_searchHandler env u Hu Hq Hp l.
  rewrite Hget, Hst. cbn [negb Z.eqb StatusOK Pos.eqb].
  rewrite Hbody, Hjs.
  unfold bind at 1. step_emit l DebugLevel lg2.
  enter_Execute.
  exists lg2, l. unfold searchModel. cbn zeta.
  destruct (tpl_Execute env _); reflexivity.
Qed.

(** ** The pagination model *)

Lemma wrap_in_range (z : Z) :
  GoInt.min_int <= z <= GoInt.max_int -> GoInt.wrap z = z.
Proof.
  unfold GoInt.min_int, GoInt.max_int, GoInt.wrap. intros Hz.
  rewrite Z.mod_small by lia. lia.
Qed.

Lemma wrap_range (z : Z) :
  GoInt.min_int <= GoInt.wrap z <= GoInt.max_int.
Proof.
  unfold GoInt.min_int, GoInt.max_int, GoInt.wrap.
  pose proof (Z.mod_pos_bound (z + 2 ^ 63) (2 ^ 64) ltac:(lia)). lia.
Qed.

Lemma ceil_div_spec (h n c : Z) :
  0 < n -> (ceil_div h n = c <-> n * (c - 1) < h <= n * c).
Proof.
  intros Hn. unfold ceil_div.
  pose proof (Z.div_mod (- h) n ltac:(lia)) as Hd.
  pose proof (Z.mod_pos_bound (- h) n Hn) as Hm.
  split; intros Hc; nia.
Qed.

(** C4. [IsLastPage()] is true if and only if [NextPage >= TotalPages]. *)
Theorem IsLastPage_iff (s : Search) :
  IsLastPage s = true <-> NextPage s >= TotalPages s.
Proof.
  unfold IsLastPage. rewrite Z.geb_leb, Z.leb_le. lia.
Qed.

(** C7, as amended.  While [NextPage] is at least two above the smallest
    [int], so that no subtraction wraps around, [CurrentPage()] is
    [NextPage] when that is 1 and [NextPage - 1] otherwise, and
    [PreviousPage()] is [CurrentPage() - 1]; [NextPage = 1] gives 1 and
    0, [NextPage = 5] gives 4 and 3. *)
Theorem CurrentPage_PreviousPage (s : Search) :
  GoInt.min_int + 2 <= NextPage s <= GoInt.max_int ->
  CurrentPage s = (if NextPage s =? 1 then NextPage s else NextPage s - 1) /\
  PreviousPage s = CurrentPage s - 1 /\
  (NextPage s = 1 -> CurrentPage s = 1 /\ PreviousPage s = 0) /\
  (NextPage s = 5 -> CurrentPage s = 4 /\ PreviousPage s = 3).
Proof.
  intros Hn.
  assert (Hc : CurrentPage s =
               (if NextPage s =? 1 then NextPage s else NextPage s - 1)).
  { unfold CurrentPage, GoInt.sub. destruct (NextPage s =? 1); [reflexivity |].
    apply wrap_in_range. lia. }
  assert (Hp : PreviousPage s = CurrentPage s - 1).
  { unfold PreviousPage, GoInt.sub. apply wrap_in_range. rewrite Hc.
    destruct (Z.eqb_spec (NextPage s) 1); unfold GoInt.min_int, GoInt.max_int in *; lia. }
  split; [exact Hc |]. split; [exact Hp |].
  split; intros Heq; rewrite Hp, Hc, Heq; split; reflexivity.
Qed.

(** ** What [searchHandler] fetches and renders *)

Lemma searchHandler_renders {W : Type} `{ResponseWriter W} (env : Env)
  (r : http_Request) (q : string) (p : Z) (found : WikipediaSearchResponse)
  (s : St W) :
  asks_for env r q p ->
  upstream_finds env (apiURL 20 q (GoInt.mul (GoInt.sub p 1) 20)) found ->
  rendered (world (snd (searchHandler env r s))) =
  (rendered (world s) ++ [Some (searchModel q p found)])%list.
Proof.
  intros Ha Hu.
  destruct (searchHandler_run env r q p found s Ha Hu) as (lg & l & Hrun).
  cbn zeta in Hrun. rewrite Hrun.
  destruct (tpl_Execute env (Some (searchModel q p found))) as [buf | e];
    [| reflexivity].
  unfold bind at 1.
  match goal with
  | |- context [Buffer_WriteTo buf ?st] =>
      pose proof (Buffer_WriteTo_world buf st) as Hw;
      destruct (Buffer_WriteTo buf st) as [[[e |] | v] s1]
  end; cbn [snd] in Hw |- *; unfold ret; cbn [snd]; try (rewrite Hw; reflexivity).
  unfold bind. step_emit l TraceLevel lg3.
  cbn [snd world rendered]. rewrite Hw. reflexivity.
Qed.

Lemma searchHandler_fetches {W : Type} `{ResponseWriter W} (env : Env)
  (r : http_Request) (q : string) (p : Z) (s : St W) :
  asks_for env r q p ->
  fetched (world (snd (searchHandler env r s))) =
  (fetched (world s) ++ [apiURL 20 q (GoInt.mul (GoInt.sub p 1) 20)])%list.
Proof.
  intros (u & Hu & Hq & Hp).
  enter_searchHandler env u Hu Hq Hp l.
  destruct (HTTPClient_Get env _) as [rs | e]; [| reflexivity].
  destruct (negb (StatusCode rs =? StatusOK)); [reflexivity |].
  destruct (Body rs) as [body | e]; [| reflexivity].
  destruct (json_Unmarshal env body) as [found | e]; [| reflexivity].
  unfold bind at 1. step_emit l DebugLevel lg2.
  enter_Execute.
  destruct (tpl_Execute env _) as [buf | e]; [| reflexivity].
  unfold bind at 1.
  match goal with
  | |- context [Buffer_WriteTo buf ?st] =>
      pose proof (Buffer_WriteTo_world buf st) as Hw;
      destruct (Buffer_WriteTo buf st) as [[[e |] | v] s1]
  end; cbn [snd] in Hw |- *; try (rewrite Hw; reflexivity).
  unfold bind. step_emit l TraceLevel lg3.
  cbn [snd world fetched]. rewrite Hw. reflexivity.
Qed.

(** C1, on the code.  For a request with [page=2] and an upstream
    reporting 50 hits the handler hands the template a [Search] value
    with [TotalPages = 3], [CurrentPage() = 2] and [NextPage = 3], and
    for that value [IsLastPage()] is true. *)
Theorem searchHandler_page2_of_50 {W : Type} `{ResponseWriter W} (env : Env)
  (r : http_Request) (q : string) (found : WikipediaSearchResponse)
  (s : St W) :
  asks_for env r q 2 ->
  upstream_finds env (apiURL 20 q 20) found ->
  Query_SearchInfo_TotalHits found = 50 ->
  exists m,
    rendered (world (snd (searchHandler env r s))) =
    (rendered (world s) ++ [Some m])%list /\
    TotalPages m = 3 /\ CurrentPage m = 2 /\ NextPage m = 3 /\
    IsLastPage m = true.
Proof.
  intros Ha Hu Hh. exists (searchModel q 2 found).
  split; [apply searchHandler_renders; assumption |].
  unfold searchModel, IsLastPage, CurrentPage. cbn [TotalPages NextPage].
  rewrite Hh. repeat split; vm_compute; reflexivity.
Qed.

(** C5, as amended.  The [TotalPages] of the [Search] value built from an
    upstream response is the integer ceiling of [totalHits / 20] whenever
    [totalHits] is at most [2^53] in absolute value, the range that
    [float64] holds exactly; 45 hits give 3 pages. *)
Theorem searchHandler_TotalPages {W : Type} `{ResponseWriter W} (env : Env)
  (r : http_Request) (q : string) (p : Z) (found : WikipediaSearchResponse)
  (s : St W) :
  asks_for env r q p ->
  upstream_finds env (apiURL 20 q (GoInt.mul (GoInt.sub p 1) 20)) found ->
  exists m,
    rendered (world (snd (searchHandler env r s))) =
    (rendered (world s) ++ [Some m])%list /\
    Results m = Some found /\
    (Z.abs (Query_SearchInfo_TotalHits found) <= 2 ^ 53 ->
     TotalPages m = ceil_div (Query_SearchInfo_TotalHits found) 20) /\
    (Query_SearchInfo_TotalHits found = 45 -> TotalPages m = 3).
Proof.
  intros Ha Hu. exists (searchModel q p found).
  split; [apply searchHandler_renders; assumption |].
  split; [reflexivity |]. cbn [searchModel TotalPages]. split.
  - apply totalPages_exact.
  - intros ->. reflexivity.
Qed.

(** C6, as amended.  For the page number [p] parsed from the request the
    handler fetches the URL whose offset is [(p - 1) * 20] computed in
    [int]; that is the integer [(p - 1) * 20] exactly when the product
    fits an [int], and then a page [p <= 0] sends a negative offset
    upstream as it is. *)
Theorem searchHandler_offset {W : Type} `{ResponseWriter W} (env : Env)
  (r : http_Request) (q : string) (p : Z) (s : St W) :
  asks_for env r q p ->
  let offset := GoInt.mul (GoInt.sub p 1) 20 in
  fetched (world (snd (searchHandler env r s))) =
  (fetched (world s) ++ [apiURL 20 q offset])%list /\
  (offset = (p - 1) * 20 <-> offset_fits p) /\
  (offset_fits p -> p <= 0 -> offset < 0).
Proof.
  intros Ha offset. split; [apply searchHandler_fetches; assumption |].
  assert (Hfit : offset_fits p -> offset = (p - 1) * 20).
  { unfold offset_fits. intros Hp. unfold offset, GoInt.mul, GoInt.sub.
    rewrite (wrap_in_range (p - 1))
      by (unfold GoInt.min_int, GoInt.max_int; lia).
    apply wrap_in_range. unfold GoInt.min_int, GoInt.max_int. lia. }
  split; [split; [| exact Hfit] |].
  - intros Heq. pose proof (wrap_range (GoInt.sub p 1 * 20)) as Hr.
    fold (GoInt.mul (GoInt.sub p 1) 20) in Hr. fold offset in Hr.
    rewrite Heq in Hr. unfold GoInt.min_int, GoInt.max_int in Hr.
    unfold offset_fits. lia.
  - intros Hp H0. rewrite Hfit by assumption. lia.
Qed.

(** ** The URL of the upstream request *)

Lemma length_append (a b : string) :
  String.length (a ++ b) = (String.length a + String.length b)%nat.
Proof. induction a as [| c a IH]; cbn; [reflexivity | now rewrite IH]. Qed.

Lemma append_cancel_l (a b c : string) : a ++ b = a ++ c -> b = c.
Proof.
  induction a as [| x a IH]; cbn; intros Heq; [exact Heq |].
  injection Heq as Heq. auto.
Qed.

Lemma append_cancel_r (t a b : string) : a ++ t = b ++ t -> a = b.
Proof.
  revert b. induction a as [| x a IH]; intros [| y b] Heq; cbn in Heq.
  - reflexivity.
  - apply (f_equal String.length) in Heq. cbn in Heq.
    rewrite length_append in Heq. lia.
  - apply (f_equal String.length) in Heq. cbn in Heq.
    rewrite length_append in Heq. lia.
  - injection Heq as -> Heq. f_equal. auto.
Qed.

Lemma length_QueryEscape (s : string) :
  (String.length s <= String.length (QueryEscape s))%nat.
Proof.
  induction s as [| c s IH]; cbn [QueryEscape]; [cbn; lia |].
  rewrite length_append. cbn [String.length].
  assert (1 <= String.length (escape_byte c))%nat; [| lia].
  unfold escape_byte. destruct (unreserved c); [cbn; lia |].
  destruct (Ascii.eqb c " "); cbn; lia.
Qed.

(** [QueryEscape] returns its argument exactly when there is nothing to
    escape in it. *)
Lemma QueryEscape_fixed (s : string) :
  QueryEscape s = s <-> all_unreserved s = true.
Proof.
  induction s as [| c s IH]; cbn [QueryEscape all_unreserved].
  - split; reflexivity.
  - unfold escape_byte. destruct (unreserved c) eqn:Hc; cbn [andb append].
    + rewrite <- IH. split; intros Heq; [injection Heq; auto | now rewrite Heq].
    + split; [| discriminate]. intros Heq.
      destruct (Ascii.eqb_spec c " ") as [-> | Hsp]; cbn [append] in Heq.
      * discriminate Heq.
      * injection Heq as _ Heq.
        apply (f_equal String.length) in Heq. cbn [String.length] in Heq.
        pose proof (length_QueryEscape s). lia.
Qed.

Lemma QueryEscape_uint (d : Decimal.uint) :
  QueryEscape (NilEmpty.string_of_uint d) = NilEmpty.string_of_uint d.
Proof.
  induction d as [| d IH | d IH | d IH | d IH | d IH | d IH | d IH | d IH
                 | d IH | d IH];
    cbn [NilEmpty.string_of_uint QueryEscape]; [reflexivity | ..];
    rewrite IH; reflexivity.
Qed.

(** A number printed with [%d] needs no escaping. *)
Lemma QueryEscape_Sprintf_d (n : Z) :
  QueryEscape (Sprintf_d n) = Sprintf_d n.
Proof.
  unfold Sprintf_d, NilZero.string_of_int, NilZero.string_of_uint.
  destruct (Z.to_int n) as [d | d]; destruct d;
    try reflexivity; cbn [QueryEscape];
    rewrite QueryEscape_uint; reflexivity.
Qed.

Lemma searchWikipedia_fetches {W : Type} (env : Env) (q : string) (n o : Z)
  (s : St W) :
  fetched (world (snd (searchWikipedia env q n o s))) =
  (fetched (world s) ++ [apiURL n q o])%list.
Proof.
  unfold searchWikipedia, Get, bind, modify_world, ret.
  cbn [resp world logs fetched rendered now].
  destruct (HTTPClient_Get env _) as [rs | e]; [| reflexivity].
  destruct (negb (StatusCode rs =? StatusOK)); [reflexivity |].
  destruct (Body rs) as [body | e]; [| reflexivity].
  destruct (json_Unmarshal env body); reflexivity.
Qed.

(** C2, as amended.  For every search string, page size and offset the
    upstream client fetches the URL in which the two numbers stand in
    decimal, which needs no escaping, and the search string stands as it
    was given; that URL is the URL-encoded one exactly when the search
    string holds nothing but letters, digits and [-], [_], [.], [~]. *)
Theorem searchWikipedia_url {W : Type} (env : Env) (q : string) (n o : Z)
  (s : St W) :
  fetched (world (snd (searchWikipedia env q n o s))) =
  (fetched (world s) ++ [apiURL n q o])%list /\
  apiURL n q o =
  apiPrefix ++ QueryEscape (Sprintf_d n) ++ "&srsearch=" ++ q
  ++ "&sroffset=" ++ QueryEscape (Sprintf_d o) /\
  (apiURL n q o = apiURL_encoded n q o <-> all_unreserved q = true).
Proof.
  split; [apply searchWikipedia_fetches |].
  unfold apiURL, apiURL_encoded. rewrite !QueryEscape_Sprintf_d.
  split; [reflexivity |].
  rewrite <- QueryEscape_fixed. split.
  - intros Heq.
    apply append_cancel_l, append_cancel_l, append_cancel_l in Heq.
    apply append_cancel_r in Heq. symmetry. exact Heq.
  - intros ->. reflexivity.
Qed.

(** ** The error adapter on a recorded response *)

Lemma http_Error_recorder (msg : string) (code : Z) (s : St recorder) :
  http_Error msg code s =
  (Returns tt,
   {| resp :=
        {| Code := if wroteHeader (resp s) then Code (resp s) else code;
           HeaderMap :=
             Header_Set "X-Content-Type-Options" "nosniff"
               (Header_Set "Content-Type" "text/plain; charset=utf-8"
                  (HeaderMap (resp s)));
           BodyBytes := BodyBytes (resp s) ++ msg ++ newline;
           wroteHeader := true |};
      world := world s |}).
Proof.
  destruct s as [[c h b wh] w]. destruct wh; reflexivity.
Qed.

Lemma ServeHTTP_error_recorder (env : Env) (fn : handlerWithError recorder)
  (r : http_Request) (s s1 : St recorder) (e : error) :
  fn r s = (Returns (Some e), s1) ->
  exists s2,
    ServeHTTP env fn r s = (Returns tt, s2) /\
    logs (world s2) = (logs (world s1) ++ [StdLog (Error env e)])%list /\
    fetched (world s2) = fetched (world s1) /\
    rendered (world s2) = rendered (world s1) /\
    BodyBytes (resp s2) = BodyBytes (resp s1) ++ Error env e ++ newline /\
    Code (resp s2) =
    (if wroteHeader (resp s1) then Code (resp s1)
     else StatusInternalServerError).
Proof.
  intros Hfn. unfold ServeHTTP, bind. rewrite Hfn.
  unfold log_Println, log_entry, modify_world.
  rewrite http_Error_recorder. eexists. split; [reflexivity |].
  cbn [resp world logs fetched rendered BodyBytes Code wroteHeader].
  repeat split; reflexivity.
Qed.

(** What [searchWikipedia] returns when the upstream status is not 200. *)
Lemma searchWikipedia_non_200 {W : Type} (env : Env) (q : string) (n o : Z)
  (rs : http_Response) (s : St W) :
  HTTPClient_Get env (apiURL n q o) = Ok rs ->
  StatusCode rs <> StatusOK ->
  fst (searchWikipedia env q n o s) =
  Returns (Err (errorString
                  ("non 200 OK response from Wikipedia API: "
                   ++ match DumpResponse env rs with
                      | Ok d => d
                      | Err _ => ""
                      end))) /\
  resp (snd (searchWikipedia env q n o s)) = resp s.
Proof.
  intros Hget Hst.
  unfold searchWikipedia, Get, bind, modify_world, ret. rewrite Hget.
  destruct (Z.eqb_spec (StatusCode rs) StatusOK) as [Heq | _];
    [contradiction |].
  split; reflexivity.
Qed.

Lemma searchHandler_non_200 {W : Type} `{ResponseWriter W} (env : Env)
  (r : http_Request) (q : string) (p : Z) (rs : http_Response) (s : St W) :
  asks_for env r q p ->
  HTTPClient_Get env (apiURL 20 q (GoInt.mul (GoInt.sub p 1) 20)) = Ok rs ->
  StatusCode rs <> StatusOK ->
  exists s1,
    searchHandler env r s =
    (Returns (Some (errorString
                      ("non 200 OK response from Wikipedia API: "
                       ++ match DumpResponse env rs with
                          | Ok d => d
                          | Err _ => ""
                          end))), s1) /\
    resp s1 = resp s.
Proof.
  intros (u & Hu & Hq & Hp) Hget Hst.
  enter_searchHandler env u Hu Hq Hp l.
  rewrite Hget.
  destruct (Z.eqb_spec (StatusCode rs) StatusOK) as [Heq | _];
    [contradiction |].
  cbn [negb]. eexists. split; reflexivity.
Qed.

(** C8, as amended.  When a handler returns an error the adapter logs its
    message and calls [http.Error]: the message and a newline are added
    to the body, and the status is 500 unless the handler had already
    written the header.  A status other than 200 from the upstream makes
    [searchHandler] return the error whose message is the fixed prefix
    followed by the dump of the response, so on a response nothing was
    written to the status is 500 and the body is that message and a
    newline. *)
Theorem ServeHTTP_error (env : Env) (r : http_Request) (s : St recorder) :
  (forall (fn : handlerWithError recorder) (e : error) (s1 : St recorder),
      fn r s = (Returns (Some e), s1) ->
      exists s2,
        ServeHTTP env fn r s = (Returns tt, s2) /\
        logs (world s2) = (logs (world s1) ++ [StdLog (Error env e)])%list /\
        BodyBytes (resp s2) = BodyBytes (resp s1) ++ Error env e ++ newline /\
        Code (resp s2) =
        (if wroteHeader (resp s1) then Code (resp s1)
         else StatusInternalServerError)) /\
  (forall (q : string) (p : Z) (rs : http_Response),
      asks_for env r q p ->
      HTTPClient_Get env (apiURL 20 q (GoInt.mul (GoInt.sub p 1) 20)) = Ok rs ->
      StatusCode rs <> StatusOK ->
      fst (searchWikipedia env q 20 (GoInt.mul (GoInt.sub p 1) 20) s) =
      Returns (Err (errorString
                      ("non 200 OK response from Wikipedia API: "
                       ++ match DumpResponse env rs with
                          | Ok d => d
                          | Err _ => ""
                          end))) /\
      (untouched (resp s) ->
       exists s2,
         ServeHTTP env (searchHandler env) r s = (Returns tt, s2) /\
         Code (resp s2) = StatusInternalServerError /\
         BodyBytes (resp s2) =
         "non 200 OK response from Wikipedia API: "
         ++ match DumpResponse env rs with
            | Ok d => d
            | Err _ => ""
            end
         ++ newline)).
Proof.
  split.
  - intros fn e s1 Hfn.
    destruct (ServeHTTP_error_recorder env fn r s s1 e Hfn)
      as (s2 & Hrun & Hlog & _ & _ & Hbody & Hcode).
    exists s2. auto.
  - intros q p rs Ha Hget Hst.
    split; [apply (searchWikipedia_non_200 env q _ _ rs s Hget Hst) |].
    intros (Hwh & Hc & Hb).
    destruct (searchHandler_non_200 env r q p rs s Ha Hget Hst)
      as (s1 & Hrun & Hresp).
    destruct (ServeHTTP_error_recorder env (searchHandler env) r s s1 _ Hrun)
      as (s2 & Hserve & _ & _ & _ & Hbody & Hcode).
    exists s2. split; [exact Hserve |].
    rewrite Hresp, Hwh in Hcode. rewrite Hresp, Hb in Hbody.
    split; [exact Hcode |]. rewrite Hbody. cbn [Error append].
    reflexivity.
Qed.

(** ** The index handler *)

Lemma length_zero (s : string) : String.length s = O -> s = "".
Proof. destruct s; [reflexivity | discriminate]. Qed.

Lemma Buffer_WriteTo_recorder (buf : string) (s : St recorder) :
  Buffer_WriteTo buf s =
  (Returns None,
   if Z.of_nat (String.length buf) >? 0 then
     {| resp :=
          {| Code := if wroteHeader (resp s) then Code (resp s) else 200;
             HeaderMap := HeaderMap (resp s);
             BodyBytes := BodyBytes (resp s) ++ buf;
             wroteHeader := true |};
        world := world s |}
   else s).
Proof.
  unfold Buffer_WriteTo.
  destruct (Z.of_nat (String.length buf) >? 0) eqn:Hlen; [| reflexivity].
  unfold bind, w_Write, ret. cbn [Write recorder_ResponseWriter recorder_Write].
  rewrite Z.gtb_ltb, Z.ltb_irrefl, Z.eqb_refl. cbn [negb].
  destruct s as [[c h b wh] w]. destruct wh; reflexivity.
Qed.

Lemma indexHandler_render_fails {W : Type} `{ResponseWriter W} (env : Env)
  (r : http_Request) (s : St W) (e : error) :
  Path (URL r) = "/" ->
  tpl_Execute env None = Err e ->
  exists s1,
    indexHandler env r s = (Returns (Some e), s1) /\ resp s1 = resp s.
Proof.
  intros Hp He. unfold indexHandler. rewrite Hp. cbn [String.eqb Ascii.eqb Bool.eqb negb].
  unfold Execute, bind, modify_world, ret. rewrite He.
  eexists. split; reflexivity.
Qed.

Lemma searchHandler_render_fails {W : Type} `{ResponseWriter W} (env : Env)
  (r : http_Request) (q : string) (p : Z) (found : WikipediaSearchResponse)
  (s : St W) (e : error) :
  asks_for env r q p ->
  upstream_finds env (apiURL 20 q (GoInt.mul (GoInt.sub p 1) 20)) found ->
  tpl_Execute env (Some (searchModel q p found)) = Err e ->
  exists s1,
    searchHandler env r s = (Returns (Some e), s1) /\ resp s1 = resp s.
Proof.
  intros Ha Hu He.
  destruct (searchHandler_run env r q p found s Ha Hu) as (lg & l & Hrun).
  cbn zeta in Hrun. rewrite He in Hrun. rewrite Hrun.
  eexists. split; reflexivity.
Qed.

(** C9.  On the path ["/"] the index handler executes the template with
    no data, writes the page and the status is 200; on any other path it
    answers 404, returns no error, and the adapter adds nothing. *)
Theorem indexHandler_root_or_404 (env : Env) (r : http_Request)
  (s : St recorder) :
  untouched (resp s) ->
  (Path (URL r) = "/" ->
   forall page, tpl_Execute env None = Ok page ->
   exists s',
     indexHandler env r s = (Returns None, s') /\
     ServeHTTP env (indexHandler env) r s = (Returns tt, s') /\
     rendered (world s') = (rendered (world s) ++ [None])%list /\
     BodyBytes (resp s') = page /\
     Code (resp s') = StatusOK) /\
  (Path (URL r) <> "/" ->
   exists s',
     indexHandler env r s = (Returns None, s') /\
     ServeHTTP env (indexHandler env) r s = (Returns tt, s') /\
     rendered (world s') = rendered (world s) /\
     BodyBytes (resp s') = "404 page not found" ++ newline /\
     Code (resp s') = StatusNotFound).
Proof.
  intros (Hwh & Hc & Hb). split.
  - intros Hp page He.
    assert (Hrun : exists s', indexHandler env r s = (Returns None, s') /\
                     rendered (world s') = (rendered (world s) ++ [None])%list /\
                     BodyBytes (resp s') = page /\ Code (resp s') = StatusOK).
    { unfold indexHandler. rewrite Hp.
      cbn [String.eqb Ascii.eqb Bool.eqb negb].
      unfold Execute, bind at 1 2, modify_world, ret. rewrite He.
      rewrite Buffer_WriteTo_recorder. eexists. split; [reflexivity |].
      cbn [resp world rendered].
      destruct (Z.of_nat (String.length page) >? 0) eqn:Hlen;
        cbn [resp world rendered BodyBytes Code].
      - rewrite Hwh, Hb. repeat split; reflexivity.
      - rewrite Hb, Hc. repeat split; try reflexivity.
        symmetry. apply length_zero. lia. }
    destruct Hrun as (s' & Hrun & Hrest). exists s'.
    split; [exact Hrun |]. split; [| exact Hrest].
    unfold ServeHTTP, bind. rewrite Hrun. reflexivity.
  - intros Hp.
    assert (Hrun : exists s', indexHandler env r s = (Returns None, s') /\
                     rendered (world s') = rendered (world s) /\
                     BodyBytes (resp s') = "404 page not found" ++ newline /\
                     Code (resp s') = StatusNotFound).
    { unfold indexHandler.
      destruct (String.eqb_spec (Path (URL r)) "/") as [Heq | _];
        [contradiction |].
      cbn [negb]. unfold http_NotFound, bind at 1.
      rewrite http_Error_recorder. unfold ret. eexists.
      split; [reflexivity |].
      cbn [resp world rendered BodyBytes Code]. rewrite Hwh, Hb.
      repeat split; reflexivity. }
    destruct Hrun as (s' & Hrun & Hrest). exists s'.
    split; [exact Hrun |]. split; [| exact Hrest].
    unfold ServeHTTP, bind. rewrite Hrun. reflexivity.
Qed.

Lemma indexHandler_render_succeeds (env : Env) (r : http_Request)
  (s : St recorder) (out : string) :
  untouched (resp s) ->
  Path (URL r) = "/" ->
  tpl_Execute env None = Ok out ->
  exists s',
    indexHandler env r s = (Returns None, s') /\
    BodyBytes (resp s') = out /\ Code (resp s') = StatusOK.
Proof.
  intros (Hwh & Hc & Hb) Hp He. unfold indexHandler. rewrite Hp.
  cbn [String.eqb Ascii.eqb Bool.eqb negb].
  unfold Execute, bind at 1 2, modify_world, ret. rewrite He.
  rewrite Buffer_WriteTo_recorder. eexists. split; [reflexivity |].
  cbn [resp world].
  destruct (Z.of_nat (String.length out) >? 0) eqn:Hlen;
    cbn [resp BodyBytes Code].
  - rewrite Hwh, Hb. split; reflexivity.
  - rewrite Hb, Hc. split; [| reflexivity].
    symmetry. apply length_zero. lia.
Qed.

Lemma searchHandler_render_succeeds (env : Env) (r : http_Request)
  (q : string) (p : Z) (found : WikipediaSearchResponse) (s : St recorder)
  (out : string) :
  untouched (resp s) ->
  asks_for env r q p ->
  upstream_finds env (apiURL 20 q (GoInt.mul (GoInt.sub p 1) 20)) found ->
  tpl_Execute env (Some (searchModel q p found)) = Ok out ->
  exists s',
    searchHandler env r s = (Returns None, s') /\
    BodyBytes (resp s') = out /\ Code (resp s') = StatusOK.
Proof.
  intros (Hwh & Hc & Hb) Ha Hu He.
  destruct (searchHandler_run env r q p found s Ha Hu) as (lg & l & Hrun).
  cbn zeta in Hrun. rewrite He in Hrun. rewrite Hrun.
  unfold bind at 1. rewrite Buffer_WriteTo_recorder.
  unfold bind. step_emit l TraceLevel lg3. unfold ret.
  eexists. split; [reflexivity |]. cbn [resp].
  destruct (Z.of_nat (String.length out) >? 0) eqn:Hlen;
    cbn [resp BodyBytes Code].
  - rewrite Hwh, Hb. split; reflexivity.
  - rewrite Hb, Hc. split; [| reflexivity].
    symmetry. apply length_zero. lia.
Qed.

(** C10.  Either handler copies the page to the response only once the
    template has been executed to its end.  When the execution
    succeeds, the output of the template is the whole body and the
    status is 200.  When it fails, the handler returns the error and the
    response is as it was before the call, nothing of the page was
    written; the adapter then sets the status 500, and the line
    [http.Error] writes, the message of the error and a newline, is all
    there is in the body. *)
Theorem render_failure_writes_nothing (env : Env) (r : http_Request)
  (s : St recorder) :
  untouched (resp s) ->
  (Path (URL r) = "/" ->
   (forall out,
       tpl_Execute env None = Ok out ->
       exists s',
         indexHandler env r s = (Returns None, s') /\
         ServeHTTP env (indexHandler env) r s = (Returns tt, s') /\
         Code (resp s') = StatusOK /\
         BodyBytes (resp s') = out) /\
   (forall e,
       tpl_Execute env None = Err e ->
       exists s1 s2,
         indexHandler env r s = (Returns (Some e), s1) /\
         resp s1 = resp s /\
         ServeHTTP env (indexHandler env) r s = (Returns tt, s2) /\
         Code (resp s2) = StatusInternalServerError /\
         BodyBytes (resp s2) = Error env e ++ newline)) /\
  (forall q p found,
      asks_for env r q p ->
      upstream_finds env (apiURL 20 q (GoInt.mul (GoInt.sub p 1) 20)) found ->
      (forall out,
          tpl_Execute env (Some (searchModel q p found)) = Ok out ->
          exists s',
            searchHandler env r s = (Returns None, s') /\
            ServeHTTP env (searchHandler env) r s = (Returns tt, s') /\
            Code (resp s') = StatusOK /\
            BodyBytes (resp s') = out) /\
      (forall e,
          tpl_Execute env (Some (searchModel q p found)) = Err e ->
          exists s1 s2,
            searchHandler env r s = (Returns (Some e), s1) /\
            resp s1 = resp s /\
            ServeHTTP env (searchHandler env) r s = (Returns tt, s2) /\
            Code (resp s2) = StatusInternalServerError /\
            BodyBytes (resp s2) = Error env e ++ newline)).
Proof.
  intros Hun. pose proof Hun as (Hwh & Hc & Hb). split.
  - intros Hp. split.
    + intros out He.
      destruct (indexHandler_render_succeeds env r s out Hun Hp He)
        as (s' & Hrun & Hbody & Hcode).
      exists s'. split; [exact Hrun |].
      split; [unfold ServeHTTP, bind; rewrite Hrun; reflexivity |].
      split; assumption.
    + intros e He.
      destruct (indexHandler_render_fails env r s e Hp He)
        as (s1 & Hrun & Hresp).
      destruct (ServeHTTP_error_recorder env (indexHandler env) r s s1 e Hrun)
        as (s2 & Hserve & _ & _ & _ & Hbody & Hcode).
      exists s1, s2. rewrite Hresp, Hwh in Hcode. rewrite Hresp, Hb in Hbody.
      repeat split; assumption.
  - intros q p found Ha Hu. split.
    + intros out He.
      destruct (searchHandler_render_succeeds env r q p found s out Hun Ha Hu
                  He) as (s' & Hrun & Hbody & Hcode).
      exists s'. split; [exact Hrun |].
      split; [unfold ServeHTTP, bind; rewrite Hrun; reflexivity |].
      split; assumption.
    + intros e He.
      destruct (searchHandler_render_fails env r q p found s e Ha Hu He)
        as (s1 & Hrun & Hresp).
      destruct (ServeHTTP_error_recorder env (searchHandler env) r s s1 e Hrun)
        as (s2 & Hserve & _ & _ & _ & Hbody & Hcode).
      exists s1, s2. rewrite Hresp, Hwh in Hcode. rewrite Hresp, Hb in Hbody.
      repeat split; assumption.
Qed.

(** ** The logging middleware *)

Lemma requestLogger_run_unfold {W : Type} `{ResponseWriter W} (env : Env)
  (next : forall W' : Type, ResponseWriter W' -> Handler W')
  (correlationID : string) (r : http_Request) (s0 : St W) :
  requestLogger_run env next correlationID r s0 =
  let r' := served_request env correlationID r in
  let l := UpdateContext [("correlation_id", FStr correlationID)]
             (logger_Get env) in
  let '(o, s2) := next _ _ r' (served_state correlationID s0) in
  match recover o with
  | any_nil =>
      emit l InfoLevel
        [("method", FStr (Method r'));
         ("url", FStr (URL_RequestURI env (URL r')));
         ("user_agent", FStr (UserAgent r'));
         ("elapsed_ms", FDur (now (world s2) - now (world s0)));
         ("status_code", FInt (statusCode (resp s2)))]
        "incoming request" s2
  | panicVal =>
      (Panics panicVal,
       {| resp := {| embedded := embedded (resp s2);
                     statusCode := StatusInternalServerError |};
          world := world s2 |})
  end.
Proof. reflexivity. Qed.

(** When the wrapped handler returns, the deferred function writes the
    completion record with the status the writer has captured, provided
    the logger lets the level [Info] through. *)
Lemma requestLogger_return {W : Type} `{ResponseWriter W} (env : Env)
  (next : forall W' : Type, ResponseWriter W' -> Handler W')
  (correlationID : string) (r : http_Request) (s0 : St W)
  (s2 : St (loggingResponseWriter W)) :
  next _ _ (served_request env correlationID r)
    (served_state correlationID s0) = (Returns tt, s2) ->
  Level_rank (level (logger_Get env)) <= Level_rank InfoLevel ->
  exists fields,
    logs (world (snd (requestLogger_run env next correlationID r s0))) =
    (logs (world s2) ++ [Event InfoLevel fields "incoming request"])%list /\
    In ("status_code", FInt (statusCode (resp s2))) fields /\
    fst (requestLogger_run env next correlationID r s0) = Returns tt.
Proof.
  intros Hnext Hlvl. rewrite requestLogger_run_unfold. cbn zeta.
  rewrite Hnext. cbn [recover]. unfold emit. cbn [UpdateContext level].
  apply Z.leb_le in Hlvl. rewrite Hlvl. eexists.
  split; [reflexivity |]. split; [| reflexivity].
  apply in_or_app. right. cbn. auto 10.
Qed.

(** C3, on the code.  When the wrapped handler panics with a value other
    than nil, the deferred function sets the captured status to 500 and
    panics again with the same value at once: the middleware leaves the
    log as the handler left it, without a completion record. *)
Theorem requestLogger_panic {W : Type} `{ResponseWriter W} (env : Env)
  (next : forall W' : Type, ResponseWriter W' -> Handler W')
  (correlationID : string) (r : http_Request) (s0 : St W) (v : any)
  (s2 : St (loggingResponseWriter W)) :
  v <> any_nil ->
  next _ _ (served_request env correlationID r)
    (served_state correlationID s0) = (Panics v, s2) ->
  requestLogger_run env next correlationID r s0 =
  (Panics v,
   {| resp := {| embedded := embedded (resp s2);
                 statusCode := StatusInternalServerError |};
      world := world s2 |}) /\
  fst (requestLogger env next correlationID r s0) = Panics v /\
  logs (world (snd (requestLogger env next correlationID r s0))) =
  logs (world s2).
Proof.
  intros Hv Hnext.
  assert (Hrun : requestLogger_run env next correlationID r s0 =
                 (Panics v,
                  {| resp := {| embedded := embedded (resp s2);
                                statusCode := StatusInternalServerError |};
                     world := world s2 |})).
  { rewrite requestLogger_run_unfold. cbn zeta. rewrite Hnext.
    cbn [recover]. destruct v; [contradiction | reflexivity | reflexivity]. }
  split; [exact Hrun |].
  unfold requestLogger. rewrite Hrun. split; reflexivity.
Qed.

(** ** The theorems at work on the stub environment *)

Lemma IsLastPage_iff_witness :
  IsLastPage {| Query := "cat"; TotalPages := 3; NextPage := 3;
                Results := None |} = true.
Proof.
  apply (proj2 (IsLastPage_iff _)). cbn. lia.
Defined.

Lemma CurrentPage_PreviousPage_witness :
  let s := {| Query := "cat"; TotalPages := 9; NextPage := 5;
              Results := None |} in
  GoInt.min_int + 2 <= NextPage s <= GoInt.max_int /\
  CurrentPage s = 4 /\ PreviousPage s = 3.
Proof.
  cbn zeta.
  assert (Hr : GoInt.min_int + 2 <= 5 <= GoInt.max_int)
    by (unfold GoInt.min_int, GoInt.max_int; lia).
  split; [exact Hr |].
  exact (proj2 (proj2 (proj2
    (CurrentPage_PreviousPage
       {| Query := "cat"; TotalPages := 9; NextPage := 5; Results := None |}
       Hr))) eq_refl).
Defined.

(** C7 as stated fails where the subtraction wraps: with [NextPage] the
    smallest [int], [CurrentPage()] is the largest. *)
Lemma CurrentPage_wraps :
  let s := {| Query := "cat"; TotalPages := 9; NextPage := GoInt.min_int;
              Results := None |} in
  NextPage s <> 1 /\
  CurrentPage s = GoInt.max_int /\
  CurrentPage s <> NextPage s - 1.
Proof.
  cbn zeta. repeat split; vm_compute; discriminate.
Qed.

Lemma asks_for_stub (status hits : Z) (out : result string) :
  asks_for (stub status hits out) (get "/search" "q=cat&page=2") "cat" 2.
Proof.
  eexists. repeat split; reflexivity.
Qed.

Lemma upstream_finds_stub (hits : Z) (out : result string) (url : string) :
  upstream_finds (stub 200 hits out) url (stub_found hits).
Proof.
  do 2 eexists. repeat split; reflexivity.
Qed.

Lemma searchHandler_page2_of_50_witness :
  asks_for (stub 200 50 (Ok page)) (get "/search" "q=cat&page=2") "cat" 2 /\
  upstream_finds (stub 200 50 (Ok page)) (apiURL 20 "cat" 20) (stub_found 50) /\
  exists m,
    rendered (world (snd (searchHandler (stub 200 50 (Ok page))
                            (get "/search" "q=cat&page=2") fresh))) =
    [Some m] /\
    TotalPages m = 3 /\ CurrentPage m = 2 /\ NextPage m = 3 /\
    IsLastPage m = true.
Proof.
  split; [apply asks_for_stub |]. split; [apply upstream_finds_stub |].
  exact (searchHandler_page2_of_50 (stub 200 50 (Ok page))
           (get "/search" "q=cat&page=2") "cat" (stub_found 50) fresh
           (asks_for_stub 200 50 (Ok page))
           (upstream_finds_stub 50 (Ok page) _) eq_refl).
Defined.

Lemma searchHandler_TotalPages_witness :
  asks_for (stub 200 45 (Ok page)) (get "/search" "q=cat&page=2") "cat" 2 /\
  upstream_finds (stub 200 45 (Ok page)) (apiURL 20 "cat" 20) (stub_found 45) /\
  exists m,
    rendered (world (snd (searchHandler (stub 200 45 (Ok page))
                            (get "/search" "q=cat&page=2") fresh))) =
    [Some m] /\
    TotalPages m = 3.
Proof.
  split; [apply asks_for_stub |]. split; [apply upstream_finds_stub |].
  destruct (searchHandler_TotalPages (stub 200 45 (Ok page))
              (get "/search" "q=cat&page=2") "cat" 2 (stub_found 45) fresh
              (asks_for_stub 200 45 (Ok page))
              (upstream_finds_stub 45 (Ok page) _))
    as (m & Hr & _ & Hc & _).
  exists m. split; [exact Hr |].
  rewrite Hc; [reflexivity | cbn; lia].
Defined.

(** C5 as stated fails beyond [2^53]: 9007199254741001 hits are first
    rounded to 9007199254741000, which 20 divides, and the handler
    computes one page less than the ceiling. *)
Lemma searchHandler_TotalPages_rounding :
  let env := stub 200 9007199254741001 (Ok page) in
  exists m,
    rendered (world (snd (searchHandler env (get "/search" "q=cat&page=2")
                            fresh))) = [Some m] /\
    Results m = Some (stub_found 9007199254741001) /\
    TotalPages m = 450359962737050 /\
    ceil_div 9007199254741001 20 = 450359962737051.
Proof.
  cbn zeta. eexists. split; [vm_compute; reflexivity |].
  repeat split; vm_compute; reflexivity.
Qed.

Lemma searchHandler_offset_witness :
  let env := stub 200 50 (Ok page) in
  let r := get "/search" "q=cat&page=0" in
  asks_for env r "cat" 0 /\ offset_fits 0 /\
  fetched (world (snd (searchHandler env r fresh))) = [apiURL 20 "cat" (-20)] /\
  GoInt.mul (GoInt.sub 0 1) 20 < 0.
Proof.
  cbn zeta.
  assert (Ha : asks_for (stub 200 50 (Ok page))
                 (get "/search" "q=cat&page=0") "cat" 0)
    by (eexists; repeat split; reflexivity).
  assert (Hf : offset_fits 0) by (unfold offset_fits; lia).
  destruct (searchHandler_offset (stub 200 50 (Ok page))
              (get "/search" "q=cat&page=0") "cat" 0 fresh Ha)
    as (Hfetch & _ & Hneg).
  split; [exact Ha |]. split; [exact Hf |].
  split; [exact Hfetch |]. apply Hneg; [exact Hf | lia].
Defined.

(** C6 as stated fails where the product overflows: for page
    461168601842738792 the offset sent upstream is negative. *)
Lemma searchHandler_offset_overflow :
  let env := stub 200 50 (Ok page) in
  let r := get "/search" "q=cat&page=461168601842738792" in
  asks_for env r "cat" 461168601842738792 /\
  fetched (world (snd (searchHandler env r fresh))) =
  [apiURL 20 "cat" (-9223372036854775796)] /\
  -9223372036854775796 <> (461168601842738792 - 1) * 20.
Proof.
  cbn zeta. split; [eexists; repeat split; reflexivity |].
  split; [vm_compute; reflexivity | lia].
Qed.

(** C2 as stated fails for a search string with a space or an
    ampersand: it reaches the URL as it is. *)
Lemma searchWikipedia_url_unescaped :
  fetched (world (snd (searchWikipedia (stub 200 50 (Ok page))
                         "cats & dogs" 20 0 fresh))) =
  [apiPrefix ++ "20&srsearch=cats & dogs&sroffset=0"] /\
  apiURL_encoded 20 "cats & dogs" 0 =
  apiPrefix ++ "20&srsearch=cats+%26+dogs&sroffset=0" /\
  apiURL 20 "cats & dogs" 0 <> apiURL_encoded 20 "cats & dogs" 0.
Proof.
  repeat split; try reflexivity. vm_compute. discriminate.
Qed.

Lemma searchWikipedia_url_witness :
  all_unreserved "cat" = true /\
  apiURL 20 "cat" 0 = apiURL_encoded 20 "cat" 0.
Proof.
  split; [reflexivity |].
  exact (proj2 (proj2 (proj2 (searchWikipedia_url (stub 200 50 (Ok page))
                                "cat" 20 0 fresh))) eq_refl).
Defined.

Lemma requestLogger_panic_witness :
  let env := stub 200 50 (Ok page) in
  let r := get "/search" "q=cat&page=2" in
  any_string "boom" <> any_nil /\
  panicking (any_string "boom") _ _ (served_request env "c0rr" r)
    (served_state "c0rr" fresh) =
  (Panics (any_string "boom"), served_state "c0rr" fresh) /\
  fst (requestLogger env (panicking (any_string "boom")) "c0rr" r fresh) =
  Panics (any_string "boom") /\
  statusCode (resp (snd (requestLogger_run env
                           (panicking (any_string "boom")) "c0rr" r fresh))) =
  500 /\
  logs (world (snd (requestLogger env (panicking (any_string "boom"))
                      "c0rr" r fresh))) = [].
Proof.
  cbn zeta.
  assert (Hv : any_string "boom" <> any_nil) by discriminate.
  destruct (requestLogger_panic (stub 200 50 (Ok page))
              (panicking (any_string "boom")) "c0rr"
              (get "/search" "q=cat&page=2") fresh (any_string "boom")
              (served_state "c0rr" fresh) Hv eq_refl)
    as (Hrun & Hout & Hlogs).
  split; [exact Hv |]. split; [reflexivity |]. split; [exact Hout |].
  split; [rewrite Hrun; reflexivity | rewrite Hlogs; reflexivity].
Defined.

Lemma untouched_fresh : untouched (resp fresh).
Proof. repeat split; reflexivity. Qed.

Lemma ServeHTTP_error_witness :
  let env := stub 503 50 (Ok page) in
  let r := get "/search" "q=cat&page=2" in
  (exists s1 s2,
      failing r fresh = (Returns (Some (errorString "boom")), s1) /\
      ServeHTTP env failing r fresh = (Returns tt, s2) /\
      logs (world s2) = [StdLog "boom"] /\
      BodyBytes (resp s2) = "boom" ++ newline /\
      Code (resp s2) = 500) /\
  asks_for env r "cat" 2 /\
  (exists s2,
      ServeHTTP env (searchHandler env) r fresh = (Returns tt, s2) /\
      Code (resp s2) = 500 /\
      BodyBytes (resp s2) =
      "non 200 OK response from Wikipedia API: HTTP/1.1 503" ++ newline).
Proof.
  cbn zeta.
  destruct (ServeHTTP_error (stub 503 50 (Ok page))
              (get "/search" "q=cat&page=2") fresh) as [HA HB].
  split; [| split; [apply asks_for_stub |]].
  - destruct (HA failing (errorString "boom") fresh eq_refl)
      as (s2 & Hrun & Hlog & Hbody & Hcode).
    exists fresh, s2. repeat split; assumption.
  - destruct (HB "cat" 2 {| StatusCode := 503; Body := Ok "{}" |}
                (asks_for_stub 503 50 (Ok page)) eq_refl)
      as [_ Hserve]; [discriminate |].
    destruct (Hserve untouched_fresh) as (s2 & Hrun & Hcode & Hbody).
    exists s2. repeat split; assumption.
Defined.

(** C8 as stated fails on the body and, for a handler that has already
    written, on the status: the body ends in a newline after the
    message, and a header already sent keeps its status 200. *)
Lemma ServeHTTP_error_body_newline :
  let env := stub 200 50 (Ok page) in
  let r := get "/" "" in
  BodyBytes (resp (snd (ServeHTTP env failing r fresh))) = "boom" ++ newline /\
  BodyBytes (resp (snd (ServeHTTP env failing r fresh))) <> "boom" /\
  fst (failing_late r fresh) = Returns (Some (errorString "boom")) /\
  Code (resp (snd (ServeHTTP env failing_late r fresh))) = 200 /\
  BodyBytes (resp (snd (ServeHTTP env failing_late r fresh))) =
  "partialboom" ++ newline.
Proof.
  cbn zeta. repeat split; try reflexivity. vm_compute. discriminate.
Qed.

Lemma indexHandler_root_or_404_witness :
  let env := stub 200 50 (Ok page) in
  (untouched (resp fresh) /\
   Path (URL (get "/" "")) = "/" /\
   tpl_Execute env None = Ok page /\
   exists s',
     ServeHTTP env (indexHandler env) (get "/" "") fresh = (Returns tt, s') /\
     rendered (world s') = [None] /\
     BodyBytes (resp s') = page /\ Code (resp s') = 200) /\
  (Path (URL (get "/foo" "")) <> "/" /\
   exists s',
     indexHandler env (get "/foo" "") fresh = (Returns None, s') /\
     ServeHTTP env (indexHandler env) (get "/foo" "") fresh =
     (Returns tt, s') /\
     Code (resp s') = 404).
Proof.
  cbn zeta. split.
  - split; [apply untouched_fresh |]. do 2 (split; [reflexivity |]).
    destruct (proj1 (indexHandler_root_or_404 (stub 200 50 (Ok page))
                       (get "/" "") fresh untouched_fresh)
                eq_refl page eq_refl)
      as (s' & _ & Hserve & Hr & Hb & Hc).
    exists s'. repeat split; assumption.
  - assert (Hp : Path (URL (get "/foo" "")) <> "/") by discriminate.
    split; [exact Hp |].
    destruct (proj2 (indexHandler_root_or_404 (stub 200 50 (Ok page))
                       (get "/foo" "") fresh untouched_fresh) Hp)
      as (s' & Hrun & Hserve & _ & _ & Hc).
    exists s'. repeat split; assumption.
Defined.

Lemma render_failure_writes_nothing_witness :
  let e := errorString "template: index.html: boom" in
  let bad := stub 200 50 (Err e) in
  let good := stub 200 50 (Ok page) in
  let search := get "/search" "q=cat&page=2" in
  untouched (resp fresh) /\
  (tpl_Execute good None = Ok page /\
   exists s',
     ServeHTTP good (indexHandler good) (get "/" "") fresh = (Returns tt, s') /\
     Code (resp s') = 200 /\ BodyBytes (resp s') = page) /\
  (tpl_Execute bad None = Err e /\
   exists s1 s2,
     indexHandler bad (get "/" "") fresh = (Returns (Some e), s1) /\
     resp s1 = resp fresh /\
     ServeHTTP bad (indexHandler bad) (get "/" "") fresh = (Returns tt, s2) /\
     Code (resp s2) = 500 /\
     BodyBytes (resp s2) = "template: index.html: boom" ++ newline) /\
  (asks_for good search "cat" 2 /\
   upstream_finds good (apiURL 20 "cat" 20) (stub_found 50) /\
   tpl_Execute good (Some (searchModel "cat" 2 (stub_found 50))) = Ok page /\
   exists s',
     ServeHTTP good (searchHandler good) search fresh = (Returns tt, s') /\
     Code (resp s') = 200 /\ BodyBytes (resp s') = page) /\
  (asks_for bad search "cat" 2 /\
   upstream_finds bad (apiURL 20 "cat" 20) (stub_found 50) /\
   exists s1 s2,
     searchHandler bad search fresh = (Returns (Some e), s1) /\
     resp s1 = resp fresh /\
     ServeHTTP bad (searchHandler bad) search fresh = (Returns tt, s2) /\
     Code (resp s2) = 500 /\
     BodyBytes (resp s2) = "template: index.html: boom" ++ newline).
Proof.
  cbn zeta. split; [apply untouched_fresh |]. split; [| split; [| split]].
  - split; [reflexivity |].
    destruct (proj1 (proj1 (render_failure_writes_nothing
                              (stub 200 50 (Ok page)) (get "/" "") fresh
                              untouched_fresh) eq_refl) page eq_refl)
      as (s' & _ & Hserve & Hcode & Hbody).
    exists s'. repeat split; assumption.
  - split; [reflexivity |].
    exact (proj2 (proj1 (render_failure_writes_nothing
                           (stub 200 50
                              (Err (errorString "template: index.html: boom")))
                           (get "/" "") fresh untouched_fresh) eq_refl)
             _ eq_refl).
  - split; [apply asks_for_stub |]. split; [apply upstream_finds_stub |].
    split; [reflexivity |].
    destruct (proj1 (proj2 (render_failure_writes_nothing
                              (stub 200 50 (Ok page))
                              (get "/search" "q=cat&page=2") fresh
                              untouched_fresh)
                       "cat" 2 (stub_found 50) (asks_for_stub _ _ _)
                       (upstream_finds_stub _ _ _)) page eq_refl)
      as (s' & _ & Hserve & Hcode & Hbody).
    exists s'. repeat split; assumption.
  - split; [apply asks_for_stub |]. split; [apply upstream_finds_stub |].
    exact (proj2 (proj2 (render_failure_writes_nothing
                           (stub 200 50
                              (Err (errorString "template: index.html: boom")))
                           (get "/search" "q=cat&page=2") fresh
                           untouched_fresh)
                    "cat" 2 (stub_found 50) (asks_for_stub _ _ _)
                    (upstream_finds_stub _ _ _)) _ eq_refl).
Defined.

(** * Further properties of the code *)

(** ** Page numbers *)

Lemma ParseUint_digits_nonneg (s : string) :
  forall n un, 0 <= n -> ParseUint_digits n s = scan_value un -> 0 <= un.
Proof.
  induction s as [| c s IH]; intros n un Hn; cbn [ParseUint_digits].
  - intros Heq. injection Heq as <-. exact Hn.
  - unfold is_digit, digit_value.
    destruct ((48 <=? nat_of_ascii c)%nat && (nat_of_ascii c <=? 57)%nat)
      eqn:Hd; cbn [negb]; [| discriminate].
    destruct (n >=? 1844674407370955162); [discriminate |].
    destruct (n * 10 + (Z.of_nat (nat_of_ascii c) - 48) >? 2 ^ 64 - 1);
      [discriminate |].
    apply IH. apply andb_true_iff in Hd. destruct Hd as [Hlo _].
    apply Nat.leb_le in Hlo. lia.
Qed.

(** [Atoi] never returns a number outside [int]. *)
Lemma Atoi_in_range (s : string) (n : Z) :
  Atoi s = Ok n -> GoInt.min_int <= n <= GoInt.max_int.
Proof.
  unfold Atoi. destruct s as [| c rest]; [discriminate |].
  set (neg := Ascii.eqb c "-").
  set (digits := if neg || Ascii.eqb c "+" then rest else String c rest).
  destruct digits as [| d ds] eqn:Hdig; [discriminate |].
  destruct (ParseUint_digits 0 (String d ds)) as [un | |] eqn:Hscan;
    try discriminate.
  pose proof (ParseUint_digits_nonneg _ 0 un ltac:(lia) Hscan) as Hun.
  unfold GoInt.min_int, GoInt.max_int.
  destruct neg; cbn [negb andb].
  - destruct (un >? 2 ^ 63) eqn:Hgt; [discriminate |].
    intros Heq. injection Heq as <-.
    rewrite Z.gtb_ltb in Hgt. apply Z.ltb_ge in Hgt. lia.
  - destruct (un >=? 2 ^ 63) eqn:Hge; [discriminate |].
    intros Heq. injection Heq as <-.
    rewrite Z.geb_leb in Hge. apply Z.leb_gt in Hge. lia.
Qed.

Lemma asks_for_in_range (env : Env) (r : http_Request) (q : string) (p : Z) :
  asks_for env r q p -> GoInt.min_int <= p <= GoInt.max_int.
Proof. intros (u & _ & _ & Hp). exact (Atoi_in_range _ _ Hp). Qed.

Lemma wrap_succ_pred (p : Z) :
  GoInt.sub (GoInt.add p 1) 1 = GoInt.wrap p.
Proof.
  unfold GoInt.sub, GoInt.add, GoInt.wrap.
  replace ((p + 1 + 2 ^ 63) mod 2 ^ 64 - 2 ^ 63 - 1 + 2 ^ 63)
    with ((p + 1 + 2 ^ 63) mod 2 ^ 64 - 1) by lia.
  rewrite Zminus_mod_idemp_l. f_equal. f_equal. lia.
Qed.

Lemma add_one_is_one (p : Z) :
  GoInt.min_int <= p <= GoInt.max_int ->
  (GoInt.add p 1 =? 1) = (p =? 0).
Proof.
  unfold GoInt.min_int, GoInt.max_int, GoInt.add, GoInt.wrap. intros Hp.
  destruct (Z.eq_dec p (2 ^ 63 - 1)) as [-> | Hmax]; [reflexivity |].
  rewrite Z.mod_small by lia.
  destruct (Z.eqb_spec p 0) as [-> | Hne]; [reflexivity |].
  apply Z.eqb_neq. lia.
Qed.

(** X1.  The [Search] value the handler builds for page [p] gives [p]
    back as [CurrentPage()] for every [p] but 0, also where [p + 1]
    wraps around; page 0 is shown as page 1.  [PreviousPage()] is
    [p - 1] unless [p] is 0 or the smallest [int]. *)
Theorem searchHandler_CurrentPage {W : Type} `{ResponseWriter W} (env : Env)
  (r : http_Request) (q : string) (p : Z) (found : WikipediaSearchResponse)
  (s : St W) :
  asks_for env r q p ->
  upstream_finds env (apiURL 20 q (GoInt.mul (GoInt.sub p 1) 20)) found ->
  exists m,
    rendered (world (snd (searchHandler env r s))) =
    (rendered (world s) ++ [Some m])%list /\
    (p <> 0 -> CurrentPage m = p) /\
    (p = 0 -> CurrentPage m = 1 /\ PreviousPage m = 0) /\
    (p <> 0 -> GoInt.min_int < p -> PreviousPage m = p - 1).
Proof.
  intros Ha Hu. pose proof (asks_for_in_range env r q p Ha) as Hp.
  exists (searchModel q p found).
  split; [apply searchHandler_renders; assumption |].
  assert (Hc : p <> 0 -> CurrentPage (searchModel q p found) = p).
  { intros Hne. unfold CurrentPage. cbn [searchModel NextPage].
    rewrite add_one_is_one by assumption.
    destruct (Z.eqb_spec p 0) as [-> | _]; [contradiction |].
    rewrite wrap_succ_pred. now apply wrap_in_range. }
  split; [exact Hc |]. split.
  - intros ->. split; reflexivity.
  - intros Hne Hmin. unfold PreviousPage. rewrite Hc by assumption.
    apply wrap_in_range. unfold GoInt.min_int, GoInt.max_int in *. lia.
Qed.

(** X2.  For a hit count from 0 to [2^53] the page count computed
    through [float64] is not negative, and the pages just cover the
    hits: [20 * (TotalPages - 1) < totalHits <= 20 * TotalPages]. *)
Theorem totalPages_covers (h : Z) :
  0 <= h <= 2 ^ 53 ->
  0 <= totalPages h 20 /\
  20 * (totalPages h 20 - 1) < h <= 20 * totalPages h 20.
Proof.
  intros Hh.
  pose proof (totalPages_exact h ltac:(lia)) as He.
  pose proof (proj1 (ceil_div_spec h 20 (totalPages h 20) ltac:(lia))
                (eq_sym He)) as Hc.
  lia.
Qed.

(** X3.  For the [Search] value built for page [p] from [totalHits]
    between 0 and [2^53], [IsLastPage()] holds exactly when the hits end
    on page [p + 1] or before: already on the page before the last. *)
Theorem searchHandler_IsLastPage {W : Type} `{ResponseWriter W} (env : Env)
  (r : http_Request) (q : string) (p : Z) (found : WikipediaSearchResponse)
  (s : St W) :
  asks_for env r q p ->
  upstream_finds env (apiURL 20 q (GoInt.mul (GoInt.sub p 1) 20)) found ->
  0 <= Query_SearchInfo_TotalHits found <= 2 ^ 53 ->
  p < GoInt.max_int ->
  exists m,
    rendered (world (snd (searchHandler env r s))) =
    (rendered (world s) ++ [Some m])%list /\
    (IsLastPage m = true <->
     Query_SearchInfo_TotalHits found <= 20 * (p + 1)).
Proof.
  intros Ha Hu Hh Hmax. pose proof (asks_for_in_range env r q p Ha) as Hp.
  exists (searchModel q p found).
  split; [apply searchHandler_renders; assumption |].
  unfold IsLastPage. cbn [searchModel NextPage TotalPages].
  pose proof (totalPages_exact (Query_SearchInfo_TotalHits found)
                ltac:(lia)) as He.
  pose proof (proj1 (ceil_div_spec _ 20 _ ltac:(lia)) (eq_sym He)) as Hc.
  unfold GoInt.add. rewrite wrap_in_range by lia.
  rewrite Z.geb_leb, Z.leb_le. lia.
Qed.

(** ** How the steps of a handler compose *)

Lemma keeps_ret {W A : Type} (R : St W -> St W -> Prop) (a : A) :
  (forall s, R s s) -> keeps R (ret a).
Proof. intros Hrefl s. apply Hrefl. Qed.

Lemma keeps_bind {W A B : Type} (R : St W -> St W -> Prop) (m : M W A)
  (k : A -> M W B) :
  (forall s1 s2 s3, R s1 s2 -> R s2 s3 -> R s1 s3) ->
  keeps R m -> (forall a, keeps R (k a)) -> keeps R (bind m k).
Proof.
  intros Htrans Hm Hk s. unfold bind. specialize (Hm s).
  destruct (m s) as [[a | v] s1]; cbn [snd] in *; [| exact Hm].
  exact (Htrans _ _ _ Hm (Hk a s1)).
Qed.

Lemma logged_refl {W : Type} (P : LogEntry -> Prop) (s : St W) : logged P s s.
Proof. exists []. split; [symmetry; apply app_nil_r | constructor]. Qed.

Lemma logged_trans {W : Type} (P : LogEntry -> Prop) (s1 s2 s3 : St W) :
  logged P s1 s2 -> logged P s2 s3 -> logged P s1 s3.
Proof.
  intros (n1 & H1 & F1) (n2 & H2 & F2). exists (n1 ++ n2)%list.
  split; [rewrite H2, H1; symmetry; apply app_assoc |].
  apply Forall_app. split; assumption.
Qed.

Lemma logged_weaken {W : Type} (P Q : LogEntry -> Prop) (s s' : St W) :
  (forall e, P e -> Q e) -> logged P s s' -> logged Q s s'.
Proof.
  intros HPQ (new & Hl & HF). exists new. split; [exact Hl |].
  revert HF. apply Forall_impl. exact HPQ.
Qed.

Lemma logged_same_world {W W' : Type} (P : LogEntry -> Prop)
  (s : St W) (s' : St W') :
  logs (world s') = logs (world s) ->
  exists new, logs (world s') = (logs (world s) ++ new)%list /\ Forall P new.
Proof.
  intros Heq. exists []. split; [rewrite Heq; symmetry; apply app_nil_r |].
  constructor.
Qed.

Lemma keeps_logged_emit {W : Type} (P : LogEntry -> Prop) (l : Logger)
  (lvl : Level) (fields : list Field) (msg : string) :
  (Level_rank (level l) <= Level_rank lvl ->
   P (Event lvl (context l ++ fields)%list msg)) ->
  keeps (W := W) (logged P) (emit l lvl fields msg).
Proof.
  intros HP s. unfold emit.
  destruct (Z.leb_spec (Level_rank (level l)) (Level_rank lvl)) as [Hle | _].
  - exists [Event lvl (context l ++ fields)%list msg].
    split; [reflexivity |]. constructor; [auto | constructor].
  - apply logged_refl.
Qed.

Lemma keeps_logged_Println {W : Type} (P : LogEntry -> Prop) (line : string) :
  P (StdLog line) -> keeps (W := W) (logged P) (log_Println line).
Proof.
  intros HP s. exists [StdLog line]. split; [reflexivity |].
  constructor; [exact HP | constructor].
Qed.

Lemma keeps_logged_quiet {W A : Type} (P : LogEntry -> Prop) (m : M W A) :
  (forall s, logs (world (snd (m s))) = logs (world s)) ->
  keeps (logged P) m.
Proof. intros Hq s. apply logged_same_world, Hq. Qed.

Lemma http_Error_world {W : Type} `{ResponseWriter W} (msg : string)
  (code : Z) (s : St W) :
  world (snd (http_Error msg code s)) = world s.
Proof.
  unfold http_Error, bind, w_Header_Set, w_WriteHeader, w_Write, ret.
  cbn [resp world].
  destruct (Write _ _) as [res w']. reflexivity.
Qed.

Lemma searchWikipedia_logs {W : Type} (env : Env) (q : string) (n o : Z)
  (s : St W) :
  logs (world (snd (searchWikipedia env q n o s))) = logs (world s).
Proof.
  unfold searchWikipedia, Get, bind, modify_world, ret.
  cbn [resp world logs fetched rendered now].
  destruct (HTTPClient_Get env _) as [rs | e]; [| reflexivity].
  destruct (negb (StatusCode rs =? StatusOK)); [reflexivity |].
  destruct (Body rs) as [body | e]; [| reflexivity].
  destruct (json_Unmarshal env body); reflexivity.
Qed.

Lemma Execute_logs {W : Type} (env : Env) (data : option Search) (s : St W) :
  logs (world (snd (Execute env data s))) = logs (world s).
Proof. reflexivity. Qed.

(** Walks through a handler: every bind, branch and step of it. *)
Ltac walk_logged :=
  repeat first
    [ apply keeps_logged_quiet; intros ?; rewrite Buffer_WriteTo_world;
      reflexivity
    | apply keeps_logged_quiet; intros ?; apply searchWikipedia_logs
    | apply keeps_logged_quiet; intros ?; apply Execute_logs
    | apply keeps_logged_quiet; intros ?; rewrite http_Error_world; reflexivity
    | apply keeps_ret; intros ?; apply logged_refl
    | apply keeps_bind; [intros ? ? ?; apply logged_trans | | intros ?]
    | match goal with
      | |- keeps _ (match ?x with _ => _ end) => destruct x
      end ].

Ltac logged_emit :=
  apply keeps_logged_emit; intros Hlvl;
  eexists _, _, _; split;
  [ cbn [UpdateContext context]; rewrite <- app_assoc; reflexivity
  | cbn [UpdateContext level Level_rank] in *; lia ].

(** ** What [searchHandler] logs *)

Lemma searchHandler_events {W : Type} `{ResponseWriter W} (env : Env)
  (r : http_Request) :
  keeps (logged (event_of (level (zerolog_Ctx (ReqContext r)))
                   (context (zerolog_Ctx (ReqContext r)))))
    (searchHandler env r).
Proof.
  unfold searchHandler.
  destruct (url_Parse env (URL_String env (URL r))) as [u | e];
    [| walk_logged].
  cbn zeta.
  apply keeps_bind; [intros ? ? ?; apply logged_trans | logged_emit |].
  intros _. destruct (Atoi _) as [p | e]; [| walk_logged].
  apply keeps_bind; [intros ? ? ?; apply logged_trans | walk_logged |].
  intros [found | e]; [| walk_logged].
  apply keeps_bind; [intros ? ? ?; apply logged_trans | logged_emit |].
  intros _.
  apply keeps_bind; [intros ? ? ?; apply logged_trans | walk_logged |].
  intros [buf | e]; [| walk_logged].
  apply keeps_bind; [intros ? ? ?; apply logged_trans | walk_logged |].
  intros [e |]; [walk_logged |].
  apply keeps_bind; [intros ? ? ?; apply logged_trans | logged_emit |].
  intros _. walk_logged.
Qed.

(** X4.  Whatever [searchHandler] adds to the log is an event of the
    logger found in the context of the request, extended or not, at a
    level that logger lets through; for a request without a logger in
    its context the handler logs nothing. *)
Theorem searchHandler_logs {W : Type} `{ResponseWriter W} (env : Env)
  (r : http_Request) :
  keeps (logged (event_of (level (zerolog_Ctx (ReqContext r)))
                   (context (zerolog_Ctx (ReqContext r)))))
    (searchHandler env r) /\
  (ctx_logger (ReqContext r) = None ->
   forall s, logs (world (snd (searchHandler env r s))) = logs (world s)).
Proof.
  pose proof (searchHandler_events (W := W) env r) as Hk.
  split; [exact Hk |].
  intros Hnone s. destruct (Hk s) as (new & Hlogs & Hall).
  unfold zerolog_Ctx in Hall. rewrite Hnone in Hall.
  destruct new as [| e new]; [rewrite Hlogs; apply app_nil_r |].
  apply Forall_inv in Hall. destruct Hall as (lvl & f & m & _ & Hr).
  cbn in Hr. lia.
Qed.

(** ** Handlers on a writer that takes every byte *)

Lemma Buffer_WriteTo_reliable {W : Type} `{ResponseWriter W} (buf : string)
  (s : St W) :
  reliable W ->
  Buffer_WriteTo buf s =
  (Returns None, {| resp := written buf (resp s); world := world s |}).
Proof.
  intros Hrel. unfold Buffer_WriteTo, written.
  destruct (Z.of_nat (String.length buf) >? 0);
    [| destruct s; reflexivity].
  unfold bind, w_Write, ret. specialize (Hrel buf (resp s)).
  destruct (Write buf (resp s)) as [[m e] w']. cbn [fst snd] in *.
  injection Hrel as -> ->.
  rewrite Z.gtb_ltb, Z.ltb_irrefl, Z.eqb_refl. reflexivity.
Qed.

Lemma recorder_reliable : reliable recorder.
Proof. intros data w. reflexivity. Qed.

Lemma lrw_reliable {W : Type} `{ResponseWriter W} :
  reliable W -> reliable (loggingResponseWriter W).
Proof.
  intros Hrel data w. specialize (Hrel data (embedded w)).
  cbn [Write loggingResponseWriter_ResponseWriter].
  destruct (Write data (embedded w)) as [res w']. exact Hrel.
Qed.

Lemma http_Error_returns {W : Type} `{ResponseWriter W} (msg : string)
  (code : Z) (s : St W) :
  fst (http_Error msg code s) = Returns tt.
Proof.
  unfold http_Error, bind, w_Header_Set, w_WriteHeader, w_Write, ret.
  cbn [resp world].
  destruct (Write _ _) as [res w']. reflexivity.
Qed.

(** On such a writer [searchHandler] ends in one of two ways: with an
    error and the response as it was, or with nil and the whole rendered
    page written. *)
Lemma searchHandler_outcome {W : Type} `{ResponseWriter W} (env : Env)
  (r : http_Request) (s : St W) :
  reliable W ->
  exists o s',
    searchHandler env r s = (o, s') /\
    ((exists e, o = Returns (Some e) /\ resp s' = resp s) \/
     (exists m out,
         o = Returns None /\
         tpl_Execute env (Some m) = Ok out /\
         resp s' = written out (resp s))).
Proof.
  intros Hrel. unfold searchHandler.
  destruct (url_Parse env (URL_String env (URL r))) as [u | e];
    [| eexists _, _; split; [reflexivity |]; left; eexists; split; reflexivity].
  cbn zeta. set (l := UpdateContext _ _). unfold bind at 1.
  step_emit l InfoLevel lg1.
  destruct (Atoi _) as [p | e];
    [| eexists _, _; split; [reflexivity |]; left; eexists; split; reflexivity].
  unfold bind at 1.
  unfold searchWikipedia, Get, bind at 1 2, modify_world, ret.
  cbn [resp world logs fetched rendered now].
  destruct (HTTPClient_Get env _) as [rs | e];
    [| eexists _, _; split; [reflexivity |]; left; eexists; split; reflexivity].
  destruct (negb (StatusCode rs =? StatusOK));
    [eexists _, _; split; [reflexivity |]; left; eexists; split; reflexivity |].
  destruct (Body rs) as [body | e];
    [| eexists _, _; split; [reflexivity |]; left; eexists; split; reflexivity].
  destruct (json_Unmarshal env body) as [found | e];
    [| eexists _, _; split; [reflexivity |]; left; eexists; split; reflexivity].
  unfold bind at 1. step_emit l DebugLevel lg2.
  enter_Execute.
  destruct (tpl_Execute env _) as [out | e] eqn:HE;
    [| eexists _, _; split; [reflexivity |]; left; eexists; split; reflexivity].
  unfold bind at 1. rewrite Buffer_WriteTo_reliable by assumption.
  unfold bind. step_emit l TraceLevel lg3. unfold ret.
  eexists _, _. split; [reflexivity |]. right.
  eexists _, out. split; [reflexivity |]. split; [exact HE | reflexivity].
Qed.

Lemma indexHandler_outcome {W : Type} `{ResponseWriter W} (env : Env)
  (r : http_Request) (s : St W) :
  reliable W ->
  exists o s',
    indexHandler env r s = (o, s') /\
    ((exists e, o = Returns (Some e) /\ resp s' = resp s) \/
     (exists out, o = Returns None /\ resp s' = written out (resp s)) \/
     (o = Returns None /\
      s' = snd (http_Error "404 page not found" StatusNotFound s))).
Proof.
  intros Hrel. unfold indexHandler.
  destruct (negb (Path (URL r) =? "/")%string).
  - unfold http_NotFound, bind.
    pose proof (http_Error_returns "404 page not found" StatusNotFound s) as Hf.
    destruct (http_Error "404 page not found" StatusNotFound s) as [o s1].
    cbn [fst snd] in *. subst o. unfold ret.
    eexists _, _. split; [reflexivity |]. right. right. split; reflexivity.
  - unfold Execute, bind at 1 2, modify_world, ret.
    cbn [resp world logs fetched rendered now].
    destruct (tpl_Execute env None) as [out | e].
    + rewrite Buffer_WriteTo_reliable by assumption.
      eexists _, _. split; [reflexivity |]. right. left.
      exists out. split; reflexivity.
    + eexists _, _. split; [reflexivity |]. left.
      exists e. split; reflexivity.
Qed.

Lemma written_untouched (out : string) (rw : recorder) :
  untouched rw ->
  Code (written out rw) = 200 /\ BodyBytes (written out rw) = out.
Proof.
  intros (Hwh & Hc & Hb). unfold written.
  destruct (Z.of_nat (String.length out) >? 0) eqn:Hlen.
  - cbn. unfold recorder_WriteHeader. rewrite Hwh, Hb. split; reflexivity.
  - split; [exact Hc |]. rewrite Hb. symmetry. apply length_zero. lia.
Qed.

(** X5.  On a response nothing was written to, a search request ends
    in one of two ways and never in between: status 200 with exactly the
    page the template rendered as the body, or status 500 with the line
    of the error as the only body and that error as the last line of the
    log.  The handler never panics there. *)
Theorem search_response_whole (env : Env) (r : http_Request) (s : St recorder) :
  untouched (resp s) ->
  exists s',
    ServeHTTP env (searchHandler env) r s = (Returns tt, s') /\
    ((Code (resp s') = 200 /\
      exists m, tpl_Execute env (Some m) = Ok (BodyBytes (resp s'))) \/
     (Code (resp s') = 500 /\
      exists e before,
        BodyBytes (resp s') = Error env e ++ newline /\
        logs (world s') = (before ++ [StdLog (Error env e)])%list)).
Proof.
  intros Hu.
  destruct (searchHandler_outcome env r s recorder_reliable)
    as (o & s1 & Hrun & [(e & -> & Hresp) | (m & out & -> & HE & Hresp)]).
  - destruct (ServeHTTP_error_recorder env (searchHandler env) r s s1 e Hrun)
      as (s2 & Hserve & Hlog & _ & _ & Hbody & Hcode).
    destruct Hu as (Hwh & Hc & Hb).
    exists s2. split; [exact Hserve |]. right.
    rewrite Hresp, Hwh in Hcode. rewrite Hresp, Hb in Hbody.
    split; [exact Hcode |]. exists e, (logs (world s1)).
    split; assumption.
  - exists s1. split; [unfold ServeHTTP, bind; rewrite Hrun; reflexivity |].
    left. destruct (written_untouched out (resp s) Hu) as [Hc Hb].
    rewrite Hresp. split; [exact Hc |]. exists m. rewrite Hb. exact HE.
Qed.

(** ** Requests that [searchHandler] turns down *)

(** What [Atoi] rejects it reports by name: the error is a [NumError]
    of [Atoi] for the string itself, for its syntax or for its range. *)
Lemma Atoi_error (s : string) (e : error) :
  Atoi s = Err e ->
  e = NumError "Atoi" s ErrSyntax \/ e = NumError "Atoi" s ErrRange.
Proof.
  unfold Atoi. destruct s as [| c rest];
    [intros Heq; injection Heq as <-; left; reflexivity |].
  destruct (if (Ascii.eqb c "-" || Ascii.eqb c "+")%bool then rest
            else String c rest) as [| d ds];
    [intros Heq; injection Heq as <-; left; reflexivity |].
  destruct (ParseUint_digits 0 (String d ds)) as [un | |].
  - destruct (negb (Ascii.eqb c "-") && (un >=? 2 ^ 63));
      [intros Heq; injection Heq as <-; right; reflexivity |].
    destruct (Ascii.eqb c "-" && (un >? 2 ^ 63));
      [intros Heq; injection Heq as <-; right; reflexivity | discriminate].
  - intros Heq; injection Heq as <-; left; reflexivity.
  - intros Heq; injection Heq as <-; right; reflexivity.
Qed.

(** X7.  A [page] parameter that is not an [int] in decimal stops the
    handler before anything is fetched, rendered or written: it returns
    the [NumError] of [Atoi] naming the parameter, which the adapter
    turns into status 500. *)
Theorem searchHandler_bad_page {W : Type} `{ResponseWriter W} (env : Env)
  (r : http_Request) (u : url_URL) (e : error) (s : St W) :
  url_Parse env (URL_String env (URL r)) = Ok u ->
  Atoi (pageParam (URL_Query env u)) = Err e ->
  (e = NumError "Atoi" (pageParam (URL_Query env u)) ErrSyntax \/
   e = NumError "Atoi" (pageParam (URL_Query env u)) ErrRange) /\
  exists s',
    searchHandler env r s = (Returns (Some e), s') /\
    resp s' = resp s /\
    fetched (world s') = fetched (world s) /\
    rendered (world s') = rendered (world s).
Proof.
  intros Hu He. split; [apply Atoi_error; exact He |].
  unfold searchHandler. rewrite Hu.
  change (if (Values_Get (URL_Query env u) "page" =? "")%string then "1"
          else Values_Get (URL_Query env u) "page")
    with (pageParam (URL_Query env u)).
  rewrite He. set (l := UpdateContext _ _). unfold bind.
  step_emit l InfoLevel lg1. unfold ret.
  eexists. repeat split; reflexivity.
Qed.

(** X8.  When the upstream does not deliver a 200 response whose body
    decodes, the handler returns an error after its one fetch, hands no
    data to the template and leaves the response as it was. *)
Theorem searchHandler_upstream_failure {W : Type} `{ResponseWriter W}
  (env : Env) (r : http_Request) (q : string) (p : Z) (s : St W) :
  asks_for env r q p ->
  (forall found,
      ~ upstream_finds env (apiURL 20 q (GoInt.mul (GoInt.sub p 1) 20)) found) ->
  exists e s',
    searchHandler env r s = (Returns (Some e), s') /\
    resp s' = resp s /\
    fetched (world s') =
    (fetched (world s) ++ [apiURL 20 q (GoInt.mul (GoInt.sub p 1) 20)])%list /\
    rendered (world s') = rendered (world s).
Proof.
  intros (u & Hu & Hq & Hp) Hno.
  enter_searchHandler env u Hu Hq Hp l.
  unfold upstream_finds in Hno.
  destruct (HTTPClient_Get env _) as [rs | e];
    [| eexists _, _; repeat split; reflexivity].
  destruct (Z.eqb_spec (StatusCode rs) StatusOK) as [Hst | Hst]; cbn [negb];
    [| eexists _, _; repeat split; reflexivity].
  destruct (Body rs) as [body | e] eqn:Hbody;
    [| eexists _, _; repeat split; reflexivity].
  destruct (json_Unmarshal env body) as [found | e] eqn:Hjs;
    [| eexists _, _; repeat split; reflexivity].
  exfalso. apply (Hno found). exists rs, body. auto.
Qed.

(** X9.  A request without a [page] parameter is served as page 1: the
    offset fetched is 0 and the model names 2 as the next page. *)
Theorem searchHandler_default_page {W : Type} `{ResponseWriter W} (env : Env)
  (r : http_Request) (u : url_URL) (s : St W) :
  url_Parse env (URL_String env (URL r)) = Ok u ->
  Values_Get (URL_Query env u) "page" = "" ->
  let q := Values_Get (URL_Query env u) "q" in
  fetched (world (snd (searchHandler env r s))) =
  (fetched (world s) ++ [apiURL 20 q 0])%list /\
  (forall found,
      upstream_finds env (apiURL 20 q 0) found ->
      exists m,
        rendered (world (snd (searchHandler env r s))) =
        (rendered (world s) ++ [Some m])%list /\
        NextPage m = 2 /\ CurrentPage m = 1).
Proof.
  intros Hu Hpage q.
  assert (Ha : asks_for env r q 1).
  { exists u. split; [exact Hu |]. split; [reflexivity |].
    unfold pageParam. rewrite Hpage. reflexivity. }
  split; [exact (searchHandler_fetches env r q 1 s Ha) |].
  intros found Hf. exists (searchModel q 1 found).
  split; [exact (searchHandler_renders env r q 1 found s Ha Hf) |].
  split; reflexivity.
Qed.

(** ** The middleware when the handler comes back *)

Lemma requestLogger_run_nil {W : Type} `{ResponseWriter W} (env : Env)
  (next : forall W' : Type, ResponseWriter W' -> Handler W')
  (correlationID : string) (r : http_Request) (s0 : St W)
  (o : Outcome unit) (s2 : St (loggingResponseWriter W)) :
  next _ _ (served_request env correlationID r)
    (served_state correlationID s0) = (o, s2) ->
  recover o = any_nil ->
  let record :=
    Event InfoLevel
      (context (logger_Get env)
       ++ [("correlation_id", FStr correlationID);
           ("method", FStr (Method r));
           ("url", FStr (URL_RequestURI env (URL r)));
           ("user_agent", FStr (UserAgent r));
           ("elapsed_ms", FDur (now (world s2) - now (world s0)));
           ("status_code", FInt (statusCode (resp s2)))])%list
      "incoming request" in
  fst (requestLogger_run env next correlationID r s0) = Returns tt /\
  resp (snd (requestLogger_run env next correlationID r s0)) = resp s2 /\
  (Level_rank (level (logger_Get env)) <= Level_rank InfoLevel ->
   logs (world (snd (requestLogger_run env next correlationID r s0))) =
   (logs (world s2) ++ [record])%list) /\
  (Level_rank InfoLevel < Level_rank (level (logger_Get env)) ->
   logs (world (snd (requestLogger_run env next correlationID r s0))) =
   logs (world s2)).
Proof.
  intros Hnext Hrec record. rewrite requestLogger_run_unfold. cbn zeta.
  rewrite Hnext, Hrec. unfold emit. cbn [UpdateContext level context].
  destruct (Z.leb_spec (Level_rank (level (logger_Get env)))
              (Level_rank InfoLevel)) as [Hle | Hgt].
  - repeat split; try reflexivity; [| lia].
    intros _. subst record. cbn [snd world logs log_entry modify_world].
    rewrite <- app_assoc. reflexivity.
  - unfold ret. destruct s2 as [w2 wd2]. repeat split; try reflexivity. lia.
Qed.


(** X11.  A handler that panics with nil is not seen as panicking:
    [recover()] returns nil, so the middleware writes its record with
    the status the writer captured, not 500, and returns normally; the
    panic ends there. *)
Theorem requestLogger_nil_panic {W : Type} `{ResponseWriter W} (env : Env)
  (next : forall W' : Type, ResponseWriter W' -> Handler W')
  (correlationID : string) (r : http_Request) (s0 : St W)
  (s2 : St (loggingResponseWriter W)) :
  next _ _ (served_request env correlationID r)
    (served_state correlationID s0) = (Panics any_nil, s2) ->
  fst (requestLogger env next correlationID r s0) = Returns tt /\
  statusCode (resp (snd (requestLogger_run env next correlationID r s0))) =
  statusCode (resp s2) /\
  (Level_rank (level (logger_Get env)) <= Level_rank InfoLevel ->
   exists fields,
     logs (world (snd (requestLogger env next correlationID r s0))) =
     (logs (world s2) ++ [Event InfoLevel fields "incoming request"])%list /\
     In ("status_code", FInt (statusCode (resp s2))) fields).
Proof.
  intros Hnext.
  destruct (requestLogger_run_nil env next correlationID r s0 _ s2 Hnext
              eq_refl) as (Hf & Hr & Hle & _).
  unfold requestLogger.
  destruct (requestLogger_run env next correlationID r s0) as [o s'].
  cbn [fst snd resp world] in *. rewrite Hr.
  split; [exact Hf |]. split; [reflexivity |].
  intros Hlvl. eexists. split; [exact (Hle Hlvl) |].
  apply in_or_app. right. cbn. auto 10.
Qed.

(** ** The status the middleware captures *)

Lemma http_Error_lrw (msg : string) (code : Z)
  (s : St (loggingResponseWriter recorder)) :
  fst (http_Error msg code s) = Returns tt /\
  statusCode (resp (snd (http_Error msg code s))) = code /\
  Code (embedded (resp (snd (http_Error msg code s)))) =
  (if wroteHeader (embedded (resp s)) then Code (embedded (resp s))
   else code) /\
  world (snd (http_Error msg code s)) = world s.
Proof.
  destruct s as [[[c h b wh] sc] w]. destruct wh; repeat split; reflexivity.
Qed.

Lemma written_lrw (out : string) (lrw : loggingResponseWriter recorder) :
  status_in_step lrw -> status_in_step (written out lrw).
Proof.
  destruct lrw as [[c h b wh] sc]. unfold status_in_step, written.
  cbn [embedded statusCode Code wroteHeader]. intros [Hs Hc].
  destruct (Z.of_nat (String.length out) >? 0);
    [| split; assumption].
  cbn. unfold recorder_WriteHeader. cbn [wroteHeader].
  destruct wh; cbn; split; auto; try discriminate.
  rewrite Hs. auto.
Qed.

(** The adapter keeps the captured status in step with the response for
    a handler that, on a response not yet started, either fails without
    writing, writes a whole page, or answers through [http.Error]. *)
Lemma adapted_in_step (env : Env)
  (fn : handlerWithError (loggingResponseWriter recorder))
  (r : http_Request) (s1 : St (loggingResponseWriter recorder)) :
  status_in_step (resp s1) ->
  wroteHeader (embedded (resp s1)) = false ->
  (exists o s',
      fn r s1 = (o, s') /\
      ((exists e, o = Returns (Some e) /\ resp s' = resp s1) \/
       (exists out, o = Returns None /\ resp s' = written out (resp s1)) \/
       (exists msg code,
           o = Returns None /\ s' = snd (http_Error msg code s1)))) ->
  exists s2,
    ServeHTTP env fn r s1 = (Returns tt, s2) /\
    statusCode (resp s2) = Code (embedded (resp s2)).
Proof.
  intros Hstep Hwh (o & s' & Hrun & Hcase).
  unfold ServeHTTP, bind at 1. rewrite Hrun.
  destruct Hcase as [(e & -> & Hresp) | [(out & -> & Hresp)
                                        | (msg & code & -> & ->)]].
  - unfold bind, log_Println, log_entry, modify_world.
    match goal with
    | |- context [http_Error ?m ?c ?st] =>
        destruct (http_Error_lrw m c st) as (Hf & Hs & Hc & _);
        destruct (http_Error m c st) as [o2 s2]
    end.
    cbn [fst snd resp world] in *. subst o2. exists s2.
    split; [reflexivity |]. rewrite Hs, Hc, Hresp, Hwh. reflexivity.
  - unfold ret. exists s'. split; [reflexivity |].
    rewrite Hresp. apply written_lrw. exact Hstep.
  - unfold ret. eexists. split; [reflexivity |].
    destruct (http_Error_lrw msg code s1) as (_ & Hs & Hc & _).
    rewrite Hs, Hc, Hwh. reflexivity.
Qed.

Lemma served_state_in_step (correlationID : string) (s0 : St recorder) :
  untouched (resp s0) ->
  status_in_step (resp (served_state correlationID s0)) /\
  wroteHeader (embedded (resp (served_state correlationID s0))) = false.
Proof.
  intros (Hwh & Hc & _). unfold status_in_step. cbn.
  rewrite Hwh, Hc. repeat split; reflexivity.
Qed.

Lemma requestLogger_in_step (env : Env)
  (next : forall W' : Type, ResponseWriter W' -> Handler W')
  (correlationID : string) (r : http_Request) (s0 : St recorder)
  (s2 : St (loggingResponseWriter recorder)) :
  next _ _ (served_request env correlationID r)
    (served_state correlationID s0) = (Returns tt, s2) ->
  statusCode (resp s2) = Code (embedded (resp s2)) ->
  fst (requestLogger env next correlationID r s0) = Returns tt /\
  (Level_rank (level (logger_Get env)) <= Level_rank InfoLevel ->
   exists before fields,
     logs (world (snd (requestLogger env next correlationID r s0))) =
     (before ++ [Event InfoLevel fields "incoming request"])%list /\
     In ("status_code",
         FInt (Code (resp (snd (requestLogger env next correlationID r s0)))))
        fields).
Proof.
  intros Hnext Hstep.
  destruct (requestLogger_run_nil env next correlationID r s0 _ s2 Hnext
              eq_refl) as (Hf & Hr & Hle & _).
  unfold requestLogger.
  destruct (requestLogger_run env next correlationID r s0) as [o s'].
  cbn [fst snd resp world] in *. rewrite Hr.
  split; [exact Hf |]. intros Hlvl. eexists _, _.
  split; [exact (Hle Hlvl) |].
  apply in_or_app. right. rewrite Hstep. cbn. auto 10.
Qed.

(** X12.  For the two routes of [main], the index and the search
    handler behind the adapter, the middleware returns normally on a
    response not yet started, and the [status_code] of its record, the
    last entry of the log, is the status of the response that was
    sent. *)
Theorem requestLogger_logs_sent_status (env : Env) (correlationID : string)
  (r : http_Request) (s0 : St recorder) :
  untouched (resp s0) ->
  Level_rank (level (logger_Get env)) <= Level_rank InfoLevel ->
  let served next :=
    fst (requestLogger env next correlationID r s0) = Returns tt /\
    exists before fields,
      logs (world (snd (requestLogger env next correlationID r s0))) =
      (before ++ [Event InfoLevel fields "incoming request"])%list /\
      In ("status_code",
          FInt (Code (resp (snd (requestLogger env next correlationID r s0)))))
         fields in
  served (adapted env (fun W H => @indexHandler W H env)) /\
  served (adapted env (fun W H => @searchHandler W H env)).
Proof.
  intros Hu Hlvl served.
  destruct (served_state_in_step correlationID s0 Hu) as [Hstep Hwh].
  pose proof (lrw_reliable recorder_reliable) as Hrel.
  split.
  - destruct (adapted_in_step env (indexHandler env)
                (served_request env correlationID r)
                (served_state correlationID s0) Hstep Hwh) as (s2 & Hrun & Hs).
    { destruct (indexHandler_outcome env (served_request env correlationID r)
                  (served_state correlationID s0) Hrel)
        as (o & s' & Hrun & Hcase).
      exists o, s'. split; [exact Hrun |].
      destruct Hcase as [Hc | [Hc | Hc]]; [left | right; left | right; right];
        try exact Hc.
      eexists _, _. exact Hc. }
    destruct (requestLogger_in_step env
                (adapted env (fun W H => @indexHandler W H env))
                correlationID r s0 s2 Hrun Hs) as [Hf Hrec].
    split; [exact Hf | exact (Hrec Hlvl)].
  - destruct (adapted_in_step env (searchHandler env)
                (served_request env correlationID r)
                (served_state correlationID s0) Hstep Hwh) as (s2 & Hrun & Hs).
    { destruct (searchHandler_outcome env (served_request env correlationID r)
                  (served_state correlationID s0) Hrel)
        as (o & s' & Hrun & Hcase).
      exists o, s'. split; [exact Hrun |].
      destruct Hcase as [Hc | (m & out & Ho & _ & Hresp)];
        [left; exact Hc | right; left].
      exists out. split; assumption. }
    destruct (requestLogger_in_step env
                (adapted env (fun W H => @searchHandler W H env))
                correlationID r s0 s2 Hrun Hs) as [Hf Hrec].
    split; [exact Hf | exact (Hrec Hlvl)].
Qed.

(** X13.  The captured status can part from the response: when a
    handler has already written the header and then returns an error,
    the adapter's [WriteHeader(500)] is recorded by the
    [loggingResponseWriter] although the response keeps the status it
    went out with, and the record of the middleware says 500. *)
Theorem requestLogger_logs_unsent_status (env : Env)
  (fn : forall W : Type, ResponseWriter W -> handlerWithError W)
  (correlationID : string) (r : http_Request) (s0 : St recorder) (e : error)
  (s1 : St (loggingResponseWriter recorder)) :
  fn _ _ (served_request env correlationID r)
    (served_state correlationID s0) = (Returns (Some e), s1) ->
  wroteHeader (embedded (resp s1)) = true ->
  Level_rank (level (logger_Get env)) <= Level_rank InfoLevel ->
  Code (resp (snd (requestLogger env (adapted env fn) correlationID r s0))) =
  Code (embedded (resp s1)) /\
  exists before fields,
    logs (world (snd (requestLogger env (adapted env fn) correlationID r s0))) =
    (before ++ [Event InfoLevel fields "incoming request"])%list /\
    In ("status_code", FInt StatusInternalServerError) fields.
Proof.
  intros Hrun Hwh Hlvl.
  assert (Hserve : exists s2,
             adapted env fn _ _ (served_request env correlationID r)
               (served_state correlationID s0) = (Returns tt, s2) /\
             statusCode (resp s2) = StatusInternalServerError /\
             Code (embedded (resp s2)) = Code (embedded (resp s1))).
  { unfold adapted, ServeHTTP, bind at 1. rewrite Hrun.
    unfold bind, log_Println, log_entry, modify_world.
    match goal with
    | |- context [http_Error ?m ?c ?st] =>
        destruct (http_Error_lrw m c st) as (Hf & Hs & Hc & _);
        destruct (http_Error m c st) as [o2 s2]
    end.
    cbn [fst snd resp world] in *. subst o2. exists s2.
    split; [reflexivity |]. split; [exact Hs |].
    rewrite Hc, Hwh. reflexivity. }
  destruct Hserve as (s2 & Hnext & Hs & Hc).
  destruct (requestLogger_run_nil env (adapted env fn) correlationID r s0 _ s2
              Hnext eq_refl) as (_ & Hr & Hle & _).
  unfold requestLogger.
  destruct (requestLogger_run env (adapted env fn) correlationID r s0)
    as [o s'].
  cbn [fst snd resp world] in *. rewrite Hr. split; [exact Hc |].
  eexists _, _. split; [exact (Hle Hlvl) |].
  apply in_or_app. right. rewrite Hs. cbn. auto 10.
Qed.

(** ** The correlation identifier *)

Lemma keeps_weaken {W A : Type} (R R' : St W -> St W -> Prop) (m : M W A) :
  (forall s s', R s s' -> R' s s') -> keeps R m -> keeps R' m.
Proof. intros HR Hk s. apply HR, Hk. Qed.

Lemma event_of_served_carries (env : Env) (correlationID : string)
  (r : http_Request) (e : LogEntry) :
  event_of
    (level (zerolog_Ctx (ReqContext (served_request env correlationID r))))
    (context (zerolog_Ctx (ReqContext (served_request env correlationID r))))
    e ->
  carries correlationID e.
Proof.
  unfold served_request, WithContext, Logger_WithContext, zerolog_Ctx,
    WithValue_correlation_id.
  cbn [ReqContext ctx_logger ctx_correlation_id UpdateContext level context].
  intros (lvl & f & m & -> & Hr). cbn [carries].
  destruct (ctx_logger (ReqContext r)) as [l0 |];
    [| destruct (level (logger_Get env)) eqn:Hl];
    cbn [ctx_logger level context disabledLogger Level_rank] in *;
    try (apply in_or_app; left; apply in_or_app; right; left; reflexivity).
  destruct lvl; cbn in Hr; lia.
Qed.

Lemma adapted_search_carries {W : Type} `{ResponseWriter W} (env : Env)
  (correlationID : string) (r : http_Request) :
  keeps (logged (carries correlationID))
    (adapted env (fun W' H' => @searchHandler W' H' env) W _
       (served_request env correlationID r)).
Proof.
  unfold adapted, ServeHTTP.
  apply keeps_bind; [intros ? ? ?; apply logged_trans | | intros [e |]].
  - eapply keeps_weaken; [| apply searchHandler_events].
    intros s s'. apply logged_weaken, event_of_served_carries.
  - apply keeps_bind; [intros ? ? ?; apply logged_trans | | intros _].
    + apply keeps_logged_Println. exact I.
    + walk_logged.
  - walk_logged.
Qed.

Lemma adapted_index_carries {W : Type} `{ResponseWriter W} (env : Env)
  (P : LogEntry -> Prop) (line_ok : forall line, P (StdLog line))
  (r : http_Request) :
  keeps (logged P) (adapted env (fun W' H' => @indexHandler W' H' env) W _ r).
Proof.
  unfold adapted, ServeHTTP.
  apply keeps_bind; [intros ? ? ?; apply logged_trans | | intros [e |]].
  - unfold indexHandler, http_NotFound. walk_logged.
  - apply keeps_bind; [intros ? ? ?; apply logged_trans | | intros _].
    + apply keeps_logged_Println. apply line_ok.
    + walk_logged.
  - walk_logged.
Qed.

Lemma requestLogger_logged {W : Type} `{ResponseWriter W} (env : Env)
  (next : forall W' : Type, ResponseWriter W' -> Handler W')
  (correlationID : string) (r : http_Request) :
  keeps (logged (carries correlationID))
    (next (loggingResponseWriter W) _ (served_request env correlationID r)) ->
  keeps (logged (carries correlationID))
    (requestLogger env next correlationID r).
Proof.
  intros Hk s0. unfold requestLogger. rewrite requestLogger_run_unfold.
  cbn zeta. specialize (Hk (served_state correlationID s0)).
  destruct (next _ _ (served_request env correlationID r)
              (served_state correlationID s0)) as [o s2].
  cbn [snd] in Hk. destruct Hk as (new & Hlogs & Hall).
  cbn [served_state world] in Hlogs.
  assert (Hpanic : forall v,
             logged (carries correlationID) s0
               (snd (Panics (A := unit) v,
                     {| resp := embedded (resp s2); world := world s2 |}))).
  { intros v. exists new. split; assumption. }
  destruct (recover o) eqn:Hrec; try apply Hpanic.
  unfold emit. cbn [UpdateContext level context].
  destruct (Level_rank (level (logger_Get env)) <=? Level_rank InfoLevel).
  - cbn [snd resp world logs log_entry modify_world].
    eexists (new ++ [_])%list. split.
    + rewrite Hlogs, <- app_assoc. reflexivity.
    + apply Forall_app. split; [exact Hall |].
      constructor; [| constructor]. cbn [carries].
      apply in_or_app. left. apply in_or_app. right. left. reflexivity.
  - exists new. split; assumption.
Qed.

(** X14.  Under the middleware every zerolog event written while a
    request is served on one of the two routes, by the search handler
    as by the middleware itself, carries the correlation identifier of
    that request. *)
Theorem requestLogger_correlates {W : Type} `{ResponseWriter W} (env : Env)
  (correlationID : string) (r : http_Request) :
  keeps (logged (carries correlationID))
    (requestLogger env (adapted env (fun W' H' => @indexHandler W' H' env))
       correlationID r) /\
  keeps (logged (carries correlationID))
    (requestLogger env (adapted env (fun W' H' => @searchHandler W' H' env))
       correlationID r).
Proof.
  split; apply requestLogger_logged.
  - apply adapted_index_carries. intros line. exact I.
  - apply adapted_search_carries.
Qed.

(** ** The correlation header *)

Lemma lookup_store_same (k : string) (vs : list string)
  (m : list (string * list string)) :
  lookup k (store k vs m) = vs.
Proof.
  induction m as [| [k' old] m IH]; cbn [store lookup].
  - now rewrite String.eqb_refl.
  - destruct (String.eqb_spec k' k) as [-> | Hne]; cbn [lookup].
    + now rewrite String.eqb_refl.
    + rewrite (proj2 (String.eqb_neq k' k) Hne). exact IH.
Qed.

Lemma lookup_store_other (k k' : string) (vs : list string)
  (m : list (string * list string)) :
  k <> k' -> lookup k (store k' vs m) = lookup k m.
Proof.
  intros Hne. induction m as [| [k0 old] m IH]; cbn [store lookup].
  - rewrite (proj2 (String.eqb_neq k' k)) by congruence. reflexivity.
  - destruct (String.eqb_spec k0 k') as [-> | Hne0]; cbn [lookup].
    + rewrite (proj2 (String.eqb_neq k' k)) by congruence. reflexivity.
    + destruct (String.eqb k0 k); [reflexivity | exact IH].
Qed.

Lemma recorder_lawful : lawful_headers recorder.
Proof.
  repeat split; intros; cbn; unfold recorder_WriteHeader;
    try destruct (wroteHeader w); reflexivity.
Qed.

Lemma lrw_lawful {W : Type} `{ResponseWriter W} :
  lawful_headers W -> lawful_headers (loggingResponseWriter W).
Proof.
  intros (Hset & Hwrite & Hwh). repeat split.
  - intros h w. apply Hset.
  - intros data w. cbn [Write Header loggingResponseWriter_ResponseWriter].
    specialize (Hwrite data (embedded w)).
    destruct (Write data (embedded w)) as [res w']. exact Hwrite.
  - intros code w. apply Hwh.
Qed.

Lemma same_header_refl {W : Type} `{ResponseWriter W} (s : St W) :
  same_correlation_header s s.
Proof. reflexivity. Qed.

Lemma same_header_trans {W : Type} `{ResponseWriter W} (s1 s2 s3 : St W) :
  same_correlation_header s1 s2 -> same_correlation_header s2 s3 ->
  same_correlation_header s1 s3.
Proof. unfold same_correlation_header. intros H1 H2. now rewrite H2. Qed.

Lemma keeps_header_quiet {W A : Type} `{ResponseWriter W} (m : M W A) :
  (forall s, Header (resp (snd (m s))) = Header (resp s)) ->
  keeps same_correlation_header m.
Proof. intros Hq s. unfold same_correlation_header. now rewrite Hq. Qed.

Lemma emit_resp {W : Type} (l : Logger) (lvl : Level) (fields : list Field)
  (msg : string) (s : St W) :
  resp (snd (emit l lvl fields msg s)) = resp s.
Proof. destruct (emit_frame l lvl fields msg s) as [lg ->]. reflexivity. Qed.

Lemma searchWikipedia_resp {W : Type} (env : Env) (q : string) (n o : Z)
  (s : St W) :
  resp (snd (searchWikipedia env q n o s)) = resp s.
Proof.
  unfold searchWikipedia, Get, bind, modify_world, ret.
  cbn [resp world logs fetched rendered now].
  destruct (HTTPClient_Get env _) as [rs | e]; [| reflexivity].
  destruct (negb (StatusCode rs =? StatusOK)); [reflexivity |].
  destruct (Body rs) as [body | e]; [| reflexivity].
  destruct (json_Unmarshal env body); reflexivity.
Qed.

Lemma Buffer_WriteTo_header {W : Type} `{ResponseWriter W} (buf : string)
  (s : St W) :
  lawful_headers W ->
  Header (resp (snd (Buffer_WriteTo buf s))) = Header (resp s).
Proof.
  intros (_ & Hwrite & _). unfold Buffer_WriteTo, bind, w_Write, ret.
  destruct (Z.of_nat (String.length buf) >? 0); [| reflexivity].
  specialize (Hwrite buf (resp s)).
  destruct (Write buf (resp s)) as [[m e] w']. cbn [snd] in Hwrite.
  destruct (m >? Z.of_nat (String.length buf)); [exact Hwrite |].
  destruct e; [exact Hwrite |].
  destruct (negb (m =? Z.of_nat (String.length buf))); exact Hwrite.
Qed.

Lemma http_Error_header {W : Type} `{ResponseWriter W} (msg : string)
  (code : Z) (s : St W) :
  lawful_headers W ->
  same_correlation_header s (snd (http_Error msg code s)).
Proof.
  intros (Hset & Hwrite & Hwh).
  unfold same_correlation_header, http_Error, bind, w_Header_Set,
    w_WriteHeader, w_Write, ret.
  cbn [resp world snd].
  match goal with
  | |- context [Write ?d ?w] =>
      specialize (Hwrite d w); destruct (Write d w) as [res w']
  end.
  cbn [snd resp] in *. rewrite Hwrite, Hwh, Hset.
  unfold Header_Set.
  rewrite lookup_store_other by (vm_compute; discriminate).
  rewrite Hset. apply lookup_store_other. vm_compute. discriminate.
Qed.

(** Walks through a handler for the correlation header. *)
Ltac walk_header Hlaw :=
  repeat first
    [ apply keeps_header_quiet; intros ?; rewrite emit_resp; reflexivity
    | apply keeps_header_quiet; intros ?;
      rewrite searchWikipedia_resp; reflexivity
    | apply keeps_header_quiet; intros ?; reflexivity
    | apply keeps_header_quiet; intros ?;
      apply Buffer_WriteTo_header; exact Hlaw
    | intros ?; apply http_Error_header; exact Hlaw
    | apply keeps_ret; intros ?; apply same_header_refl
    | apply keeps_bind; [intros ? ? ?; apply same_header_trans | | intros ?]
    | match goal with
      | |- keeps _ (match ?x with _ => _ end) => destruct x
      end ].

Lemma adapted_search_header {W : Type} `{ResponseWriter W} (env : Env)
  (r : http_Request) :
  lawful_headers W ->
  keeps same_correlation_header
    (adapted env (fun W' H' => @searchHandler W' H' env) W _ r).
Proof.
  intros Hlaw. unfold adapted, ServeHTTP, searchHandler, log_Println,
    log_entry, modify_world.
  destruct (url_Parse env (URL_String env (URL r))) as [u | e];
    cbn zeta; walk_header Hlaw.
Qed.

Lemma adapted_index_header {W : Type} `{ResponseWriter W} (env : Env)
  (r : http_Request) :
  lawful_headers W ->
  keeps same_correlation_header
    (adapted env (fun W' H' => @indexHandler W' H' env) W _ r).
Proof.
  intros Hlaw. unfold adapted, ServeHTTP, indexHandler, http_NotFound,
    log_Println, log_entry, modify_world, Execute.
  walk_header Hlaw.
Qed.

Lemma requestLogger_header {W : Type} `{ResponseWriter W} (env : Env)
  (next : forall W' : Type, ResponseWriter W' -> Handler W')
  (correlationID : string) (r : http_Request) (s0 : St W) :
  lawful_headers W ->
  keeps same_correlation_header
    (next (loggingResponseWriter W) _ (served_request env correlationID r)) ->
  lookup "X-Correlation-Id"
    (Header (resp (snd (requestLogger env next correlationID r s0)))) =
  (lookup "X-Correlation-Id" (Header (resp s0)) ++ [correlationID])%list.
Proof.
  intros (Hset & _ & _) Hk. unfold requestLogger.
  rewrite requestLogger_run_unfold. cbn zeta.
  specialize (Hk (served_state correlationID s0)).
  destruct (next _ _ (served_request env correlationID r)
              (served_state correlationID s0)) as [o s2].
  cbn [snd] in Hk. unfold same_correlation_header in Hk.
  cbn [served_state resp Header loggingResponseWriter_ResponseWriter
       newLoggingResponseWriter embedded] in Hk.
  rewrite Hset in Hk. unfold Header_Add in Hk.
  change (CanonicalMIMEHeaderKey "X-Correlation-ID")
    with "X-Correlation-Id" in Hk.
  rewrite lookup_store_same in Hk.
  destruct (recover o); try exact Hk.
  match goal with
  | |- context [emit ?l ?lvl ?f ?m ?st] =>
      destruct (emit_frame l lvl f m st) as [lg ->]
  end.
  exact Hk.
Qed.

(** X15.  On both routes the response leaves the middleware with the
    correlation identifier of the request added to the values of its
    [X-Correlation-Id] header, whatever the handler did: the first value
    of the header is the identifier when there was none before. *)
Theorem requestLogger_sets_header (env : Env) (correlationID : string)
  (r : http_Request) (s0 : St recorder) :
  let sent next :=
    HeaderMap (resp (snd (requestLogger env next correlationID r s0))) in
  let added h :=
    lookup "X-Correlation-Id" h =
    (lookup "X-Correlation-Id" (HeaderMap (resp s0)) ++ [correlationID])%list /\
    (lookup "X-Correlation-Id" (HeaderMap (resp s0)) = [] ->
     Header_Get h "X-Correlation-ID" = correlationID) in
  added (sent (adapted env (fun W H => @indexHandler W H env))) /\
  added (sent (adapted env (fun W H => @searchHandler W H env))).
Proof.
  intros sent added.
  assert (Hadd : forall h,
             lookup "X-Correlation-Id" h =
             (lookup "X-Correlation-Id" (HeaderMap (resp s0))
              ++ [correlationID])%list -> added h).
  { intros h Hh. split; [exact Hh |]. intros Hnone.
    unfold Header_Get.
    change (CanonicalMIMEHeaderKey "X-Correlation-ID")
      with "X-Correlation-Id".
    rewrite Hh, Hnone. reflexivity. }
  split; apply Hadd.
  - apply (requestLogger_header env _ correlationID r s0 recorder_lawful).
    apply adapted_index_header, lrw_lawful, recorder_lawful.
  - apply (requestLogger_header env _ correlationID r s0 recorder_lawful).
    apply adapted_search_header, lrw_lawful, recorder_lawful.
Qed.

(** ** Page numbers in decimal *)

Lemma of_uint_acc_ge (d : Decimal.uint) :
  forall acc, Zpos acc <= Zpos (Pos.of_uint_acc d acc).
Proof.
  induction d as [| d IH | d IH | d IH | d IH | d IH | d IH | d IH | d IH
                 | d IH | d IH]; intros acc; cbn [Pos.of_uint_acc];
    [lia | ..];
    match goal with
    | |- _ <= Zpos (Pos.of_uint_acc d ?a) => specialize (IH a); lia
    end.
Qed.

Lemma ParseUint_digits_acc (d : Decimal.uint) :
  forall acc,
    Zpos (Pos.of_uint_acc d acc) <= 2 ^ 64 - 1 ->
    ParseUint_digits (Zpos acc) (NilEmpty.string_of_uint d) =
    scan_value (Zpos (Pos.of_uint_acc d acc)).
Proof.
  induction d as [| d IH | d IH | d IH | d IH | d IH | d IH | d IH | d IH
                 | d IH | d IH]; intros acc Hb;
    cbn [Pos.of_uint_acc NilEmpty.string_of_uint ParseUint_digits] in *;
    [reflexivity | ..];
    match type of Hb with
    | Zpos (Pos.of_uint_acc d ?a) <= _ =>
        pose proof (of_uint_acc_ge d a) as Hge;
        change (negb (is_digit _)) with false; cbn iota;
        replace (Zpos acc >=? 1844674407370955162) with false
          by (symmetry; rewrite Z.geb_leb; apply Z.leb_gt; lia);
        match goal with
        | |- context [Zpos acc * 10 + digit_value ?c] =>
            let v := eval vm_compute in (digit_value c) in
            change (digit_value c) with v;
            replace (Zpos acc * 10 + v) with (Zpos a) by lia
        end;
        replace (Zpos a >? 2 ^ 64 - 1) with false
          by (symmetry; rewrite Z.gtb_ltb; apply Z.ltb_ge; lia);
        apply IH; exact Hb
    end.
Qed.

Lemma ParseUint_digits_of_uint (d : Decimal.uint) :
  Z.of_N (Pos.of_uint d) <= 2 ^ 64 - 1 ->
  ParseUint_digits 0 (NilEmpty.string_of_uint d) =
  scan_value (Z.of_N (Pos.of_uint d)).
Proof.
  induction d as [| d IH | d IH | d IH | d IH | d IH | d IH | d IH | d IH
                 | d IH | d IH]; intros Hb;
    cbn [Pos.of_uint NilEmpty.string_of_uint ParseUint_digits] in *;
    [reflexivity | exact (IH Hb) | ..];
    change (negb (is_digit _)) with false; cbn iota;
    change (0 >=? 1844674407370955162) with false; cbn iota;
    match goal with
    | |- context [0 * 10 + digit_value ?c] =>
        let v := eval vm_compute in (0 * 10 + digit_value c) in
        change (0 * 10 + digit_value c) with v
    end;
    match goal with
    | |- context [?v >? 2 ^ 64 - 1] =>
        change (v >? 2 ^ 64 - 1) with false
    end;
    cbn iota; apply ParseUint_digits_acc; exact Hb.
Qed.

Lemma digit_not_sign (c : ascii) :
  is_digit c = true -> Ascii.eqb c "-" = false /\ Ascii.eqb c "+" = false.
Proof.
  intros Hd. split.
  - destruct (Ascii.eqb_spec c "-") as [-> | _]; [discriminate | reflexivity].
  - destruct (Ascii.eqb_spec c "+") as [-> | _]; [discriminate | reflexivity].
Qed.

Lemma string_of_uint_digit (d : Decimal.uint) :
  d <> Decimal.Nil ->
  exists c rest,
    NilEmpty.string_of_uint d = String c rest /\ is_digit c = true.
Proof.
  destruct d; intros Hd; try contradiction;
    cbn [NilEmpty.string_of_uint]; eexists _, _; split; reflexivity.
Qed.

Lemma Atoi_uint (p : positive) :
  Zpos p <= GoInt.max_int ->
  Atoi (NilEmpty.string_of_uint (Pos.to_uint p)) = Ok (Zpos p).
Proof.
  unfold GoInt.max_int. intros Hp.
  pose proof (ParseUint_digits_of_uint (Pos.to_uint p)) as Hscan.
  rewrite Unsigned.of_to in Hscan. specialize (Hscan ltac:(cbn; lia)).
  destruct (string_of_uint_digit _ (Unsigned.to_uint_nonnil p))
    as (c & rest & Hs & Hd).
  rewrite Hs in *. destruct (digit_not_sign c Hd) as [Hm Hpl].
  unfold Atoi. rewrite Hm, Hpl. cbn [orb negb andb].
  rewrite Hscan. cbn [Z.of_N].
  replace (Zpos p >=? 2 ^ 63) with false
    by (symmetry; rewrite Z.geb_leb; apply Z.leb_gt; lia).
  reflexivity.
Qed.

Lemma Atoi_minus_uint (p : positive) :
  GoInt.min_int <= Zneg p ->
  Atoi (String "-" (NilEmpty.string_of_uint (Pos.to_uint p))) = Ok (Zneg p).
Proof.
  unfold GoInt.min_int. intros Hp.
  pose proof (ParseUint_digits_of_uint (Pos.to_uint p)) as Hscan.
  rewrite Unsigned.of_to in Hscan. specialize (Hscan ltac:(cbn; lia)).
  destruct (string_of_uint_digit _ (Unsigned.to_uint_nonnil p))
    as (c & rest & Hs & Hd).
  rewrite Hs in *.
  unfold Atoi. cbn [Ascii.eqb Bool.eqb orb negb andb].
  rewrite Hscan. cbn [Z.of_N].
  replace (Zpos p >? 2 ^ 63) with false
    by (symmetry; rewrite Z.gtb_ltb; apply Z.ltb_ge; lia).
  reflexivity.
Qed.

Lemma Atoi_Sprintf_d (n : Z) :
  GoInt.min_int <= n <= GoInt.max_int -> Atoi (Sprintf_d n) = Ok n.
Proof.
  intros Hn. unfold Sprintf_d, Z.to_int. destruct n as [| p | p].
  - reflexivity.
  - cbn [NilZero.string_of_int]. unfold NilZero.string_of_uint.
    pose proof (Unsigned.to_uint_nonnil p) as Hnil.
    replace (match Pos.to_uint p with
             | Decimal.Nil => "0"
             | _ => NilEmpty.string_of_uint (Pos.to_uint p)
             end) with (NilEmpty.string_of_uint (Pos.to_uint p))
      by (destruct (Pos.to_uint p); [contradiction | reflexivity ..]).
    apply Atoi_uint. lia.
  - cbn [NilZero.string_of_int]. unfold NilZero.string_of_uint.
    pose proof (Unsigned.to_uint_nonnil p) as Hnil.
    replace (match Pos.to_uint p with
             | Decimal.Nil => "0"
             | _ => NilEmpty.string_of_uint (Pos.to_uint p)
             end) with (NilEmpty.string_of_uint (Pos.to_uint p))
      by (destruct (Pos.to_uint p); [contradiction | reflexivity ..]).
    apply Atoi_minus_uint. lia.
Qed.

(** X16.  A page number written in decimal, as [%d] writes it, is read
    back by the handler as the same number for every [int]: the request
    is served as page [p], with the offset of page [p]. *)
Theorem searchHandler_page_round_trip {W : Type} `{ResponseWriter W}
  (env : Env) (r : http_Request) (u : url_URL) (p : Z) (s : St W) :
  url_Parse env (URL_String env (URL r)) = Ok u ->
  Values_Get (URL_Query env u) "page" = Sprintf_d p ->
  GoInt.min_int <= p <= GoInt.max_int ->
  Atoi (Sprintf_d p) = Ok p /\
  asks_for env r (Values_Get (URL_Query env u) "q") p /\
  fetched (world (snd (searchHandler env r s))) =
  (fetched (world s)
   ++ [apiURL 20 (Values_Get (URL_Query env u) "q")
         (GoInt.mul (GoInt.sub p 1) 20)])%list.
Proof.
  intros Hu Hpage Hp. pose proof (Atoi_Sprintf_d p Hp) as Hrt.
  assert (Ha : asks_for env r (Values_Get (URL_Query env u) "q") p).
  { exists u. split; [exact Hu |]. split; [reflexivity |].
    unfold pageParam. rewrite Hpage.
    destruct (String.eqb_spec (Sprintf_d p) "") as [Hempty | _];
      [| exact Hrt].
    rewrite Hempty in Hrt. discriminate Hrt. }
  split; [exact Hrt |]. split; [exact Ha |].
  apply searchHandler_fetches. exact Ha.
Qed.

(** ** The URL and the page *)

Lemma append_inv_head (a x y : string) : a ++ x = a ++ y -> x = y.
Proof.
  induction a as [| c a IH]; cbn [append]; intros Heq; [exact Heq |].
  injection Heq as Heq. exact (IH Heq).
Qed.

Lemma Sprintf_d_inj (n m : Z) :
  GoInt.min_int <= n <= GoInt.max_int ->
  GoInt.min_int <= m <= GoInt.max_int ->
  Sprintf_d n = Sprintf_d m -> n = m.
Proof.
  intros Hn Hm Heq. pose proof (Atoi_Sprintf_d n Hn) as Hrt.
  rewrite Heq, (Atoi_Sprintf_d m Hm) in Hrt. injection Hrt as ->. reflexivity.
Qed.

(** For one search string and page size the URL tells the offset. *)
Lemma apiURL_offset (n : Z) (q : string) (o o' : Z) :
  GoInt.min_int <= o <= GoInt.max_int ->
  GoInt.min_int <= o' <= GoInt.max_int ->
  apiURL n q o = apiURL n q o' <-> o = o'.
Proof.
  intros Ho Ho'. split; [| intros ->; reflexivity].
  unfold apiURL. intros Heq. do 5 apply append_inv_head in Heq.
  exact (Sprintf_d_inj o o' Ho Ho' Heq).
Qed.

Lemma wrap_shift (a : Z) : exists k, GoInt.wrap a = a + k * 2 ^ 64.
Proof.
  unfold GoInt.wrap. exists (- ((a + 2 ^ 63) / 2 ^ 64)).
  pose proof (Z.div_mod (a + 2 ^ 63) (2 ^ 64) ltac:(lia)). lia.
Qed.

Lemma wrap_eq_iff (a b : Z) :
  GoInt.wrap a = GoInt.wrap b <-> (2 ^ 64 | a - b).
Proof.
  split.
  - intros Heq. destruct (wrap_shift a) as [k Hk].
    destruct (wrap_shift b) as [k' Hk']. exists (k' - k). lia.
  - intros [k Hk]. unfold GoInt.wrap.
    replace (a + 2 ^ 63) with (b + 2 ^ 63 + k * 2 ^ 64) by lia.
    rewrite Z_mod_plus_full. reflexivity.
Qed.

(** The offsets of two pages wrap to the same [int] exactly when the
    pages are a multiple of [2^62] apart. *)
Lemma offset_eq_iff (p p' : Z) :
  GoInt.mul (GoInt.sub p 1) 20 = GoInt.mul (GoInt.sub p' 1) 20 <->
  (p - p') mod 2 ^ 62 = 0.
Proof.
  unfold GoInt.mul, GoInt.sub. rewrite wrap_eq_iff.
  rewrite Z.mod_divide by lia.
  destruct (wrap_shift (p - 1)) as [k ->].
  destruct (wrap_shift (p' - 1)) as [k' ->]. split.
  - intros [m Hm]. apply Z.gauss with (m := 5); [| reflexivity].
    exists (m - 20 * k + 20 * k'). lia.
  - intros [m Hm]. exists (5 * m + 20 * k - 20 * k'). lia.
Qed.

(** X6.  For two requests with the same search string the handler
    hands the client the same URL exactly when the page numbers are a
    multiple of [2^62] apart: pages whose offsets fit an [int] always
    get different URLs, and page [p + 2^62] is asked for at the URL of
    page [p], the product [(p - 1) * 20] having wrapped around. *)
Theorem searchHandler_pages_share_url {W : Type} `{ResponseWriter W}
  (env : Env) (r r' : http_Request) (q : string) (p p' : Z) (s s' : St W) :
  asks_for env r q p ->
  asks_for env r' q p' ->
  exists url url',
    fetched (world (snd (searchHandler env r s))) =
    (fetched (world s) ++ [url])%list /\
    fetched (world (snd (searchHandler env r' s'))) =
    (fetched (world s') ++ [url'])%list /\
    (url = url' <-> (p - p') mod 2 ^ 62 = 0) /\
    (offset_fits p -> offset_fits p' -> (url = url' <-> p = p')).
Proof.
  intros Ha Ha'.
  exists (apiURL 20 q (GoInt.mul (GoInt.sub p 1) 20)),
         (apiURL 20 q (GoInt.mul (GoInt.sub p' 1) 20)).
  split; [exact (searchHandler_fetches env r q p s Ha) |].
  split; [exact (searchHandler_fetches env r' q p' s' Ha') |].
  assert (Hiff : apiURL 20 q (GoInt.mul (GoInt.sub p 1) 20) =
                 apiURL 20 q (GoInt.mul (GoInt.sub p' 1) 20) <->
                 (p - p') mod 2 ^ 62 = 0).
  { rewrite apiURL_offset by apply wrap_range. apply offset_eq_iff. }
  split; [exact Hiff |].
  unfold offset_fits. intros Hp Hp'. rewrite Hiff.
  rewrite Z.mod_divide by lia. split.
  - intros [m Hm]. assert (m = 0) by lia. lia.
  - intros ->. exists 0. lia.
Qed.

(** ** The further properties at work on the stub environment *)

Lemma searchHandler_CurrentPage_witness :
  let env := stub 200 50 (Ok page) in
  let r := get "/search" "q=cat&page=2" in
  asks_for env r "cat" 2 /\
  upstream_finds env (apiURL 20 "cat" 20) (stub_found 50) /\
  exists m,
    rendered (world (snd (searchHandler env r fresh))) = [Some m] /\
    CurrentPage m = 2 /\ PreviousPage m = 1.
Proof.
  cbn zeta. split; [apply asks_for_stub |].
  split; [apply upstream_finds_stub |].
  destruct (searchHandler_CurrentPage (stub 200 50 (Ok page))
              (get "/search" "q=cat&page=2") "cat" 2 (stub_found 50) fresh
              (asks_for_stub 200 50 (Ok page))
              (upstream_finds_stub 50 (Ok page) _))
    as (m & Hr & Hc & _ & Hp).
  exists m. split; [exact Hr |].
  split; [apply Hc; lia | apply Hp; [lia | unfold GoInt.min_int; lia]].
Defined.

Lemma totalPages_covers_witness :
  0 <= 45 <= 2 ^ 53 /\
  0 <= totalPages 45 20 /\
  20 * (totalPages 45 20 - 1) < 45 <= 20 * totalPages 45 20.
Proof.
  assert (Hh : 0 <= 45 <= 2 ^ 53) by lia.
  split; [exact Hh | exact (totalPages_covers 45 Hh)].
Defined.

Lemma searchHandler_IsLastPage_witness :
  let env := stub 200 50 (Ok page) in
  let r := get "/search" "q=cat&page=2" in
  asks_for env r "cat" 2 /\
  upstream_finds env (apiURL 20 "cat" 20) (stub_found 50) /\
  0 <= Query_SearchInfo_TotalHits (stub_found 50) <= 2 ^ 53 /\
  2 < GoInt.max_int /\
  exists m,
    rendered (world (snd (searchHandler env r fresh))) = [Some m] /\
    IsLastPage m = true.
Proof.
  cbn zeta.
  assert (Hh : 0 <= Query_SearchInfo_TotalHits (stub_found 50) <= 2 ^ 53)
    by (cbn; lia).
  assert (Hmax : 2 < GoInt.max_int) by (unfold GoInt.max_int; lia).
  split; [apply asks_for_stub |]. split; [apply upstream_finds_stub |].
  split; [exact Hh |]. split; [exact Hmax |].
  destruct (searchHandler_IsLastPage (stub 200 50 (Ok page))
              (get "/search" "q=cat&page=2") "cat" 2 (stub_found 50) fresh
              (asks_for_stub 200 50 (Ok page))
              (upstream_finds_stub 50 (Ok page) _) Hh Hmax)
    as (m & Hr & Hlast).
  exists m. split; [exact Hr |]. apply Hlast. cbn. lia.
Defined.

Lemma searchHandler_logs_witness :
  let env := stub 200 50 (Ok page) in
  let r := get "/search" "q=cat&page=2" in
  ctx_logger (ReqContext r) = None /\
  logs (world (snd (searchHandler env r fresh))) = [].
Proof.
  cbn zeta. split; [reflexivity |].
  exact (proj2 (searchHandler_logs (stub 200 50 (Ok page))
                  (get "/search" "q=cat&page=2")) eq_refl fresh).
Defined.

Lemma search_response_whole_witness :
  let env := stub 200 50 (Ok page) in
  let r := get "/search" "q=cat&page=2" in
  untouched (resp fresh) /\
  exists s',
    ServeHTTP env (searchHandler env) r fresh = (Returns tt, s') /\
    ((Code (resp s') = 200 /\
      exists m, tpl_Execute env (Some m) = Ok (BodyBytes (resp s'))) \/
     (Code (resp s') = 500 /\
      exists e before,
        BodyBytes (resp s') = Error env e ++ newline /\
        logs (world s') = (before ++ [StdLog (Error env e)])%list)).
Proof.
  cbn zeta. split; [apply untouched_fresh |].
  exact (search_response_whole (stub 200 50 (Ok page))
           (get "/search" "q=cat&page=2") fresh untouched_fresh).
Defined.

Lemma searchHandler_pages_share_url_witness :
  let env := stub 200 50 (Ok page) in
  let r := get "/search" "q=cat&page=1" in
  let r' := get "/search" "q=cat&page=4611686018427387905" in
  asks_for env r "cat" 1 /\
  asks_for env r' "cat" 4611686018427387905 /\
  fetched (world (snd (searchHandler env r fresh))) =
  fetched (world (snd (searchHandler env r' fresh))).
Proof.
  cbn zeta.
  assert (Ha : asks_for (stub 200 50 (Ok page))
                 (get "/search" "q=cat&page=1") "cat" 1)
    by (eexists; repeat split; reflexivity).
  assert (Ha' : asks_for (stub 200 50 (Ok page))
                  (get "/search" "q=cat&page=4611686018427387905") "cat"
                  4611686018427387905)
    by (eexists; repeat split; reflexivity).
  split; [exact Ha |]. split; [exact Ha' |].
  destruct (searchHandler_pages_share_url (stub 200 50 (Ok page)) _ _ "cat"
              1 4611686018427387905 fresh fresh Ha Ha')
    as (url & url' & Hf & Hf' & Hiff & _).
  rewrite Hf, Hf'. f_equal. f_equal. apply Hiff. reflexivity.
Defined.

Lemma searchHandler_bad_page_witness :
  let env := stub 200 50 (Ok page) in
  let r := get "/search" "q=cat&page=two" in
  let u := {| Path := "/search"; RawQuery := "q=cat&page=two" |} in
  let e := NumError "Atoi" "two" ErrSyntax in
  url_Parse env (URL_String env (URL r)) = Ok u /\
  Atoi (pageParam (URL_Query env u)) = Err e /\
  exists s',
    searchHandler env r fresh = (Returns (Some e), s') /\
    resp s' = resp fresh /\
    fetched (world s') = [] /\
    rendered (world s') = [].
Proof.
  cbn zeta. do 2 (split; [reflexivity |]).
  exact (proj2 (searchHandler_bad_page (stub 200 50 (Ok page))
                  (get "/search" "q=cat&page=two")
                  {| Path := "/search"; RawQuery := "q=cat&page=two" |}
                  (NumError "Atoi" "two" ErrSyntax) fresh eq_refl eq_refl)).
Defined.

Lemma searchHandler_upstream_failure_witness :
  let env := stub 503 50 (Ok page) in
  let r := get "/search" "q=cat&page=2" in
  asks_for env r "cat" 2 /\
  (forall found, ~ upstream_finds env (apiURL 20 "cat" 20) found) /\
  exists e s',
    searchHandler env r fresh = (Returns (Some e), s') /\
    resp s' = resp fresh /\
    fetched (world s') = [apiURL 20 "cat" 20] /\
    rendered (world s') = [].
Proof.
  cbn zeta.
  assert (Hno : forall found,
             ~ upstream_finds (stub 503 50 (Ok page)) (apiURL 20 "cat" 20)
                 found).
  { intros found (rs & body & Hg & Hs & _).
    injection Hg as <-. discriminate Hs. }
  split; [apply asks_for_stub |]. split; [exact Hno |].
  exact (searchHandler_upstream_failure (stub 503 50 (Ok page))
           (get "/search" "q=cat&page=2") "cat" 2 fresh
           (asks_for_stub 503 50 (Ok page)) Hno).
Defined.

Lemma searchHandler_default_page_witness :
  let env := stub 200 50 (Ok page) in
  let r := get "/search" "q=cat" in
  let u := {| Path := "/search"; RawQuery := "q=cat" |} in
  url_Parse env (URL_String env (URL r)) = Ok u /\
  Values_Get (URL_Query env u) "page" = "" /\
  fetched (world (snd (searchHandler env r fresh))) = [apiURL 20 "cat" 0] /\
  exists m,
    rendered (world (snd (searchHandler env r fresh))) = [Some m] /\
    NextPage m = 2 /\ CurrentPage m = 1.
Proof.
  cbn zeta. do 2 (split; [reflexivity |]).
  destruct (searchHandler_default_page (stub 200 50 (Ok page))
              (get "/search" "q=cat")
              {| Path := "/search"; RawQuery := "q=cat" |} fresh
              eq_refl eq_refl) as [Hfetch Hmodel].
  split; [exact Hfetch |].
  exact (Hmodel (stub_found 50) (upstream_finds_stub 50 (Ok page) _)).
Defined.


Lemma requestLogger_nil_panic_witness :
  let env := stub 200 50 (Ok page) in
  let r := get "/search" "q=cat&page=2" in
  panicking any_nil _ _ (served_request env "c0rr" r)
    (served_state "c0rr" fresh) =
  (Panics any_nil, served_state "c0rr" fresh) /\
  fst (requestLogger env (panicking any_nil) "c0rr" r fresh) = Returns tt /\
  statusCode (resp (snd (requestLogger_run env (panicking any_nil) "c0rr" r
                           fresh))) = 200.
Proof.
  cbn zeta. split; [reflexivity |].
  destruct (requestLogger_nil_panic (stub 200 50 (Ok page))
              (panicking any_nil) "c0rr" (get "/search" "q=cat&page=2")
              fresh (served_state "c0rr" fresh) eq_refl)
    as (Hf & Hs & _).
  split; [exact Hf | exact Hs].
Defined.

Lemma requestLogger_logs_sent_status_witness :
  let env := stub 200 50 (Ok page) in
  let r := get "/search" "q=cat&page=2" in
  untouched (resp fresh) /\
  Level_rank (level (logger_Get env)) <= Level_rank InfoLevel /\
  fst (requestLogger env (adapted env (fun W H => @indexHandler W H env))
         "c0rr" r fresh) = Returns tt /\
  fst (requestLogger env (adapted env (fun W H => @searchHandler W H env))
         "c0rr" r fresh) = Returns tt.
Proof.
  cbn zeta.
  assert (Hlvl : Level_rank (level (logger_Get (stub 200 50 (Ok page)))) <=
                 Level_rank InfoLevel) by (cbn; lia).
  split; [apply untouched_fresh |]. split; [exact Hlvl |].
  destruct (requestLogger_logs_sent_status (stub 200 50 (Ok page)) "c0rr"
              (get "/search" "q=cat&page=2") fresh untouched_fresh Hlvl)
    as [[Hindex _] [Hsearch _]].
  split; [exact Hindex | exact Hsearch].
Defined.

Lemma requestLogger_logs_unsent_status_witness :
  let env := stub 200 50 (Ok page) in
  let r := get "/" "" in
  let fn := fun W H => @failing_late W H in
  let s1 := snd (fn _ _ (served_request env "c0rr" r)
                   (served_state "c0rr" fresh)) in
  fn _ _ (served_request env "c0rr" r) (served_state "c0rr" fresh) =
  (Returns (Some (errorString "boom")), s1) /\
  wroteHeader (embedded (resp s1)) = true /\
  Level_rank (level (logger_Get env)) <= Level_rank InfoLevel /\
  Code (resp (snd (requestLogger env (adapted env fn) "c0rr" r fresh))) = 200 /\
  exists before fields,
    logs (world (snd (requestLogger env (adapted env fn) "c0rr" r fresh))) =
    (before ++ [Event InfoLevel fields "incoming request"])%list /\
    In ("status_code", FInt 500) fields.
Proof.
  cbn zeta.
  assert (Hlvl : Level_rank (level (logger_Get (stub 200 50 (Ok page)))) <=
                 Level_rank InfoLevel) by (cbn; lia).
  match goal with
  | |- ?run = (?o, ?s1) /\ _ =>
      assert (Hrun : run = (o, s1)) by reflexivity
  end.
  split; [exact Hrun |]. split; [reflexivity |]. split; [exact Hlvl |].
  exact (requestLogger_logs_unsent_status (stub 200 50 (Ok page))
           (fun W H => @failing_late W H) "c0rr" (get "/" "") fresh
           (errorString "boom") _ Hrun eq_refl Hlvl).
Defined.

Lemma requestLogger_correlates_witness :
  let env := stub 200 50 (Ok page) in
  let r := get "/search" "q=cat&page=2" in
  logged (carries "c0rr") fresh
    (snd (requestLogger env
            (adapted env (fun W' H' => @searchHandler W' H' env)) "c0rr" r
            fresh)).
Proof.
  cbn zeta.
  exact (proj2 (requestLogger_correlates (stub 200 50 (Ok page)) "c0rr"
                  (get "/search" "q=cat&page=2")) fresh).
Defined.

Lemma requestLogger_sets_header_witness :
  let env := stub 200 50 (Ok page) in
  let r := get "/search" "q=cat&page=2" in
  lookup "X-Correlation-Id" (HeaderMap (resp fresh)) = [] /\
  Header_Get
    (HeaderMap
       (resp (snd (requestLogger env
                     (adapted env (fun W H => @searchHandler W H env))
                     "c0rr" r fresh))))
    "X-Correlation-ID" = "c0rr".
Proof.
  cbn zeta. split; [reflexivity |].
  exact (proj2 (proj2 (requestLogger_sets_header (stub 200 50 (Ok page))
                         "c0rr" (get "/search" "q=cat&page=2") fresh))
           eq_refl).
Defined.

Lemma searchHandler_page_round_trip_witness :
  let env := stub 200 50 (Ok page) in
  let r := get "/search" "q=cat&page=-3" in
  let u := {| Path := "/search"; RawQuery := "q=cat&page=-3" |} in
  url_Parse env (URL_String env (URL r)) = Ok u /\
  Values_Get (URL_Query env u) "page" = Sprintf_d (-3) /\
  GoInt.min_int <= -3 <= GoInt.max_int /\
  Atoi (Sprintf_d (-3)) = Ok (-3) /\
  fetched (world (snd (searchHandler env r fresh))) =
  [apiURL 20 "cat" (-80)].
Proof.
  cbn zeta.
  assert (Hp : GoInt.min_int <= -3 <= GoInt.max_int)
    by (unfold GoInt.min_int, GoInt.max_int; lia).
  do 2 (split; [reflexivity |]). split; [exact Hp |].
  destruct (searchHandler_page_round_trip (stub 200 50 (Ok page))
              (get "/search" "q=cat&page=-3")
              {| Path := "/search"; RawQuery := "q=cat&page=-3" |} (-3) fresh
              eq_refl eq_refl Hp) as (Hrt & _ & Hfetch).
  split; [exact Hrt | exact Hfetch].
Defined.
